(** * GeoJSON plot-boundary validators

    A shallow embedding of the two validators of the portal,
    [geojsonValidatorWithSteps.ts] (diagnostics-capable engine, module
    [WithSteps]) and [geojsonValidator.ts] (plain engine, module [Plain]),
    together with the part of the JavaScript host semantics their code
    relies on: dynamically typed values, property access, the coercions
    applied by arithmetic and template literals, IEEE-754 binary64 numbers
    and uncaught [TypeError]s.

    Conventions of the model:
    - a function that mutates [results] takes a result and returns the
      new one; a function that can raise returns an [Exn];
    - numbers are binary64 floats ([PrimFloat]); array lengths and loop
      counters, which stay small integers, are natural numbers;
    - a document is a tree of values (no array or object occurs twice),
      strings are made of 8-bit code units, and objects carry no property
      of the names found on built-in prototypes;
    - [Math.acos] and the numeric reading of strings are supplied by the
      host ([Host]); everything else is defined here. *)

From Stdlib Require Import List String Ascii Bool ZArith Arith Lia.
From Stdlib Require Import PrimFloat FloatOps SpecFloat Uint63 DecimalString.
From Stdlib Require FloatAxioms.
Import ListNotations.
Set Warnings "-inexact-float,-register-all".

Local Open Scope list_scope.
Local Open Scope string_scope.

(** ** Completion records: a value or an uncaught exception

    Every exception these programs can raise is a [TypeError] of the host
    (reading a property of [null]/[undefined], calling a non-function, [in]
    on a primitive, converting an object without a callable [toString]).
    None is caught by the validators, so the kind is all that is kept. *)

Inductive Exn (A : Type) : Type :=
| Ok (a : A)
| Throw.
Arguments Ok {A} a.
Arguments Throw {A}.

Definition bind {A B : Type} (m : Exn A) (k : A -> Exn B) : Exn B :=
  match m with
  | Ok a => k a
  | Throw => Throw
  end.

Notation "x <- m ;; k" := (bind m (fun x => k))
  (at level 61, m at next level, right associativity).

Definition returned {A : Type} (m : Exn A) : bool :=
  match m with Ok _ => true | Throw => false end.

(** ** JavaScript values

    The values a parsed JSON document is made of, plus [undefined].  A
    document is a tree: every array and object node is a distinct object.
    Strings are sequences of 8-bit code units; objects are association
    lists in which the first binding of a key is the property. *)

Inductive JsVal : Type :=
| JUndefined
| JNull
| JBool (b : bool)
| JNum (x : float)
| JStr (s : string)
| JArr (elems : list JsVal)
| JObj (fields : list (string * JsVal)).

Fixpoint lookup (k : string) (fields : list (string * JsVal)) : option JsVal :=
  match fields with
  | [] => None
  | (k', v) :: rest => if String.eqb k k' then Some v else lookup k rest
  end.

Definition hasKey (k : string) (fields : list (string * JsVal)) : bool :=
  match lookup k fields with Some _ => true | None => false end.

(** ** Numbers: ECMAScript built-ins over binary64 *)

Definition float_of_Z (z : Z) : float :=
  match z with
  | Z0 => 0%float
  | Zpos _ => PrimFloat.of_uint63 (Uint63.of_Z z)
  | Zneg p => PrimFloat.opp (PrimFloat.of_uint63 (Uint63.of_Z (Zpos p)))
  end.

Definition float_of_nat (n : nat) : float := float_of_Z (Z.of_nat n).

(** [Math.round]: the closest integral value, ties towards +infinity; the
    sign of a zero result follows the argument. *)
Definition Math_round (x : float) : float :=
  match Prim2SF x with
  | S754_finite s m e =>
      if (0 <=? e)%Z then x
      else
        let d := (2 ^ (- e))%Z in
        let v := (if s then Zneg m else Zpos m) in
        let r := ((2 * v + d) / (2 * d))%Z in
        if (r =? 0)%Z then (if s then (-0)%float else 0%float) else float_of_Z r
  | _ => x
  end.

(** [Math.min] and [Math.max] of two arguments. *)
Definition Math_min (a b : float) : float :=
  if PrimFloat.is_nan a || PrimFloat.is_nan b then PrimFloat.nan
  else if PrimFloat.ltb a b then a
  else if PrimFloat.ltb b a then b
  else if PrimFloat.get_sign a then a else b.

Definition Math_max (a b : float) : float :=
  if PrimFloat.is_nan a || PrimFloat.is_nan b then PrimFloat.nan
  else if PrimFloat.ltb a b then b
  else if PrimFloat.ltb b a then a
  else if PrimFloat.get_sign a then b else a.

Definition Math_sqrt (x : float) : float := PrimFloat.sqrt x.

Definition Math_PI : float := 3.141592653589793%float.

(** *** [Number::toString] (radix 10)

    The shortest decimal digit string [s] (with [k] digits) and exponent
    [n] such that [s * 10^(n-k)] reads back as the same binary64 value,
    laid out in positional or exponent notation as ECMA-262 prescribes. *)

(** Compare [s * 10^q] with [l * 2^e], exactly. *)
Definition cmp_dec_bin (s q l e : Z) : comparison :=
  (s * 10 ^ Z.max q 0 * 2 ^ Z.max (- e) 0 ?= l * 2 ^ Z.max e 0 * 10 ^ Z.max (- q) 0)%Z.

(** [floor (v * 2^e / 10^q)]. *)
Definition floor_dec (v e q : Z) : Z :=
  ((v * 2 ^ Z.max e 0 * 10 ^ Z.max (- q) 0) / (2 ^ Z.max (- e) 0 * 10 ^ Z.max q 0))%Z.

Fixpoint adjust_down (fuel : nat) (v e n : Z) : Z :=
  match fuel with
  | O => n
  | S f =>
      match cmp_dec_bin 1 (n - 1) v e with
      | Gt => adjust_down f v e (n - 1)
      | _ => n
      end
  end.

Fixpoint adjust_up (fuel : nat) (v e n : Z) : Z :=
  match fuel with
  | O => n
  | S f =>
      match cmp_dec_bin 1 n v e with
      | Gt => n
      | _ => adjust_up f v e (n + 1)
      end
  end.

(** The [n] with [10^(n-1) <= v * 2^e < 10^n], for [v > 0]. *)
Definition decimal_exponent (v e : Z) : Z :=
  let estimate := ((Z.log2 v + e) * 1233 / 4096 + 1)%Z in
  adjust_up 8 v e (adjust_down 8 v e estimate).

Definition in_interval (closed : bool) (s q lo hi e : Z) : bool :=
  match cmp_dec_bin s q lo e, cmp_dec_bin s q hi e with
  | Gt, Lt => true
  | Eq, Lt | Gt, Eq => closed
  | _, _ => false
  end.

(** Digits [s] and exponent [n] for the value [v * 2^e] whose rounding
    interval is [lo * 2^e .. hi * 2^e] (closed when the mantissa is even),
    trying [k], [k+1], ... digits. *)
Fixpoint shortest_digits (fuel : nat) (k : Z) (closed : bool) (v lo hi e n0 : Z)
  : Z * Z :=
  match fuel with
  | O => (0%Z, n0)
  | S f =>
      let q := (n0 - k)%Z in
      let s_lo := floor_dec v e q in
      let s_hi := (s_lo + 1)%Z in
      let up := if (s_hi =? 10 ^ k)%Z then ((10 ^ (k - 1))%Z, (n0 + 1)%Z) else (s_hi, n0) in
      match in_interval closed s_lo q lo hi e, in_interval closed s_hi q lo hi e with
      | true, true =>
          match cmp_dec_bin (2 * s_lo + 1) q (2 * v) e with
          | Gt => (s_lo, n0)
          | Lt => up
          | Eq => if Z.even s_lo then (s_lo, n0) else up
          end
      | true, false => (s_lo, n0)
      | false, true => up
      | false, false => shortest_digits f (k + 1) closed v lo hi e n0
      end
  end.

Definition digits_of_Z (z : Z) : string := NilZero.string_of_uint (N.to_uint (Z.to_N z)).

Fixpoint zeros (n : nat) : string :=
  match n with
  | O => ""
  | S n' => String "0" (zeros n')
  end.

Definition layout_number (digits : string) (n : Z) : string :=
  let k := Z.of_nat (String.length digits) in
  if ((k <=? n) && (n <=? 21))%Z then digits ++ zeros (Z.to_nat (n - k))
  else if ((0 <? n) && (n <=? 21))%Z then
    substring 0 (Z.to_nat n) digits ++ "." ++ substring (Z.to_nat n) (Z.to_nat (k - n)) digits
  else if ((-6 <? n) && (n <=? 0))%Z then "0." ++ zeros (Z.to_nat (- n)) ++ digits
  else
    let e := (n - 1)%Z in
    let exponent := (if (e <? 0)%Z then "-" else "+") ++ digits_of_Z (Z.abs e) in
    if (k =? 1)%Z then digits ++ "e" ++ exponent
    else substring 0 1 digits ++ "." ++ substring 1 (Z.to_nat (k - 1)) digits ++ "e" ++ exponent.

(** The digits [s] and the exponent [n] of the finite non-zero value
    [m * 2^e]: its shortest decimal is [0.s * 10^n]. *)
Definition shortest_decimal (m : positive) (e : Z) : Z * Z :=
  let v := (4 * Zpos m)%Z in
  let below := if ((Zpos m =? 2 ^ 52) && (-1074 <? e))%Z then 1%Z else 2%Z in
  let n0 := decimal_exponent v (e - 2) in
  shortest_digits 20 1 (Z.even (Zpos m)) v (v - below) (v + 2) (e - 2) n0.

Definition Number_toString (x : float) : string :=
  match Prim2SF x with
  | S754_nan => "NaN"
  | S754_zero _ => "0"
  | S754_infinity s => if s then "-Infinity" else "Infinity"
  | S754_finite s m e =>
      let (digits, n) := shortest_decimal m e in
      (if s then "-" else "") ++ layout_number (digits_of_Z digits) n
  end.

(** The number of digits after the decimal point when a number is written
    out positionally with its shortest digits: 0.0000001 has seven. *)
Definition fractionalDigits (x : float) : nat :=
  match Prim2SF x with
  | S754_finite _ m e =>
      let (digits, n) := shortest_decimal m e in
      Z.to_nat (Z.of_nat (String.length (digits_of_Z digits)) - n)
  | _ => O
  end.

(** *** [Number.prototype.toFixed(1)] *)
Definition Number_toFixed1 (x : float) : string :=
  match Prim2SF x with
  | S754_nan => "NaN"
  | S754_infinity _ => Number_toString x
  | S754_zero _ => "0.0"
  | S754_finite s m e =>
      if PrimFloat.leb 1e21 (PrimFloat.abs x) then Number_toString x
      else
        let n :=
          if (0 <=? e)%Z then (10 * Zpos m * 2 ^ e)%Z
          else ((20 * Zpos m + 2 ^ (- e)) / (2 * 2 ^ (- e)))%Z in
        (if s then "-" else "")
        ++ digits_of_Z (n / 10) ++ "." ++ digits_of_Z (n mod 10)
  end.

Definition nat_toString (n : nat) : string := NilZero.string_of_uint (Nat.to_uint n).

(** ** Dynamic typing: the host operations the validators use *)

(** What the host supplies beyond IEEE arithmetic.  [Math.acos] is
    implementation-approximated in ECMA-262; [StringToNumber] is the
    numeric reading of a string, applied when a non-numeric value reaches
    an arithmetic operator.  Both are left to the host. *)
Record Host : Type := {
  Math_acos : float -> float;
  StringToNumber : string -> float
}.

Definition typeof (v : JsVal) : string :=
  match v with
  | JUndefined => "undefined"
  | JNull => "object"
  | JBool _ => "boolean"
  | JNum _ => "number"
  | JStr _ => "string"
  | JArr _ => "object"
  | JObj _ => "object"
  end.

Definition ToBoolean (v : JsVal) : bool :=
  match v with
  | JUndefined | JNull => false
  | JBool b => b
  | JNum x => negb (PrimFloat.is_nan x || PrimFloat.is_zero x)
  | JStr s => negb (String.eqb s "")
  | JArr _ | JObj _ => true
  end.

(** [a === b].  Two arrays or objects are equal only when they are the
    same object; in a document tree that is decided by where the operands
    come from, which the caller passes as [same]. *)
Definition StrictEquals (same : bool) (a b : JsVal) : bool :=
  match a, b with
  | JUndefined, JUndefined => true
  | JNull, JNull => true
  | JBool x, JBool y => Bool.eqb x y
  | JNum x, JNum y => PrimFloat.eqb x y
  | JStr x, JStr y => String.eqb x y
  | JArr _, JArr _ => same
  | JObj _, JObj _ => same
  | _, _ => false
  end.

(** [v.k] for a property name [k] that is not an array index and is not
    defined on a built-in prototype (every name these programs read:
    [type], [features], [properties], [geometry], [coordinates], [length],
    [area], [plot_ID], [farmer_name]). *)
Definition Get (v : JsVal) (k : string) : Exn JsVal :=
  match v with
  | JUndefined | JNull => Throw
  | JObj fields => Ok (match lookup k fields with Some x => x | None => JUndefined end)
  | JArr elems =>
      Ok (if String.eqb k "length" then JNum (float_of_nat (List.length elems)) else JUndefined)
  | JStr s =>
      Ok (if String.eqb k "length" then JNum (float_of_nat (String.length s)) else JUndefined)
  | JBool _ | JNum _ => Ok JUndefined
  end.

(** [v[i]] for a non-negative integer [i]. *)
Definition GetAt (v : JsVal) (i : nat) : Exn JsVal :=
  match v with
  | JUndefined | JNull => Throw
  | JObj fields =>
      Ok (match lookup (nat_toString i) fields with Some x => x | None => JUndefined end)
  | JArr elems => Ok (nth i elems JUndefined)
  | JStr s => Ok (if (i <? String.length s)%nat then JStr (substring i 1 s) else JUndefined)
  | JBool _ | JNum _ => Ok JUndefined
  end.

(** The non-negative integer a number denotes, if any. *)
Definition integer_value (x : float) : option Z :=
  match Prim2SF x with
  | S754_zero _ => Some 0%Z
  | S754_finite false m e =>
      if (0 <=? e)%Z then Some (Zpos m * 2 ^ e)%Z
      else if (Zpos m mod 2 ^ (- e) =? 0)%Z then Some (Zpos m / 2 ^ (- e))%Z
      else None
  | _ => None
  end.

(** [v[x]] for a computed numeric key [x]: the property named
    [Number::toString x], which for an array or a string exists when [x]
    is an integer within bounds. *)
Definition GetIndex (v : JsVal) (x : float) : Exn JsVal :=
  match v with
  | JUndefined | JNull => Throw
  | JObj fields =>
      Ok (match lookup (Number_toString x) fields with Some y => y | None => JUndefined end)
  | JArr elems =>
      match integer_value x with
      | Some i =>
          if (i <? Z.of_nat (List.length elems))%Z then GetAt v (Z.to_nat i) else Ok JUndefined
      | None => Ok JUndefined
      end
  | JStr s =>
      match integer_value x with
      | Some i =>
          if (i <? Z.of_nat (String.length s))%Z then GetAt v (Z.to_nat i) else Ok JUndefined
      | None => Ok JUndefined
      end
  | JBool _ | JNum _ => Ok JUndefined
  end.

(** [k in v], for the same property names as [Get]. *)
Definition HasProperty (k : string) (v : JsVal) : Exn bool :=
  match v with
  | JObj fields => Ok (hasKey k fields)
  | JArr _ => Ok (String.eqb k "length")
  | _ => Throw
  end.

(** [ToString], as applied by template literals and by [Array.prototype.join].
    An object converts through [Object.prototype.toString] unless an own
    [toString] property (never callable in parsed JSON) shadows it. *)
Fixpoint ToString (v : JsVal) : Exn string :=
  match v with
  | JUndefined => Ok "undefined"
  | JNull => Ok "null"
  | JBool b => Ok (if b then "true" else "false")
  | JNum x => Ok (Number_toString x)
  | JStr s => Ok s
  | JArr elems =>
      (fix join (l : list JsVal) : Exn string :=
         match l with
         | [] => Ok ""
         | x :: rest =>
             sx <- match x with
                   | JUndefined | JNull => Ok ""
                   | _ => ToString x
                   end ;;
             match rest with
             | [] => Ok sx
             | _ :: _ => srest <- join rest ;; Ok (sx ++ "," ++ srest)
             end
         end) elems
  | JObj fields => if hasKey "toString" fields then Throw else Ok "[object Object]"
  end.

(** [ToNumber], as applied by [-] and by [<] against a number. *)
Definition ToNumber (host : Host) (v : JsVal) : Exn float :=
  match v with
  | JUndefined => Ok PrimFloat.nan
  | JNull => Ok 0%float
  | JBool b => Ok (if b then 1%float else 0%float)
  | JNum x => Ok x
  | JStr s => Ok (StringToNumber host s)
  | JArr _ | JObj _ => s <- ToString v ;; Ok (StringToNumber host s)
  end.

(** [a - b]. *)
Definition js_sub (host : Host) (a b : JsVal) : Exn float :=
  x <- ToNumber host a ;;
  y <- ToNumber host b ;;
  Ok (x - y)%float.

(** A counted loop [for (let i = from; i < from + count; i++) body]. *)
Fixpoint forLoop {R : Type} (from count : nat) (body : nat -> R -> Exn R) (r : R) : Exn R :=
  match count with
  | O => Ok r
  | S c => r' <- body from r ;; forLoop (S from) c body r'
  end.

(** [array.forEach((x, i) => body)], indices starting at [from]. *)
Fixpoint forEach {A R : Type} (l : list A) (from : nat)
  (body : A -> nat -> R -> Exn R) (r : R) : Exn R :=
  match l with
  | [] => Ok r
  | x :: rest => r' <- body x from r ;; forEach rest (S from) body r'
  end.

(** [array.map((x, i) => body)], indices starting at [from]. *)
Fixpoint mapIndexed {A B : Type} (l : list A) (from : nat)
  (body : A -> nat -> Exn B) : Exn (list B) :=
  match l with
  | [] => Ok []
  | x :: rest =>
      y <- body x from ;;
      ys <- mapIndexed rest (S from) body ;;
      Ok (y :: ys)
  end.

(** [v?.k] *)
Definition OptGet (v : JsVal) (k : string) : Exn JsVal :=
  match v with
  | JUndefined | JNull => Ok JUndefined
  | _ => Get v k
  end.

(** [array.includes(v)] for an array of string literals. *)
Definition includes (l : list string) (v : JsVal) : bool :=
  existsb (fun s => StrictEquals false (JStr s) v) l.

(** The degree sign, one code unit. *)
Definition degree_sign : string := String (ascii_of_nat 176) "".

(** ** Geometry helpers

    [calculateAngle] and [segmentsIntersect] are defined twice in the
    sources, once per validator, with identical bodies. *)
Section Geometry.
Variable host : Host.

Definition calculateAngle (p1 p2 p3 : JsVal) : Exn float :=
  p10 <- GetAt p1 0 ;; p20 <- GetAt p2 0 ;; v10 <- js_sub host p10 p20 ;;
  p11 <- GetAt p1 1 ;; p21 <- GetAt p2 1 ;; v11 <- js_sub host p11 p21 ;;
  p30 <- GetAt p3 0 ;; p20' <- GetAt p2 0 ;; v20 <- js_sub host p30 p20' ;;
  p31 <- GetAt p3 1 ;; p21' <- GetAt p2 1 ;; v21 <- js_sub host p31 p21' ;;
  let dotProduct := (v10 * v20 + v11 * v21)%float in
  let mag1 := Math_sqrt (v10 * v10 + v11 * v11)%float in
  let mag2 := Math_sqrt (v20 * v20 + v21 * v21)%float in
  if PrimFloat.eqb mag1 0 || PrimFloat.eqb mag2 0 then Ok 180%float
  else
    let cosTheta := Math_max (-1) (Math_min 1 (dotProduct / (mag1 * mag2)))%float in
    Ok (Math_acos host cosTheta * (180 / Math_PI))%float.

Definition ccw (a b c : JsVal) : Exn bool :=
  c1 <- GetAt c 1 ;; a1 <- GetAt a 1 ;; d1 <- js_sub host c1 a1 ;;
  b0 <- GetAt b 0 ;; a0 <- GetAt a 0 ;; d2 <- js_sub host b0 a0 ;;
  b1 <- GetAt b 1 ;; a1' <- GetAt a 1 ;; d3 <- js_sub host b1 a1' ;;
  c0 <- GetAt c 0 ;; a0' <- GetAt a 0 ;; d4 <- js_sub host c0 a0' ;;
  Ok (PrimFloat.ltb (d3 * d4) (d1 * d2))%float.

Definition segmentsIntersect (p1 p2 p3 p4 : JsVal) : Exn bool :=
  x1 <- ccw p1 p3 p4 ;;
  x2 <- ccw p2 p3 p4 ;;
  if negb (Bool.eqb x1 x2) then
    y1 <- ccw p1 p2 p3 ;;
    y2 <- ccw p1 p2 p4 ;;
    Ok (negb (Bool.eqb y1 y2))
  else Ok false.

(** The scan shared by [checkSelfIntersections] and
    [checkSelfIntersectionsWithSteps]: does some examined pair of
    segments intersect?  [count] is the number of iterations left. *)
Fixpoint scanInner (ring : list JsVal) (i j count : nat) : Exn bool :=
  match count with
  | O => Ok false
  | S c =>
      if ((i =? 0) && (j =? List.length ring - 2))%nat then scanInner ring i (S j) c
      else
        hit <- segmentsIntersect (nth i ring JUndefined) (nth (i + 1) ring JUndefined)
                                 (nth j ring JUndefined) (nth (j + 1) ring JUndefined) ;;
        if hit then Ok true else scanInner ring i (S j) c
  end.

Fixpoint scanOuter (ring : list JsVal) (i count : nat) : Exn bool :=
  match count with
  | O => Ok false
  | S c =>
      found <- scanInner ring i (i + 2) (List.length ring - 1 - (i + 2)) ;;
      if found then Ok true else scanOuter ring (S i) c
  end.

Definition scanSelfIntersections (ring : list JsVal) : Exn bool :=
  scanOuter ring 0 (List.length ring - 1).
End Geometry.

(** ** The diagnostics-capable engine ([geojsonValidatorWithSteps.ts]) *)
Module WithSteps.

Record ValidationStep : Type := {
  rule : string;
  passed : bool;
  message : string
}.

Record ValidationResultWithSteps : Type := {
  isValid : bool;
  errors : list string;
  steps : list ValidationStep
}.

(** The fields [isValid], [errors] and [steps] of the source carry the
    prefix [plot] here, to tell them from those of the record above. *)
Record PerPlotValidationResult : Type := {
  plotId : JsVal;
  farmer : JsVal;
  plotIsValid : bool;
  plotErrors : list string;
  plotSteps : list ValidationStep
}.

Definition emptyResult : ValidationResultWithSteps :=
  {| isValid := true; errors := []; steps := [] |}.

Definition addError (results : ValidationResultWithSteps) (message : string)
  : ValidationResultWithSteps :=
  {| isValid := false;
     errors := (errors results ++ [message])%list;
     steps := steps results |}.

Definition addStep (results : ValidationResultWithSteps) (rule : string) (passed : bool)
  (message : string) : ValidationResultWithSteps :=
  {| isValid := isValid results;
     errors := errors results;
     steps := (steps results ++ [{| rule := rule; passed := passed; message := message |}])%list |}.

Definition featureLabel (index : nat) : string := "Feature " ++ nat_toString index.

Definition pointLabel (featureIndex pointIndex : nat) : string :=
  featureLabel featureIndex ++ " Point " ++ nat_toString pointIndex.

(** [Math.round(val * 1e6) / 1e6] *)
Definition roundTo6 (x : float) : float := (Math_round (x * 1e6) / 1e6)%float.

(** The callback of [coord.map] in [roundCoord]. *)
Definition roundValue (val : JsVal) : JsVal :=
  match val with
  | JNum x => JNum (roundTo6 x)
  | _ => val
  end.

Definition roundCoord (coord : JsVal) : Exn (list JsVal) :=
  match coord with
  | JArr elems => Ok (map roundValue elems)
  | _ => Throw
  end.

(** The two arguments are always distinct positions of a ring, so no array
    or object inside one is the same object as one inside the other. *)
Definition pointsEqual (p1 p2 : JsVal) : Exn bool :=
  r1 <- roundCoord p1 ;;
  r2 <- roundCoord p2 ;;
  Ok ((List.length r1 =? List.length r2)%nat
      && forallb (fun ab => StrictEquals false (fst ab) (snd ab)) (combine r1 r2)).

Section Engine.
Variable host : Host.

Definition checkExcessiveStraightLinesWithSteps (ring : list JsVal) (featureIndex : nat)
  (results : ValidationResultWithSteps) : Exn ValidationResultWithSteps :=
  let F := featureLabel featureIndex in
  triangle <-
    (if (List.length ring =? 4)%nat
     then pointsEqual (nth 0 ring JUndefined) (nth (List.length ring - 1) ring JUndefined)
     else Ok false) ;;
  if triangle then
    Ok (addStep results (F ++ " straight lines") true
          (F ++ ": Polygon is a closed triangle (acceptable)"))
  else if (List.length ring <=? 4)%nat then
    let msg :=
      F ++ ": Polygon may have excessive straight lines (not enough points for curves)" in
    Ok (addError (addStep results (F ++ " straight lines") false msg) msg)
  else
    Ok (addStep results (F ++ " straight lines") true
          (F ++ ": Polygon has enough points for curves")).

Definition checkForSpikesWithSteps (ring : list JsVal) (featureIndex : nat)
  (results : ValidationResultWithSteps) : Exn ValidationResultWithSteps :=
  let F := featureLabel featureIndex in
  state <-
    forLoop 1 (List.length ring - 1 - 1)
      (fun i (state : ValidationResultWithSteps * bool) =>
         let (results, found) := state in
         angle <- calculateAngle host (nth (i - 1) ring JUndefined) (nth i ring JUndefined)
                                      (nth (i + 1) ring JUndefined) ;;
         if PrimFloat.ltb angle 5 then
           let msg :=
             F ++ ": Spike vertex detected (" ++ Number_toFixed1 angle ++ degree_sign ++ ")" in
           Ok (addError (addStep results (F ++ " spike vertex") false msg) msg, true)
         else Ok (results, found))
      (results, false) ;;
  let (results, found) := state : ValidationResultWithSteps * bool in
  if negb found then
    Ok (addStep results (F ++ " spike vertex") true (F ++ ": No spike vertices"))
  else Ok results.

Definition checkSelfIntersectionsWithSteps (ring : list JsVal) (featureIndex : nat)
  (results : ValidationResultWithSteps) : Exn ValidationResultWithSteps :=
  let F := featureLabel featureIndex in
  found <- scanSelfIntersections host ring ;;
  if found then
    let msg := F ++ ": Self-intersection detected" in
    Ok (addError (addStep results (F ++ " self-intersection") false msg) msg)
  else
    Ok (addStep results (F ++ " self-intersection") true (F ++ ": No self-intersections")).

Definition validateCoordinateWithSteps (coord : JsVal) (featureIndex ringIndex pointIndex : nat)
  (results : ValidationResultWithSteps) : Exn ValidationResultWithSteps :=
  let P := pointLabel featureIndex pointIndex in
  match coord with
  | JArr elems =>
      if (List.length elems <? 2)%nat || (3 <? List.length elems)%nat then
        let msg := P ++ ": Invalid coordinate format" in
        Ok (addError (addStep results (P ++ " format") false msg) msg)
      else
        let results := addStep results (P ++ " format") true
                         (P ++ ": Coordinate format is valid") in
        let lon := nth 0 elems JUndefined in
        let lat := nth 1 elems JUndefined in
        results <-
          match lon with
          | JNum x =>
              if PrimFloat.ltb x (-180) || PrimFloat.ltb 180 x then
                let msg := P ++ ": Invalid longitude " ++ Number_toString x in
                Ok (addError (addStep results (P ++ " longitude") false msg) msg)
              else
                Ok (addStep results (P ++ " longitude") true (P ++ ": Longitude is valid"))
          | _ =>
              shown <- ToString lon ;;
              let msg := P ++ ": Invalid longitude " ++ shown in
              Ok (addError (addStep results (P ++ " longitude") false msg) msg)
          end ;;
        match lat with
        | JNum y =>
            if PrimFloat.ltb y (-90) || PrimFloat.ltb 90 y then
              let msg := P ++ ": Invalid latitude " ++ Number_toString y in
              Ok (addError (addStep results (P ++ " latitude") false msg) msg)
            else
              Ok (addStep results (P ++ " latitude") true (P ++ ": Latitude is valid"))
        | _ =>
            shown <- ToString lat ;;
            let msg := P ++ ": Invalid latitude " ++ shown in
            Ok (addError (addStep results (P ++ " latitude") false msg) msg)
        end
  | _ =>
      let msg := P ++ ": Invalid coordinate format" in
      Ok (addError (addStep results (P ++ " format") false msg) msg)
  end.

Definition validateRingWithSteps (ring : JsVal) (featureIndex ringIndex : nat)
  (results : ValidationResultWithSteps) : Exn ValidationResultWithSteps :=
  let F := featureLabel featureIndex in
  match ring with
  | JArr ring =>
      let results := addStep results (F ++ " ring array") true
                       (F ++ ": Ring is an array of positions") in
      if (List.length ring <? 4)%nat then
        let msg := F ++ ": Ring must have at least 4 points" in
        Ok (addError (addStep results (F ++ " ring points") false msg) msg)
      else
        let results := addStep results (F ++ " ring points") true
                         (F ++ ": Ring has at least 4 points") in
        closed <- pointsEqual (nth 0 ring JUndefined)
                              (nth (List.length ring - 1) ring JUndefined) ;;
        let results :=
          if negb closed then
            let msg := F ++ ": Ring must be closed (first/last points identical)" in
            addError (addStep results (F ++ " ring closure") false msg) msg
          else addStep results (F ++ " ring closure") true (F ++ ": Ring is closed") in
        results <-
          forLoop 1 (List.length ring - 1)
            (fun i results =>
               dup <- pointsEqual (nth i ring JUndefined) (nth (i - 1) ring JUndefined) ;;
               if dup then
                 let msg := F ++ ": Duplicate consecutive points at " ++ nat_toString (i - 1)
                            ++ " and " ++ nat_toString i in
                 Ok (addError (addStep results (F ++ " duplicate points") false msg) msg)
               else Ok results)
            results ;;
        results <-
          forLoop 1 (List.length ring - 1)
            (fun i results =>
               dup <- pointsEqual (nth i ring JUndefined) (nth (i - 1) ring JUndefined) ;;
               if dup then
                 let msg := F ++ ": Zero-length edge at points " ++ nat_toString (i - 1)
                            ++ " and " ++ nat_toString i in
                 Ok (addError (addStep results (F ++ " zero-length edge") false msg) msg)
               else Ok results)
            results ;;
        results <-
          forEach ring 0
            (fun coord pointIndex results =>
               validateCoordinateWithSteps coord featureIndex ringIndex pointIndex results)
            results ;;
        results <- checkSelfIntersectionsWithSteps ring featureIndex results ;;
        results <- checkForSpikesWithSteps ring featureIndex results ;;
        checkExcessiveStraightLinesWithSteps ring featureIndex results
  | _ =>
      let msg := F ++ ": Ring must be an array of positions" in
      Ok (addError (addStep results (F ++ " ring array") false msg) msg)
  end.

Definition validatePolygonCoordinatesWithSteps (coordinates : list JsVal) (featureIndex : nat)
  (results : ValidationResultWithSteps) : Exn ValidationResultWithSteps :=
  let F := featureLabel featureIndex in
  if (1 <? List.length coordinates)%nat then
    let msg := F ++ ": Interior rings (holes) are not allowed" in
    Ok (addError (addStep results (F ++ " interior rings") false msg) msg)
  else
    let results := addStep results (F ++ " interior rings") true (F ++ ": No interior rings") in
    if (List.length coordinates =? 0)%nat then
      let msg := F ++ ": Polygon must have an exterior ring" in
      Ok (addError (addStep results (F ++ " exterior ring") false msg) msg)
    else
      let results := addStep results (F ++ " exterior ring") true
                       (F ++ ": Polygon has an exterior ring") in
      validateRingWithSteps (nth 0 coordinates JUndefined) featureIndex 0 results.

Definition validTypes : list string :=
  ["Point"; "LineString"; "Polygon"; "MultiPoint"; "MultiLineString"; "MultiPolygon";
   "GeometryCollection"].

Definition validateGeometryWithSteps (geometry : JsVal) (featureIndex : nat)
  (results : ValidationResultWithSteps) : Exn ValidationResultWithSteps :=
  let F := featureLabel featureIndex in
  type <- Get geometry "type" ;;
  if negb (ToBoolean type) || negb (includes validTypes type) then
    let msg := F ++ ": Invalid geometry type" in
    Ok (addError (addStep results (F ++ " geometry type") false msg) msg)
  else
    shown <- ToString type ;;
    let results := addStep results (F ++ " geometry type") true
                     (F ++ ": Geometry type is '" ++ shown ++ "'") in
    if negb (StrictEquals false type (JStr "Polygon")) then
      let msg := F ++ ": Only Polygon geometries are supported" in
      Ok (addError (addStep results (F ++ " geometry type") false msg) msg)
    else
      coordinates <- Get geometry "coordinates" ;;
      match coordinates with
      | JArr coordinates =>
          let results := addStep results (F ++ " coordinates") true
                           (F ++ ": Coordinates are an array") in
          validatePolygonCoordinatesWithSteps coordinates featureIndex results
      | _ =>
          let msg := F ++ ": Coordinates must be an array" in
          Ok (addError (addStep results (F ++ " coordinates") false msg) msg)
      end.

Definition requiredProps : list string := ["plot_ID"; "farmer_name"].

Definition validateFeatureWithSteps (feature : JsVal) (index : nat)
  (results : ValidationResultWithSteps) : Exn ValidationResultWithSteps :=
  let F := featureLabel index in
  type <- Get feature "type" ;;
  if negb (StrictEquals false type (JStr "Feature")) then
    let msg := F ++ ": Type must be 'Feature'" in
    Ok (addError (addStep results (F ++ " type") false msg) msg)
  else
    let results := addStep results (F ++ " type") true (F ++ " type is 'Feature'") in
    present <- HasProperty "properties" feature ;;
    properties <- Get feature "properties" ;;
    if negb present
       || (negb (StrictEquals false properties JNull)
           && negb (String.eqb (typeof properties) "object")) then
      let msg := F ++ ": 'properties' must be an object or null" in
      Ok (addError (addStep results (F ++ " properties") false msg) msg)
    else
      let results := addStep results (F ++ " properties") true
                       (F ++ ": 'properties' is valid") in
      results <-
        forEach requiredProps 0
          (fun prop _ results =>
             missing <-
               (if negb (ToBoolean properties) then Ok true
                else has <- HasProperty prop properties ;; Ok (negb has)) ;;
             if missing then
               let msg := F ++ ": Missing required property '" ++ prop ++ "'" in
               Ok (addError (addStep results (F ++ " property " ++ prop) false msg) msg)
             else
               Ok (addStep results (F ++ " property " ++ prop) true
                     (F ++ ": Property '" ++ prop ++ "' is present")))
          results ;;
      hasArea <- HasProperty "area" properties ;;
      results <-
        (if hasArea then
           area <- Get properties "area" ;;
           if negb (String.eqb (typeof area) "number") then
             let msg := F ++ ": 'area' property must be a number" in
             Ok (addError (addStep results (F ++ " property area") false msg) msg)
           else
             Ok (addStep results (F ++ " property area") true
                   (F ++ ": 'area' property is a number"))
         else Ok results) ;;
      hasGeometry <- HasProperty "geometry" feature ;;
      geometry <- Get feature "geometry" ;;
      if negb hasGeometry && negb (StrictEquals false geometry JNull) then
        let msg := F ++ ": Missing 'geometry' property" in
        Ok (addError (addStep results (F ++ " geometry") false msg) msg)
      else if StrictEquals false geometry JNull then
        Ok (addStep results (F ++ " geometry") true (F ++ ": geometry is null (allowed)"))
      else validateGeometryWithSteps geometry index results.

Definition validateGeoJSONWithSteps (geojson : JsVal) : Exn ValidationResultWithSteps :=
  let results := emptyResult in
  if negb (ToBoolean geojson) || negb (String.eqb (typeof geojson) "object") then
    Ok (addError (addStep results "Root type" false "GeoJSON must be a valid object")
          "GeoJSON must be a valid object")
  else
    type <- Get geojson "type" ;;
    if negb (StrictEquals false type (JStr "FeatureCollection")) then
      Ok (addError (addStep results "Root type" false "Root type must be 'FeatureCollection'")
            "Root type must be 'FeatureCollection'")
    else
      let results := addStep results "Root type" true "Root type is 'FeatureCollection'" in
      features <- Get geojson "features" ;;
      match features with
      | JArr ((_ :: _) as features) =>
          let results := addStep results "Features array" true
                           "'features' is a non-empty array" in
          forEach features 0
            (fun feature index results => validateFeatureWithSteps feature index results)
            results
      | _ =>
          Ok (addError (addStep results "Features array" false
                          "'features' must be a non-empty array")
                "'features' must be a non-empty array")
      end.

(** The callback of [geojson.features.map] in [validateAllPlotsWithSteps]. *)
Definition validatePlot (feature : JsVal) (index : nat) : Exn PerPlotValidationResult :=
  stepsResult <- validateFeatureWithSteps feature index emptyResult ;;
  properties <- OptGet feature "properties" ;;
  plot_ID <- OptGet properties "plot_ID" ;;
  properties' <- OptGet feature "properties" ;;
  farmer_name <- OptGet properties' "farmer_name" ;;
  Ok {| plotId := if ToBoolean plot_ID then plot_ID else JStr (featureLabel index);
        farmer := if ToBoolean farmer_name then farmer_name else JStr "";
        plotIsValid := isValid stepsResult;
        plotErrors := errors stepsResult;
        plotSteps := steps stepsResult |}.

Definition validateAllPlotsWithSteps (geojson : JsVal) : Exn (list PerPlotValidationResult) :=
  if negb (ToBoolean geojson) || negb (String.eqb (typeof geojson) "object") then Ok []
  else
    type <- Get geojson "type" ;;
    if negb (StrictEquals false type (JStr "FeatureCollection")) then Ok []
    else
      features <- Get geojson "features" ;;
      match features with
      | JArr features => mapIndexed features 0 validatePlot
      | _ => Ok []
      end.
End Engine.

End WithSteps.

(** ** The plain engine ([geojsonValidator.ts]) *)
Module Plain.

Record ValidationResult : Type := {
  isValid : bool;
  errors : list string
}.

Definition emptyResult : ValidationResult := {| isValid := true; errors := [] |}.

Definition addError (results : ValidationResult) (message : string) : ValidationResult :=
  {| isValid := false; errors := (errors results ++ [message])%list |}.

Definition featureLabel (index : nat) : string := "Feature " ++ nat_toString index.

Definition pointLabel (featureIndex pointIndex : nat) : string :=
  featureLabel featureIndex ++ " Point " ++ nat_toString pointIndex.

(** [p1.every((val, i) => val === p2[i])] over the elements of [p1] from
    index [i] on. *)
Fixpoint everyEqual (same : bool) (elems : list JsVal) (i : nat) (p2 : JsVal) : Exn bool :=
  match elems with
  | [] => Ok true
  | val :: rest =>
      other <- GetAt p2 i ;;
      if StrictEquals same val other then everyEqual same rest (S i) p2 else Ok false
  end.

(** [same] tells whether [p1] and [p2] are one and the same object. *)
Definition pointsEqual (same : bool) (p1 p2 : JsVal) : Exn bool :=
  length1 <- Get p1 "length" ;;
  length2 <- Get p2 "length" ;;
  if StrictEquals same length1 length2 then
    match p1 with
    | JArr elems => everyEqual same elems 0 p2
    | _ => Throw
    end
  else Ok false.

Fixpoint afterFirstDot (s : string) : option string :=
  match s with
  | EmptyString => None
  | String c rest => if Ascii.eqb c "." then Some rest else afterFirstDot rest
  end.

Fixpoint untilDot (s : string) : string :=
  match s with
  | EmptyString => EmptyString
  | String c rest => if Ascii.eqb c "." then EmptyString else String c (untilDot rest)
  end.

(** [str.includes(".") ? str.split(".")[1] : ""] *)
Definition decimalPart (str : string) : string :=
  match afterFirstDot str with
  | Some rest => untilDot rest
  | None => ""
  end.

Definition hasExcessivePrecision (num : JsVal) : Exn bool :=
  str <- match num with
         | JUndefined | JNull => Throw
         | _ => ToString num
         end ;;
  Ok (6 <? String.length (decimalPart str))%nat.

Section Engine.
Variable host : Host.

Definition checkExcessiveStraightLines (ring : list JsVal) (featureIndex : nat)
  (results : ValidationResult) : Exn ValidationResult :=
  if (List.length ring <=? 4)%nat then
    Ok (addError results
          (featureLabel featureIndex
           ++ ": Polygon may have excessive straight lines (not enough points for curves)"))
  else Ok results.

Definition checkForSpikes (ring : list JsVal) (featureIndex : nat)
  (results : ValidationResult) : Exn ValidationResult :=
  forLoop 1 (List.length ring - 1 - 1)
    (fun i results =>
       angle <- calculateAngle host (nth (i - 1) ring JUndefined) (nth i ring JUndefined)
                                    (nth (i + 1) ring JUndefined) ;;
       if PrimFloat.ltb angle 5 then
         Ok (addError results
               (featureLabel featureIndex ++ ": Spike vertex detected ("
                ++ Number_toFixed1 angle ++ degree_sign ++ ")"))
       else Ok results)
    results.

Definition checkSelfIntersections (ring : list JsVal) (featureIndex : nat)
  (results : ValidationResult) : Exn ValidationResult :=
  found <- scanSelfIntersections host ring ;;
  if found then
    Ok (addError results (featureLabel featureIndex ++ ": Self-intersection detected"))
  else Ok results.

Definition validateCoordinate (coord : JsVal) (featureIndex ringIndex pointIndex : nat)
  (results : ValidationResult) : Exn ValidationResult :=
  let P := pointLabel featureIndex pointIndex in
  match coord with
  | JArr elems =>
      if (List.length elems <? 2)%nat || (3 <? List.length elems)%nat then
        Ok (addError results (P ++ ": Invalid coordinate format"))
      else
        let lon := nth 0 elems JUndefined in
        let lat := nth 1 elems JUndefined in
        results <-
          match lon with
          | JNum x =>
              if PrimFloat.ltb x (-180) || PrimFloat.ltb 180 x then
                Ok (addError results (P ++ ": Invalid longitude " ++ Number_toString x))
              else Ok results
          | _ =>
              shown <- ToString lon ;;
              Ok (addError results (P ++ ": Invalid longitude " ++ shown))
          end ;;
        results <-
          match lat with
          | JNum y =>
              if PrimFloat.ltb y (-90) || PrimFloat.ltb 90 y then
                Ok (addError results (P ++ ": Invalid latitude " ++ Number_toString y))
              else Ok results
          | _ =>
              shown <- ToString lat ;;
              Ok (addError results (P ++ ": Invalid latitude " ++ shown))
          end ;;
        excessiveLon <- hasExcessivePrecision lon ;;
        excessive <- (if excessiveLon then Ok true else hasExcessivePrecision lat) ;;
        if excessive then Ok (addError results (P ++ ": Excessive coordinate precision"))
        else Ok results
  | _ => Ok (addError results (P ++ ": Invalid coordinate format"))
  end.

(** [ring] is whatever value sits at [coordinates[0]]: nothing has checked
    that it is an array.  For an array, [ring.length] is the number of its
    elements and [ring[i]] its [i]-th element ([undefined] past the end);
    any other value is read through the generic property access.  A value
    that is not an array and gets past the size check ends in a
    [TypeError] ([ring.forEach] is not a function; the two loops before it
    can only raise one earlier). *)
Definition validateRing (ring : JsVal) (featureIndex ringIndex : nat)
  (results : ValidationResult) : Exn ValidationResult :=
  let F := featureLabel featureIndex in
  match ring with
  | JArr ring =>
      let n := List.length ring in
      closed <- pointsEqual (n =? 1)%nat (nth 0 ring JUndefined) (nth (n - 1) ring JUndefined) ;;
      let results :=
        if negb closed then
          addError results (F ++ ": Ring must be closed (first/last points identical)")
        else results in
      if (n <? 4)%nat then
        Ok (addError results (F ++ ": Ring must have at least 4 points"))
      else
        results <-
          forLoop 1 (n - 1)
            (fun i results =>
               dup <- pointsEqual false (nth i ring JUndefined) (nth (i - 1) ring JUndefined) ;;
               if dup then
                 Ok (addError results
                       (F ++ ": Duplicate consecutive points at " ++ nat_toString (i - 1)
                        ++ " and " ++ nat_toString i))
               else Ok results)
            results ;;
        results <-
          forLoop 1 (n - 1)
            (fun i results =>
               dup <- pointsEqual false (nth i ring JUndefined) (nth (i - 1) ring JUndefined) ;;
               if dup then
                 Ok (addError results
                       (F ++ ": Zero-length edge at points " ++ nat_toString (i - 1)
                        ++ " and " ++ nat_toString i))
               else Ok results)
            results ;;
        results <-
          forEach ring 0
            (fun coord pointIndex results =>
               validateCoordinate coord featureIndex ringIndex pointIndex results)
            results ;;
        results <- checkSelfIntersections ring featureIndex results ;;
        results <- checkForSpikes ring featureIndex results ;;
        checkExcessiveStraightLines ring featureIndex results
  | _ =>
      first <- GetAt ring 0 ;;
      length <- Get ring "length" ;;
      n <- ToNumber host length ;;
      last <- GetIndex ring (n - 1)%float ;;
      closed <- pointsEqual (PrimFloat.eqb (n - 1) 0) first last ;;
      let results :=
        if negb closed then
          addError results (F ++ ": Ring must be closed (first/last points identical)")
        else results in
      if PrimFloat.ltb n 4 then
        Ok (addError results (F ++ ": Ring must have at least 4 points"))
      else Throw
  end.

Definition validatePolygonCoordinates (coordinates : list JsVal) (featureIndex : nat)
  (results : ValidationResult) : Exn ValidationResult :=
  let F := featureLabel featureIndex in
  if (1 <? List.length coordinates)%nat then
    Ok (addError results (F ++ ": Interior rings (holes) are not allowed"))
  else if (List.length coordinates =? 0)%nat then
    Ok (addError results (F ++ ": Polygon must have an exterior ring"))
  else validateRing (nth 0 coordinates JUndefined) featureIndex 0 results.

Definition validTypes : list string :=
  ["Point"; "LineString"; "Polygon"; "MultiPoint"; "MultiLineString"; "MultiPolygon";
   "GeometryCollection"].

Definition validateGeometry (geometry : JsVal) (featureIndex : nat)
  (results : ValidationResult) : Exn ValidationResult :=
  let F := featureLabel featureIndex in
  type <- Get geometry "type" ;;
  if negb (ToBoolean type) || negb (includes validTypes type) then
    Ok (addError results (F ++ ": Invalid geometry type"))
  else if negb (StrictEquals false type (JStr "Polygon")) then
    Ok (addError results (F ++ ": Only Polygon geometries are supported"))
  else
    coordinates <- Get geometry "coordinates" ;;
    match coordinates with
    | JArr coordinates => validatePolygonCoordinates coordinates featureIndex results
    | _ => Ok (addError results (F ++ ": Coordinates must be an array"))
    end.

Definition requiredProps : list string := ["plot_ID"; "farmer_name"].

Definition validateFeature (feature : JsVal) (index : nat) (results : ValidationResult)
  : Exn ValidationResult :=
  let F := featureLabel index in
  type <- Get feature "type" ;;
  if negb (StrictEquals false type (JStr "Feature")) then
    Ok (addError results (F ++ ": Type must be 'Feature'"))
  else
    present <- HasProperty "properties" feature ;;
    properties <- Get feature "properties" ;;
    if negb present
       || (negb (StrictEquals false properties JNull)
           && negb (String.eqb (typeof properties) "object")) then
      Ok (addError results (F ++ ": 'properties' must be an object or null"))
    else
      results <-
        forEach requiredProps 0
          (fun prop _ results =>
             missing <-
               (if negb (ToBoolean properties) then Ok true
                else has <- HasProperty prop properties ;; Ok (negb has)) ;;
             if missing then
               Ok (addError results (F ++ ": Missing required property '" ++ prop ++ "'"))
             else Ok results)
          results ;;
      hasArea <- HasProperty "area" properties ;;
      results <-
        (if hasArea then
           area <- Get properties "area" ;;
           if negb (String.eqb (typeof area) "number") then
             Ok (addError results (F ++ ": 'area' property must be a number"))
           else Ok results
         else Ok results) ;;
      geometry <- Get feature "geometry" ;;
      if negb (ToBoolean geometry) && negb (StrictEquals false geometry JNull) then
        Ok (addError results (F ++ ": Missing 'geometry' property"))
      else if StrictEquals false geometry JNull then Ok results
      else validateGeometry geometry index results.

Definition validateGeoJSON (geojson : JsVal) : Exn ValidationResult :=
  let results := emptyResult in
  if negb (ToBoolean geojson) || negb (String.eqb (typeof geojson) "object") then
    Ok (addError results "GeoJSON must be a valid object")
  else
    type <- Get geojson "type" ;;
    if negb (StrictEquals false type (JStr "FeatureCollection")) then
      Ok (addError results "Root type must be 'FeatureCollection'")
    else
      features <- Get geojson "features" ;;
      match features with
      | JArr ((_ :: _) as features) =>
          forEach features 0
            (fun feature index results => validateFeature feature index results)
            results
      | _ => Ok (addError results "'features' must be a non-empty array")
      end.
End Engine.

End Plain.

(** ** Sample documents and a reference host *)

(** A host for the examples.  Its [Math.acos] sums the Maclaurin series of
    the arc sine on [|x| <= 1/2] and reduces the rest of [-1 .. 1] to that
    range by the half-angle identities; its [StringToNumber] is a stub,
    which the sample documents never reach (their coordinates are
    numbers). *)
Fixpoint asin_series (fuel : nat) (n term x2 acc : float) : float :=
  match fuel with
  | O => acc
  | S f =>
      let odd := (2 * n + 1)%float in
      let term' := (term * x2 * (odd * odd) / ((2 * n + 2) * (2 * n + 3)))%float in
      asin_series f (n + 1)%float term' x2 (acc + term')%float
  end.

Definition asin_small (x : float) : float := asin_series 40 0 x (x * x)%float x.

Definition acos_series (x : float) : float :=
  if PrimFloat.is_nan x || PrimFloat.ltb x (-1) || PrimFloat.ltb 1 x then PrimFloat.nan
  else if PrimFloat.leb (PrimFloat.abs x) 0.5 then (Math_PI / 2 - asin_small x)%float
  else if PrimFloat.ltb 0 x then (2 * asin_small (Math_sqrt ((1 - x) / 2)))%float
  else (Math_PI - 2 * asin_small (Math_sqrt ((1 + x) / 2)))%float.

Definition sampleHost : Host :=
  {| Math_acos := acos_series; StringToNumber := fun _ => PrimFloat.nan |}.

Definition position (lon lat : float) : JsVal := JArr [JNum lon; JNum lat].


Definition polygonFeature (ring : list JsVal) : JsVal :=
  JObj [("type", JStr "Feature");
        ("properties",
         JObj [("plot_ID", JStr "A1"); ("farmer_name", JStr "J. Doe"); ("area", JNum 1.5)]);
        ("geometry", JObj [("type", JStr "Polygon"); ("coordinates", JArr [JArr ring])])].

Definition collection (features : list JsVal) : JsVal :=
  JObj [("type", JStr "FeatureCollection"); ("features", JArr features)].

Definition unitSquare : list JsVal :=
  [position 0 0; position 0 1; position 1 1; position 1 0; position 0 0].

Definition squareDocument : JsVal := collection [polygonFeature unitSquare].


(** ** Definitions used to state the properties *)

(** The rings of the examples. *)
Definition closedTriangle : list JsVal :=
  [position 0 0; position 0 1; position 1 0; position 0 0].


(** The self-crossing ring of the second scenario. *)
Definition bowtie : list JsVal :=
  [position 0 0; position 1 1; position 0 1; position 1 0; position 0 0].

(** A ring one of whose vertices, (1,0), lies on the edge from (0,0) to (2,0). *)
Definition touchingRing : list JsVal :=
  [position 0 0; position 2 0; position 2 2; position 1 0; position 0 2; position 0 0].

Definition nullPropertiesFeature : JsVal :=
  JObj [("type", JStr "Feature"); ("properties", JNull); ("geometry", JNull)].

Definition namedFeature : JsVal :=
  JObj [("type", JStr "Feature");
        ("properties", JObj [("plot_ID", JStr "A1"); ("farmer_name", JStr "J. Doe")]);
        ("geometry", JNull)].

Definition wrongTypeFeature : JsVal := JObj [("type", JStr "Point")].

Definition unnamedFeature : JsVal :=
  JObj [("type", JStr "Feature"); ("properties", JObj []); ("geometry", JNull)].

(** An axis-parallel rectangle with corners (a,0) and (1,1). *)
Definition rectangleFrom (a : float) : list JsVal :=
  [position a 0; position a 1; position 1 1; position 1 0; position a 0].

(** *** The pairs of segments the self-intersection scan examines *)

(** Segment [i] of a ring runs from position [i] to position [i + 1]. *)
Definition skipped (n i j : nat) : bool := ((i =? 0) && (j =? n - 2))%nat.

Definition pairsFrom (n i : nat) : list (nat * nat) :=
  map (pair i) (filter (fun j => negb (skipped n i j)) (seq (i + 2) (n - 1 - (i + 2)))).

(** The pairs [(i, j)] of segment indices examined in a ring of [n]
    positions, in scan order. *)
Definition examinedPairs (n : nat) : list (nat * nat) :=
  flat_map (pairsFrom n) (seq 0 (n - 1)).

(** Segments [i] and [j] tested in the direction of the ring ... *)
Definition intersectAt (host : Host) (ring : list JsVal) (ij : nat * nat) : Exn bool :=
  segmentsIntersect host
    (nth (fst ij) ring JUndefined) (nth (fst ij + 1) ring JUndefined)
    (nth (snd ij) ring JUndefined) (nth (snd ij + 1) ring JUndefined).

(** Does the scan report the pair? *)
Definition hit (host : Host) (ring : list JsVal) (ij : nat * nat) : bool :=
  match intersectAt host ring ij with
  | Ok b => b
  | Throw => false
  end.

(** ... and as the scan of the reversed ring meets them. *)
Definition intersectBackAt (host : Host) (ring : list JsVal) (ij : nat * nat) : Exn bool :=
  segmentsIntersect host
    (nth (snd ij + 1) ring JUndefined) (nth (snd ij) ring JUndefined)
    (nth (fst ij + 1) ring JUndefined) (nth (fst ij) ring JUndefined).

(** [segmentsIntersect] answers, and answers the same, in both directions
    on every examined pair. *)
Definition directionBlind (host : Host) (ring : list JsVal) : bool :=
  forallb
    (fun ij =>
       match intersectAt host ring ij, intersectBackAt host ring ij with
       | Ok a, Ok b => Bool.eqb a b
       | _, _ => false
       end)
    (examinedPairs (List.length ring)).

(** *** Conforming roots and index-blind outcomes *)

(** The features of a conforming root: an object whose [type] is
    ["FeatureCollection"] and whose [features] is an array. *)
Definition collectionFeatures (geojson : JsVal) : option (list JsVal) :=
  match geojson with
  | JObj fields =>
      match lookup "type" fields, lookup "features" fields with
      | Some (JStr type), Some (JArr features) =>
          if String.eqb type "FeatureCollection" then Some features else None
      | _, _ => None
      end
  | _ => None
  end.

(** A root that is a collection with at least one feature. *)
Definition hasFeatures (geojson : JsVal) : bool :=
  match collectionFeatures geojson with
  | Some (_ :: _) => true
  | _ => false
  end.

(** Two runs end alike: both raise, or both return and the results are
    related. *)
Definition alike {A B : Type} (rel : A -> B -> Prop) (a : Exn A) (b : Exn B) : Prop :=
  match a, b with
  | Ok x, Ok y => rel x y
  | Throw, Throw => True
  | _, _ => False
  end.

(** *** How results grow *)
Module Trace.
Import WithSteps.

(** What a result says once rule names and messages are left out. *)
Definition outcome (r : ValidationResultWithSteps) : bool * list bool * nat :=
  (isValid r, map passed (steps r), List.length (errors r)).

Definition sameOutcome (r1 r2 : ValidationResultWithSteps) : Prop :=
  outcome r1 = outcome r2.

Definition plotOutcome (p : PerPlotValidationResult) : bool * list bool * nat :=
  (plotIsValid p, map passed (plotSteps p), List.length (plotErrors p)).

Definition failing (s : ValidationStep) : bool := negb (passed s).

(** [r'] is [r] followed by the steps [new], with one error per failing
    step and the verdict lowered accordingly. *)
Definition extendsBy (new : list ValidationStep) (r r' : ValidationResultWithSteps) : Prop :=
  steps r' = (steps r ++ new)%list
  /\ errors r' = (errors r ++ map message (filter failing new))%list
  /\ isValid r' = isValid r && forallb passed new.

Definition extends (r r' : ValidationResultWithSteps) : Prop :=
  exists new, extendsBy new r r'.

(** A result in which errors and failing steps go together. *)
Definition consistent (r : ValidationResultWithSteps) : Prop :=
  errors r = map message (filter failing (steps r))
  /\ isValid r = forallb passed (steps r).


End Trace.

Module PlainTrace.
Import Plain.

(** [r'] is [r] with further errors appended, the verdict lowered when
    there are any. *)
Definition appends (r r' : ValidationResult) : Prop :=
  exists new,
    errors r' = (errors r ++ new)%list
    /\ isValid r' = isValid r && match new with [] => true | _ :: _ => false end.

End PlainTrace.

(** A square one of whose positions is repeated. *)
Definition stutteringSquare : list JsVal :=
  [position 0 0; position 0 1; position 0 1; position 1 1; position 1 0; position 0 0].

(** A square one of whose positions has [null] for a longitude. *)
Definition nullLongitudeSquare : list JsVal :=
  [position 0 0; JArr [JNull; JNum 1]; position 1 1; position 1 0; position 0 0].

(** *** Results put one after the other *)
Module Frame.
Import WithSteps.

(** The result that holds what [r] holds followed by what [d] holds. *)
Definition after (r d : ValidationResultWithSteps) : ValidationResultWithSteps :=
  {| isValid := isValid r && isValid d;
     errors := (errors r ++ errors d)%list;
     steps := (steps r ++ steps d)%list |}.

(** [d'] is [d] recorded after [r0]. *)
Definition shifted (r0 d d' : ValidationResultWithSteps) : Prop := d' = after r0 d.

(** A per-plot result, as a result. *)
Definition plotResult (p : PerPlotValidationResult) : ValidationResultWithSteps :=
  {| isValid := plotIsValid p; errors := plotErrors p; steps := plotSteps p |}.

(** The two steps [validateGeoJSONWithSteps] records before it turns to
    the features. *)
Definition rootSteps : list ValidationStep :=
  [ {| rule := "Root type"; passed := true; message := "Root type is 'FeatureCollection'" |};
    {| rule := "Features array"; passed := true;
       message := "'features' is a non-empty array" |} ].

End Frame.

(** *** The documents the diagnostics-capable engine accepts *)
Module Accepted.
Import WithSteps.

(** A number that is neither below [lo] nor above [hi]. *)
Definition within (lo hi : float) (v : JsVal) : Prop :=
  exists x, v = JNum x /\ PrimFloat.ltb x lo = false /\ PrimFloat.ltb hi x = false.

(** An array of two or three entries, the first a longitude and the second
    a latitude. *)
Definition goodPosition (coord : JsVal) : Prop :=
  exists elems,
    coord = JArr elems
    /\ 2 <= List.length elems <= 3
    /\ within (-180) 180 (nth 0 elems JUndefined)
    /\ within (-90) 90 (nth 1 elems JUndefined).

(** At least four good positions, the last equal to the first and no
    other two neighbours equal (after rounding), no examined pair of
    segments reported as intersecting, and no angle below five degrees. *)
Definition goodRing (host : Host) (ring : list JsVal) : Prop :=
  4 <= List.length ring
  /\ pointsEqual (nth 0 ring JUndefined) (nth (List.length ring - 1) ring JUndefined) = Ok true
  /\ (forall i, 1 <= i < List.length ring ->
                pointsEqual (nth i ring JUndefined) (nth (i - 1) ring JUndefined) = Ok false)
  /\ Forall goodPosition ring
  /\ scanSelfIntersections host ring = Ok false
  /\ (forall i, 1 <= i < List.length ring - 1 ->
                exists angle,
                  calculateAngle host (nth (i - 1) ring JUndefined) (nth i ring JUndefined)
                    (nth (i + 1) ring JUndefined) = Ok angle
                  /\ PrimFloat.ltb angle 5 = false).

(** [null], or a Polygon of exactly one ring, a good one. *)
Definition goodGeometry (host : Host) (geometry : JsVal) : Prop :=
  geometry = JNull
  \/ exists fields ring,
       geometry = JObj fields
       /\ lookup "type" fields = Some (JStr "Polygon")
       /\ lookup "coordinates" fields = Some (JArr [JArr ring])
       /\ goodRing host ring.

(** An object with the keys [plot_ID] and [farmer_name], whose [area], if
    it has one, is a number. *)
Definition goodProperties (properties : JsVal) : Prop :=
  exists fields,
    properties = JObj fields
    /\ hasKey "plot_ID" fields = true
    /\ hasKey "farmer_name" fields = true
    /\ (forall area, lookup "area" fields = Some area -> exists x, area = JNum x).

Definition goodFeature (host : Host) (feature : JsVal) : Prop :=
  exists fields properties geometry,
    feature = JObj fields
    /\ lookup "type" fields = Some (JStr "Feature")
    /\ lookup "properties" fields = Some properties
    /\ goodProperties properties
    /\ lookup "geometry" fields = Some geometry
    /\ goodGeometry host geometry.

Definition goodDocument (host : Host) (geojson : JsVal) : Prop :=
  exists features,
    collectionFeatures geojson = Some features
    /\ features <> []
    /\ Forall (goodFeature host) features.

End Accepted.

(** *** Steps that name their feature *)
Module Labels.
Import WithSteps Trace.

(** The rule name and the message of a step both start with the label of
    feature [index]. *)
Definition labelled (index : nat) (s : ValidationStep) : bool :=
  String.prefix (featureLabel index) (rule s)
  && String.prefix (featureLabel index) (message s).

(** [r'] is [r] followed by steps labelled with feature [index]. *)
Definition grows (index : nat) (r r' : ValidationResultWithSteps) : Prop :=
  exists new, extendsBy new r r' /\ forallb (labelled index) new = true.

End Labels.

(** *** The two engines side by side *)

(** A result of each engine, holding the same errors and the same
    verdict. *)
Definition sameReport (r : WithSteps.ValidationResultWithSteps) (q : Plain.ValidationResult)
  : Prop :=
  WithSteps.errors r = Plain.errors q /\ WithSteps.isValid r = Plain.isValid q.

(** *** The documents the plain engine accepts *)
Module PlainAccepted.
Import Plain.

(** A good position neither of whose two coordinates is written with more
    than six decimals. *)
Definition precisePosition (coord : JsVal) : Prop :=
  Accepted.goodPosition coord
  /\ exists elems,
       coord = JArr elems
       /\ hasExcessivePrecision (nth 0 elems JUndefined) = Ok false
       /\ hasExcessivePrecision (nth 1 elems JUndefined) = Ok false.

(** At least five precise positions, the last identical to the first and
    no other two neighbours identical, no examined pair of segments
    reported as intersecting, and no angle below five degrees. *)
Definition goodRing (host : Host) (ring : list JsVal) : Prop :=
  5 <= List.length ring
  /\ pointsEqual false (nth 0 ring JUndefined) (nth (List.length ring - 1) ring JUndefined)
     = Ok true
  /\ (forall i, 1 <= i < List.length ring ->
                pointsEqual false (nth i ring JUndefined) (nth (i - 1) ring JUndefined)
                = Ok false)
  /\ Forall precisePosition ring
  /\ scanSelfIntersections host ring = Ok false
  /\ (forall i, 1 <= i < List.length ring - 1 ->
                exists angle,
                  calculateAngle host (nth (i - 1) ring JUndefined) (nth i ring JUndefined)
                    (nth (i + 1) ring JUndefined) = Ok angle
                  /\ PrimFloat.ltb angle 5 = false).

Definition goodGeometry (host : Host) (geometry : JsVal) : Prop :=
  geometry = JNull
  \/ exists fields ring,
       geometry = JObj fields
       /\ lookup "type" fields = Some (JStr "Polygon")
       /\ lookup "coordinates" fields = Some (JArr [JArr ring])
       /\ goodRing host ring.

Definition goodFeature (host : Host) (feature : JsVal) : Prop :=
  exists fields properties geometry,
    feature = JObj fields
    /\ lookup "type" fields = Some (JStr "Feature")
    /\ lookup "properties" fields = Some properties
    /\ Accepted.goodProperties properties
    /\ lookup "geometry" fields = Some geometry
    /\ goodGeometry host geometry.

Definition goodDocument (host : Host) (geojson : JsVal) : Prop :=
  exists features,
    collectionFeatures geojson = Some features
    /\ features <> []
    /\ Forall (goodFeature host) features.

End PlainAccepted.

(** ** The plot preview ([GeoJSONPreview.tsx]) *)
Module Preview.

(** [v.map(f)], for a callback that ignores the index: only an array has
    a [map] method. *)
Definition mapArray (v : JsVal) (f : JsVal -> Exn JsVal) : Exn JsVal :=
  match v with
  | JArr elems => out <- mapIndexed elems 0 (fun x _ => f x) ;; Ok (JArr out)
  | _ => Throw
  end.

(** The callback [([lng, lat]) => [lat, lng]].  The argument is taken
    apart by iteration, which an array and a string support. *)
Definition swap (position : JsVal) : Exn JsVal :=
  match position with
  | JArr _ | JStr _ =>
      lng <- GetAt position 0 ;;
      lat <- GetAt position 1 ;;
      Ok (JArr [lat; lng])
  | _ => Throw
  end.

Definition convertToLatLng (coordinates : JsVal) : Exn JsVal :=
  mapArray coordinates (fun ring => mapArray ring swap).

(** [convertToLatLng(feature.geometry.coordinates)], evaluated for every
    feature whenever the preview is drawn. *)
Definition polygonPositions (feature : JsVal) : Exn JsVal :=
  geometry <- Get feature "geometry" ;;
  coordinates <- Get geometry "coordinates" ;;
  convertToLatLng coordinates.

(** The polygon with the given rings of positions. *)
Definition polygon (rings : list (list (list JsVal))) : JsVal :=
  JArr (map (fun ring => JArr (map JArr ring)) rings).

(** *** Selection state

    The component is typed against [GeoJSONData]: the identifier of a plot
    is a string, and so are the selected identifier and the validated
    ones. *)
Record PlotProperties : Type := {
  plot_ID : string;
  farmer_name : string;
  hectare : float
}.

Record GeoJSONFeature : Type := {
  properties : PlotProperties;
  geometry : JsVal
}.

(** [geojsonData.features.find((feature) => feature.properties.plot_ID === selectedPlotId)] *)
Definition selectedPlot (features : list GeoJSONFeature) (selectedPlotId : string)
  : option GeoJSONFeature :=
  find (fun feature => String.eqb (plot_ID (properties feature)) selectedPlotId) features.

(** [validatedPlots.includes(plotId)] *)
Definition isPlotValidated (validatedPlots : list string) (plotId : string) : bool :=
  existsb (String.eqb plotId) validatedPlots.

(** The state of [validatedPlots] after [handleValidate]. *)
Definition handleValidate (features : list GeoJSONFeature) (selectedPlotId : string)
  (validatedPlots : list string) : list string :=
  match selectedPlot features selectedPlotId with
  | None => validatedPlots
  | Some plot =>
      if isPlotValidated validatedPlots (plot_ID (properties plot)) then validatedPlots
      else (validatedPlots ++ [plot_ID (properties plot)])%list
  end.

(** The features [handleComplete] passes to [onValidate]. *)
Definition handleComplete (features : list GeoJSONFeature) (validatedPlots : list string)
  : list GeoJSONFeature :=
  filter (fun feature => isPlotValidated validatedPlots (plot_ID (properties feature)))
    features.

(** Two plots to choose from. *)
Definition samplePlots : list GeoJSONFeature :=
  [ {| properties := {| plot_ID := "A1"; farmer_name := "J. Doe"; hectare := 1.5 |};
       geometry := JNull |};
    {| properties := {| plot_ID := "B2"; farmer_name := "R. Roe"; hectare := 2 |};
       geometry := JNull |} ].

End Preview.

(** *** The summary of common issues ([getCommonIssues]) *)
Module Summary.
Import WithSteps.

(** [errorCounts[error] = (errorCounts[error] || 0) + 1], on the entries
    of [errorCounts] in the order in which its keys were created.  The
    object inherits from [Object.prototype] and lists array indices
    first; the keys here are messages of the validator, which begin with
    "Feature" and are neither. *)
Fixpoint count (error : string) (errorCounts : list (string * nat)) : list (string * nat) :=
  match errorCounts with
  | [] => [(error, 1)]
  | (key, n) :: rest =>
      if String.eqb key error then (key, S n) :: rest else (key, n) :: count error rest
  end.

(** The entries of [errorCounts] after the two nested [forEach]. *)
Definition errorCounts (results : list PerPlotValidationResult) : list (string * nat) :=
  fold_left
    (fun counts plot => fold_left (fun counts error => count error counts) (plotErrors plot) counts)
    results [].

(** [entries.sort(([, a], [, b]) => b - a)]: larger counts first, entries
    of equal count in their former order (the sort is stable). *)
Fixpoint insert (entry : string * nat) (sorted : list (string * nat)) : list (string * nat) :=
  match sorted with
  | [] => [entry]
  | x :: rest =>
      if (snd entry <? snd x)%nat then x :: insert entry rest else entry :: x :: rest
  end.

Definition sortByCount (entries : list (string * nat)) : list (string * nat) :=
  fold_right insert [] entries.

Definition getCommonIssues (results : list PerPlotValidationResult) : string :=
  let sortedErrors := map fst (firstn 2 (sortByCount (errorCounts results))) in
  let joined := String.concat ", " sortedErrors in
  if String.eqb joined "" then "No common issues found" else joined.

(** Every error of every plot, in the order in which they are counted. *)
Definition allErrors (results : list PerPlotValidationResult) : list string :=
  List.concat (map plotErrors results).

(** The count held for [key]. *)
Fixpoint tally (key : string) (counts : list (string * nat)) : nat :=
  match counts with
  | [] => 0
  | (k, n) :: rest => if String.eqb k key then n else tally key rest
  end.

End Summary.

(** *** The lookup of a per-plot result ([getPlotValidation]) *)
Module Lookup.
Import WithSteps.

(** [perPlotResults] is [null] until the plots have been validated. *)
Definition getPlotValidation (perPlotResults : option (list PerPlotValidationResult))
  (plotId : string) : option PerPlotValidationResult :=
  match perPlotResults with
  | None => None
  | Some results =>
      find (fun p => StrictEquals false (WithSteps.plotId p) (JStr plotId)) results
  end.

End Lookup.

(** *** Positions that hold numbers *)

(** The position with longitude [lon], latitude [lat] and further entries
    [more]. *)
Definition positionWith (lon lat : float) (more : list JsVal) : JsVal :=
  JArr (JNum lon :: JNum lat :: more).

(** A zero of either sign, or no number. *)
Definition faint (x : float) : Prop :=
  (exists s, Prim2SF x = S754_zero s) \/ Prim2SF x = S754_nan.

(** A value other than [null] and [undefined] that converts to [false]. *)
Definition falsy (v : JsVal) : Prop :=
  ToBoolean v = false /\ v <> JNull /\ v <> JUndefined.

(** *** Integers in binary64 *)

(** The binary64 number with sign [s] and magnitude [p], for [p] below
    [2^53]: the mantissa is [p] shifted to 53 bits. *)
Definition canon (s : bool) (p : positive) : spec_float :=
  S754_finite s
    (Z.to_pos (Zpos p * 2 ^ (53 - Zpos (digits2_pos p))))
    (Zpos (digits2_pos p) - 53).

(** [f] is the integer [z]: a zero of either sign for 0. *)
Definition represents (f : spec_float) (z : Z) : Prop :=
  match z with
  | Z0 => exists s, f = S754_zero s
  | Zpos p => f = canon false p
  | Zneg p => f = canon true p
  end.

(** *** Rings on the integer grid *)

(** The position with integer coordinates [p]. *)
Definition gridPosition (p : Z * Z) : JsVal :=
  position (float_of_Z (fst p)) (float_of_Z (snd p)).

Definition gridRing (points : list (Z * Z)) : list JsVal := map gridPosition points.

(** Coordinates of magnitude at most [2^25]: their differences and the
    products of two differences are below [2^53]. *)
Definition inGrid (p : Z * Z) : bool :=
  (Z.abs (fst p) <=? 2 ^ 25)%Z && (Z.abs (snd p) <=? 2 ^ 25)%Z.

Definition onGrid (points : list (Z * Z)) : bool := forallb inGrid points.

(** Twice the signed area of the triangle [a b c]: positive when the turn
    from [a] over [b] to [c] is counter-clockwise, zero when the three are
    collinear. *)
Definition orientation (a b c : Z * Z) : Z :=
  ((snd c - snd a) * (fst b - fst a) - (snd b - snd a) * (fst c - fst a))%Z.

(** The test of [segmentsIntersect] in exact arithmetic. *)
Definition crosses (p1 p2 p3 p4 : Z * Z) : bool :=
  negb (Bool.eqb (0 <? orientation p1 p3 p4)%Z (0 <? orientation p2 p3 p4)%Z)
  && negb (Bool.eqb (0 <? orientation p1 p2 p3)%Z (0 <? orientation p1 p2 p4)%Z).

Definition crossesAt (points : list (Z * Z)) (ij : nat * nat) : bool :=
  crosses (nth (fst ij) points (0, 0)%Z) (nth (fst ij + 1) points (0, 0)%Z)
          (nth (snd ij) points (0, 0)%Z) (nth (snd ij + 1) points (0, 0)%Z).

(** The segments from [p1] to [p2] and from [p3] to [p4] cross: the ends
    of each lie strictly on opposite sides of the line through the
    other. *)
Definition properCrossing (p1 p2 p3 p4 : Z * Z) : bool :=
  (orientation p1 p3 p4 * orientation p2 p3 p4 <? 0)%Z
  && (orientation p1 p2 p3 * orientation p1 p2 p4 <? 0)%Z.

Definition crossingAt (points : list (Z * Z)) (ij : nat * nat) : bool :=
  properCrossing (nth (fst ij) points (0, 0)%Z) (nth (fst ij + 1) points (0, 0)%Z)
                 (nth (snd ij) points (0, 0)%Z) (nth (snd ij + 1) points (0, 0)%Z).

(** No end point of an examined segment lies on the line through the
    other segment of the pair. *)
Definition generalPosition (points : list (Z * Z)) : bool :=
  forallb
    (fun ij =>
       let a := nth (fst ij) points (0, 0)%Z in
       let b := nth (fst ij + 1) points (0, 0)%Z in
       let c := nth (snd ij) points (0, 0)%Z in
       let d := nth (snd ij + 1) points (0, 0)%Z in
       negb (orientation a c d =? 0)%Z && negb (orientation b c d =? 0)%Z
       && negb (orientation a b c =? 0)%Z && negb (orientation a b d =? 0)%Z)
    (examinedPairs (List.length points)).

(** The rings of the examples, on the grid. *)
Definition bowtiePoints : list (Z * Z) := [(0, 0); (1, 1); (0, 1); (1, 0); (0, 0)]%Z.

Definition touchingPoints : list (Z * Z) :=
  [(0, 0); (2, 0); (2, 2); (1, 0); (0, 2); (0, 0)]%Z.

(** A ring with vertex (1,0) on the edge from (0,0) to (2,0), and with
    two edges that cross besides. *)
Definition touchingCrossingPoints : list (Z * Z) :=
  [(0, 0); (2, 0); (2, 2); (1, 0); (0, 2); (3, 1); (0, 0)]%Z.

(** *** Rounding to the nearest integer *)


(** *** Positions of two or three entries *)




(** ** The host built-ins at sample arguments *)

Example Number_toString_samples :
  map Number_toString
    [0.1; 1e-7; 1.5e-7; 0.000001; 0.1234567; 1; 100; 1e21; 123456789012345680000;
     5e-324; 1.7976931348623157e308; 0.30000000000000004; 9007199254740992; -2.5;
     1e23; 434.99999999999994; 0.5; 9.5; 1.0000001; 180; -90; 4.35]%float
  = ["0.1"; "1e-7"; "1.5e-7"; "0.000001"; "0.1234567"; "1"; "100"; "1e+21";
     "123456789012345680000"; "5e-324"; "1.7976931348623157e+308";
     "0.30000000000000004"; "9007199254740992"; "-2.5"; "1e+23";
     "434.99999999999994"; "0.5"; "9.5"; "1.0000001"; "180"; "-90"; "4.35"].
Proof. vm_compute. reflexivity. Qed.

Example Math_round_samples :
  map Math_round [0.5; 1.5; 2.5; -0.5; -1.5; 0.49999999999999994; 0.099999999999999992;
                  1234567.8; -2.4; 3; 1e300]%float
  = [1; 2; 3; -0; -1; 0; 0; 1234568; -2; 3; 1e300]%float.
Proof. vm_compute. reflexivity. Qed.

Example Number_toFixed1_samples :
  map Number_toFixed1 [0; 2.04; 2.05; 4.96; 0.04; 1.25; 90; -0.04; 0.95]%float
  = ["0.0"; "2.0"; "2.0"; "5.0"; "0.0"; "1.3"; "90.0"; "-0.0"; "0.9"].
Proof. vm_compute. reflexivity. Qed.

(** ** Facts about the diagnostics-capable engine *)
Module WithStepsFacts.
Import WithSteps Trace.

Lemma extends_refl r : extends r r.
Proof.
  exists []. unfold extendsBy. cbn. rewrite !app_nil_r, andb_true_r. auto.
Qed.

Lemma extends_trans r1 r2 r3 : extends r1 r2 -> extends r2 r3 -> extends r1 r3.
Proof.
  intros [n1 (S1 & E1 & V1)] [n2 (S2 & E2 & V2)].
  exists (n1 ++ n2)%list. unfold extendsBy.
  rewrite S2, S1, E2, E1, V2, V1, filter_app, map_app, forallb_app, !app_assoc, andb_assoc.
  auto.
Qed.

Lemma extends_pass r rule msg : extends r (addStep r rule true msg).
Proof.
  exists [{| rule := rule; passed := true; message := msg |}].
  unfold extendsBy. cbn. rewrite app_nil_r, andb_true_r. auto.
Qed.

Lemma extends_fail r rule msg : extends r (addError (addStep r rule false msg) msg).
Proof.
  exists [{| rule := rule; passed := false; message := msg |}].
  unfold extendsBy. cbn. rewrite andb_false_r. auto.
Qed.

Lemma extends_consistent r r' : extends r r' -> consistent r -> consistent r'.
Proof.
  intros [new (S & E & V)] [CE CV]. unfold consistent.
  rewrite S, E, V, CE, CV, filter_app, map_app, forallb_app. auto.
Qed.

Lemma extends_monotonic r r' : extends r r' -> isValid r = false -> isValid r' = false.
Proof. intros [new (_ & _ & V)] H. rewrite V, H. reflexivity. Qed.


Lemma extends_errors r r' e : extends r r' -> In e (errors r) -> In e (errors r').
Proof. intros [new (_ & E & _)] H. rewrite E. apply in_or_app. auto. Qed.




Lemma consistent_empty : consistent emptyResult.
Proof. split; reflexivity. Qed.

Lemma consistent_verdict r :
  consistent r ->
  (isValid r = true <-> forallb passed (steps r) = true)
  /\ (isValid r = true <-> errors r = []).
Proof.
  intros [CE CV]. rewrite CV, CE. split; [tauto|]. clear CE CV.
  induction (steps r) as [|s l IH]; cbn; [tauto|].
  unfold failing at 1. destruct (passed s); cbn.
  - exact IH.
  - split; discriminate.
Qed.

(** Loops preserve what each iteration preserves. *)
Lemma forLoop_preserves {R : Type} (rel : R -> R -> Prop) (body : nat -> R -> Exn R) :
  (forall x, rel x x) ->
  (forall x y z, rel x y -> rel y z -> rel x z) ->
  (forall i r r', body i r = Ok r' -> rel r r') ->
  forall count from r r', forLoop from count body r = Ok r' -> rel r r'.
Proof.
  intros Hrefl Htrans Hbody. induction count as [|c IH]; intros from r r' H; cbn in H.
  - inversion H. apply Hrefl.
  - destruct (body from r) eqn:B; cbn in H; [|discriminate].
    eapply Htrans; eauto.
Qed.

Lemma forLoop_fixed {R : Type} (body : nat -> R -> Exn R) (r : R) count :
  forall from,
    (forall i, from <= i < from + count -> body i r = Ok r) ->
    forLoop from count body r = Ok r.
Proof.
  induction count as [|c IH]; intros from H; cbn; [reflexivity|].
  rewrite H by lia. cbn. apply IH. intros i Hi. apply H. lia.
Qed.

Lemma forLoop_extends (body : nat -> ValidationResultWithSteps -> Exn ValidationResultWithSteps) :
  (forall i r r', body i r = Ok r' -> extends r r') ->
  forall count from r r', forLoop from count body r = Ok r' -> extends r r'.
Proof.
  intros Hbody count from r r'.
  apply (forLoop_preserves extends).
  - apply extends_refl.
  - apply extends_trans.
  - exact Hbody.
Qed.

Lemma forEach_extends {A : Type}
  (body : A -> nat -> ValidationResultWithSteps -> Exn ValidationResultWithSteps) :
  (forall x i r r', body x i r = Ok r' -> extends r r') ->
  forall l from r r', forEach l from body r = Ok r' -> extends r r'.
Proof.
  intros Hbody. induction l as [|x l IH]; intros from r r' H; cbn in H.
  - inversion H. apply extends_refl.
  - destruct (body x from r) eqn:B; cbn in H; [|discriminate].
    eapply extends_trans; eauto.
Qed.

Create HintDb steps.
#[local] Hint Resolve extends_refl extends_pass extends_fail : steps.

(** Case analysis along a run that returned. *)
Ltac run H :=
  repeat match type of H with
    | Ok _ = Ok _ => inversion H; subst; clear H
    | Throw = Ok _ => discriminate H
    | context [bind ?m _] => destruct m eqn:?; cbn [bind] in H
    | context [if ?b then _ else _] => destruct b eqn:?
    | context [match ?x with _ => _ end] => destruct x eqn:?
    end.

Ltac runs := repeat match goal with H : _ = Ok _ |- _ => progress run H end.

Ltac chain :=
  repeat match goal with
    | |- extends ?a ?a => apply extends_refl
    | H : extends ?b ?c |- extends ?a ?c => apply (extends_trans a b c); [clear H | exact H]
    | |- extends ?a (addStep ?b _ true _) =>
        apply (extends_trans a b); [| apply extends_pass]
    | |- extends ?a (addError (addStep ?b _ false _) _) =>
        apply (extends_trans a b); [| apply extends_fail]
    | |- extends ?a (if ?c then _ else _) => destruct c
    end.

Section Engine.
Variable host : Host.

Lemma checkExcessiveStraightLinesWithSteps_extends ring fi r r' :
  checkExcessiveStraightLinesWithSteps ring fi r = Ok r' -> extends r r'.
Proof. unfold checkExcessiveStraightLinesWithSteps. intros H. run H; auto with steps. Qed.

Lemma checkSelfIntersectionsWithSteps_extends ring fi r r' :
  checkSelfIntersectionsWithSteps host ring fi r = Ok r' -> extends r r'.
Proof. unfold checkSelfIntersectionsWithSteps. intros H. run H; auto with steps. Qed.

Lemma checkForSpikesWithSteps_extends ring fi r r' :
  checkForSpikesWithSteps host ring fi r = Ok r' -> extends r r'.
Proof.
  unfold checkForSpikesWithSteps. intros H.
  destruct (forLoop _ _ _ _) as [[r1 found]|] eqn:L; cbn [bind] in H; [|discriminate].
  apply (forLoop_preserves (fun s s' => extends (fst s) (fst s'))) in L;
    [ | auto with steps | intros ? ? ?; apply extends_trans
      | intros i [x fx] [y fy] Hb; run Hb; cbn; auto with steps ].
  cbn in L. run H; chain.
Qed.

Lemma validateCoordinateWithSteps_extends coord fi ri pi r r' :
  validateCoordinateWithSteps coord fi ri pi r = Ok r' -> extends r r'.
Proof.
  unfold validateCoordinateWithSteps. intros H. runs; chain.
Qed.

Lemma validateRingWithSteps_extends ring fi ri r r' :
  validateRingWithSteps host ring fi ri r = Ok r' -> extends r r'.
Proof.
  unfold validateRingWithSteps. intros H. run H; try solve [chain].
  all: repeat match goal with
         | L : forLoop _ _ _ _ = Ok _ |- _ =>
             apply forLoop_extends in L;
             [ | let Hb := fresh in intros ? ? ? Hb; run Hb; auto with steps ]
         | L : forEach _ _ _ _ = Ok _ |- _ =>
             apply forEach_extends in L;
             [ | intros ? ? ? ?; apply validateCoordinateWithSteps_extends ]
         | L : checkSelfIntersectionsWithSteps _ _ _ _ = Ok _ |- _ =>
             apply checkSelfIntersectionsWithSteps_extends in L
         | L : checkForSpikesWithSteps _ _ _ _ = Ok _ |- _ =>
             apply checkForSpikesWithSteps_extends in L
         | L : checkExcessiveStraightLinesWithSteps _ _ _ = Ok _ |- _ =>
             apply checkExcessiveStraightLinesWithSteps_extends in L
         end.
  all: chain.
Qed.




(** A ring none of whose interior angles is below five degrees. *)
Lemma checkForSpikesWithSteps_none ring fi r :
  (forall i, 1 <= i < List.length ring - 1 ->
             exists angle,
               calculateAngle host (nth (i - 1) ring JUndefined) (nth i ring JUndefined)
                 (nth (i + 1) ring JUndefined) = Ok angle
               /\ PrimFloat.ltb angle 5 = false) ->
  checkForSpikesWithSteps host ring fi r
  = Ok (addStep r (featureLabel fi ++ " spike vertex") true
          (featureLabel fi ++ ": No spike vertices")).
Proof.
  intros H. unfold checkForSpikesWithSteps.
  rewrite forLoop_fixed; [reflexivity|].
  intros i Hi. destruct (H i ltac:(lia)) as (angle & A & B).
  rewrite A. cbn [bind]. rewrite B. reflexivity.
Qed.

(** A ring of fewer than four positions: two steps, one error, and no
    further check. *)
Lemma validateRingWithSteps_short elems fi ri r :
  List.length elems < 4 ->
  validateRingWithSteps host (JArr elems) fi ri r
  = Ok (addError
          (addStep
             (addStep r (featureLabel fi ++ " ring array") true
                (featureLabel fi ++ ": Ring is an array of positions"))
             (featureLabel fi ++ " ring points") false
             (featureLabel fi ++ ": Ring must have at least 4 points"))
          (featureLabel fi ++ ": Ring must have at least 4 points")).
Proof.
  intros L. unfold validateRingWithSteps.
  apply Nat.ltb_lt in L. rewrite L. reflexivity.
Qed.


Lemma validatePolygonCoordinatesWithSteps_extends coordinates fi r r' :
  validatePolygonCoordinatesWithSteps host coordinates fi r = Ok r' -> extends r r'.
Proof.
  unfold validatePolygonCoordinatesWithSteps. intros H. run H; try solve [chain].
  apply validateRingWithSteps_extends in H. chain.
Qed.

Lemma validateGeometryWithSteps_extends geometry fi r r' :
  validateGeometryWithSteps host geometry fi r = Ok r' -> extends r r'.
Proof.
  unfold validateGeometryWithSteps. intros H. run H; try solve [chain].
  apply validatePolygonCoordinatesWithSteps_extends in H. chain.
Qed.

Lemma validateFeatureWithSteps_extends feature index r r' :
  validateFeatureWithSteps host feature index r = Ok r' -> extends r r'.
Proof.
  unfold validateFeatureWithSteps. intros H. run H; try solve [chain].
  all: repeat match goal with
         | L : forEach _ _ _ _ = Ok _ |- _ =>
             apply forEach_extends in L;
             [ | let Hb := fresh in intros ? ? ? ? Hb; runs; auto with steps ]
         | L : validateGeometryWithSteps _ _ _ _ = Ok _ |- _ =>
             apply validateGeometryWithSteps_extends in L
         end.
  all: runs; chain.
Qed.

Lemma validateGeoJSONWithSteps_consistent geojson r :
  validateGeoJSONWithSteps host geojson = Ok r -> consistent r.
Proof.
  unfold validateGeoJSONWithSteps. intros H.
  apply (extends_consistent emptyResult); [| apply consistent_empty].
  run H; try solve [chain].
  apply forEach_extends in H;
    [ | intros ? ? ? ?; apply validateFeatureWithSteps_extends ].
  chain.
Qed.

(** *** The index of a feature only shows in rule names and messages *)

Lemma sameOutcome_addStep r1 r2 rule1 rule2 p msg1 msg2 :
  sameOutcome r1 r2 -> sameOutcome (addStep r1 rule1 p msg1) (addStep r2 rule2 p msg2).
Proof.
  unfold sameOutcome, outcome. cbn. intros H. inversion H.
  rewrite !map_app. cbn. congruence.
Qed.

Lemma sameOutcome_addError r1 r2 msg1 msg2 :
  sameOutcome r1 r2 -> sameOutcome (addError r1 msg1) (addError r2 msg2).
Proof.
  unfold sameOutcome, outcome. cbn. intros H. inversion H.
  rewrite !length_app. cbn. congruence.
Qed.

Lemma alike_bind {A B A' B' : Type} (rel : A -> B -> Prop) (rel' : A' -> B' -> Prop)
  (m1 : Exn A) (m2 : Exn B) (k1 : A -> Exn A') (k2 : B -> Exn B') :
  alike rel m1 m2 ->
  (forall x y, rel x y -> alike rel' (k1 x) (k2 y)) ->
  alike rel' (bind m1 k1) (bind m2 k2).
Proof. destruct m1, m2; cbn; intros H K; auto; contradiction. Qed.

Lemma alike_forLoop {R1 R2 : Type} (rel : R1 -> R2 -> Prop)
  (b1 : nat -> R1 -> Exn R1) (b2 : nat -> R2 -> Exn R2) :
  (forall k x y, rel x y -> alike rel (b1 k x) (b2 k y)) ->
  forall count from x y, rel x y -> alike rel (forLoop from count b1 x) (forLoop from count b2 y).
Proof.
  intros Hb. induction count as [|c IH]; intros from x y H; cbn; [exact H|].
  apply (alike_bind rel); auto.
Qed.

Lemma alike_forEach {A R1 R2 : Type} (rel : R1 -> R2 -> Prop)
  (b1 : A -> nat -> R1 -> Exn R1) (b2 : A -> nat -> R2 -> Exn R2) :
  (forall a k k' x y, rel x y -> alike rel (b1 a k x) (b2 a k' y)) ->
  forall l from from' x y,
    rel x y -> alike rel (forEach l from b1 x) (forEach l from' b2 y).
Proof.
  intros Hb. induction l as [|a l IH]; intros from from' x y H; cbn; [exact H|].
  apply (alike_bind rel); auto.
Qed.

Create HintDb outcome.
#[local] Hint Resolve sameOutcome_addStep sameOutcome_addError : outcome.

(** Split on the tests the two runs share. *)
Ltac together :=
  repeat (cbn [bind alike];
          match goal with
          | |- alike _ (bind ?m _) (bind ?m _) => destruct m eqn:?
          | |- alike _ (if ?b then _ else _) (if ?b then _ else _) => destruct b eqn:?
          | |- alike _ (match ?x with _ => _ end) (match ?x with _ => _ end) => destruct x eqn:?
          | |- alike _ (let (_, _) := ?x in _) _ => destruct x
          end);
  cbn [bind alike]; auto 10 with outcome.

Lemma checkExcessiveStraightLinesWithSteps_alike ring i j r1 r2 :
  sameOutcome r1 r2 ->
  alike sameOutcome (checkExcessiveStraightLinesWithSteps ring i r1)
                    (checkExcessiveStraightLinesWithSteps ring j r2).
Proof. intros H. unfold checkExcessiveStraightLinesWithSteps. together. Qed.

Lemma checkSelfIntersectionsWithSteps_alike ring i j r1 r2 :
  sameOutcome r1 r2 ->
  alike sameOutcome (checkSelfIntersectionsWithSteps host ring i r1)
                    (checkSelfIntersectionsWithSteps host ring j r2).
Proof. intros H. unfold checkSelfIntersectionsWithSteps. together. Qed.

Lemma checkForSpikesWithSteps_alike ring i j r1 r2 :
  sameOutcome r1 r2 ->
  alike sameOutcome (checkForSpikesWithSteps host ring i r1)
                    (checkForSpikesWithSteps host ring j r2).
Proof.
  intros H. unfold checkForSpikesWithSteps.
  apply (alike_bind (fun s1 s2 => sameOutcome (fst s1) (fst s2) /\ snd s1 = snd s2)).
  - apply alike_forLoop; [|split; [exact H | reflexivity]].
    intros k [x fx] [y fy] [Hxy Hf]. cbn in Hxy, Hf. subst fy.
    together. all: split; cbn; auto with outcome.
  - intros [x fx] [y fy] [Hxy Hf]. cbn in Hxy, Hf. subst fy.
    destruct fx; cbn; auto with outcome.
Qed.

Lemma validateCoordinateWithSteps_alike coord i j ri ri' pi pi' r1 r2 :
  sameOutcome r1 r2 ->
  alike sameOutcome (validateCoordinateWithSteps coord i ri pi r1)
                    (validateCoordinateWithSteps coord j ri' pi' r2).
Proof.
  intros H. unfold validateCoordinateWithSteps.
  destruct coord; cbn [alike]; auto with outcome.
  destruct (_ || _); cbn [alike]; auto with outcome.
  apply (alike_bind sameOutcome).
  - together.
  - intros x y Hxy. together.
Qed.

Lemma validateRingWithSteps_alike ring i j ri ri' r1 r2 :
  sameOutcome r1 r2 ->
  alike sameOutcome (validateRingWithSteps host ring i ri r1)
                    (validateRingWithSteps host ring j ri' r2).
Proof.
  intros H. unfold validateRingWithSteps.
  destruct ring; cbn [alike]; auto with outcome.
  destruct (_ <? _)%nat; cbn [alike]; auto 10 with outcome.
  destruct (pointsEqual _ _) as [closed|]; cbn [bind alike]; [|exact I].
  apply (alike_bind sameOutcome).
  { apply alike_forLoop; [|destruct closed; cbn; auto 10 with outcome].
    intros k x y Hxy. together. }
  intros x1 y1 H1. apply (alike_bind sameOutcome).
  { apply alike_forLoop; [|exact H1]. intros k x y Hxy. together. }
  intros x2 y2 H2. apply (alike_bind sameOutcome).
  { apply alike_forEach; [|exact H2].
    intros a k k' x y Hxy. apply validateCoordinateWithSteps_alike. exact Hxy. }
  intros x3 y3 H3. apply (alike_bind sameOutcome).
  { apply checkSelfIntersectionsWithSteps_alike. exact H3. }
  intros x4 y4 H4. apply (alike_bind sameOutcome).
  { apply checkForSpikesWithSteps_alike. exact H4. }
  intros x5 y5 H5. apply checkExcessiveStraightLinesWithSteps_alike. exact H5.
Qed.

Lemma validatePolygonCoordinatesWithSteps_alike coordinates i j r1 r2 :
  sameOutcome r1 r2 ->
  alike sameOutcome (validatePolygonCoordinatesWithSteps host coordinates i r1)
                    (validatePolygonCoordinatesWithSteps host coordinates j r2).
Proof.
  intros H. unfold validatePolygonCoordinatesWithSteps.
  destruct (_ <? _)%nat; cbn [alike]; auto with outcome.
  destruct (_ =? _)%nat; cbn [alike]; auto 10 with outcome.
  apply validateRingWithSteps_alike. auto 10 with outcome.
Qed.

Lemma validateGeometryWithSteps_alike geometry i j r1 r2 :
  sameOutcome r1 r2 ->
  alike sameOutcome (validateGeometryWithSteps host geometry i r1)
                    (validateGeometryWithSteps host geometry j r2).
Proof.
  intros H. unfold validateGeometryWithSteps.
  destruct (Get geometry "type") as [type|]; cbn [bind alike]; [|exact I].
  destruct (_ || _); cbn [alike]; auto with outcome.
  destruct (ToString type); cbn [bind alike]; [|exact I].
  destruct (negb _); cbn [alike]; auto 10 with outcome.
  destruct (Get geometry "coordinates") as [[]|]; cbn [bind alike]; auto 10 with outcome.
  apply validatePolygonCoordinatesWithSteps_alike. auto 10 with outcome.
Qed.

Lemma validateFeatureWithSteps_alike feature i j r1 r2 :
  sameOutcome r1 r2 ->
  alike sameOutcome (validateFeatureWithSteps host feature i r1)
                    (validateFeatureWithSteps host feature j r2).
Proof.
  intros H. unfold validateFeatureWithSteps.
  destruct (Get feature "type") as [type|]; cbn [bind alike]; [|exact I].
  destruct (negb _); cbn [alike]; auto with outcome.
  destruct (HasProperty "properties" feature); cbn [bind alike]; [|exact I].
  destruct (Get feature "properties") as [properties|]; cbn [bind alike]; [|exact I].
  destruct (_ || _); cbn [alike]; auto 10 with outcome.
  apply (alike_bind sameOutcome).
  { apply alike_forEach; [|auto 10 with outcome]. intros prop k k' x y Hxy. together. }
  intros x1 y1 H1.
  destruct (HasProperty "area" properties) as [hasArea|]; cbn [bind alike]; [|exact I].
  apply (alike_bind sameOutcome).
  { together. }
  intros x2 y2 H2.
  destruct (HasProperty "geometry" feature); cbn [bind alike]; [|exact I].
  destruct (Get feature "geometry") as [geometry|]; cbn [bind alike]; [|exact I].
  destruct (_ && _); cbn [alike]; auto with outcome.
  destruct (StrictEquals _ _ _); cbn [alike]; auto with outcome.
  apply validateGeometryWithSteps_alike. exact H2.
Qed.

Lemma validatePlot_alike feature i j :
  alike (fun p q => plotOutcome p = plotOutcome q)
        (validatePlot host feature i) (validatePlot host feature j).
Proof.
  unfold validatePlot.
  apply (alike_bind sameOutcome).
  { apply validateFeatureWithSteps_alike. reflexivity. }
  intros x y H. together.
Qed.

Lemma mapIndexed_spec {A B : Type} (body : A -> nat -> Exn B) (l : list A) :
  forall from out,
    mapIndexed l from body = Ok out ->
    List.length out = List.length l
    /\ (forall i x, nth_error l i = Some x ->
                    exists y, body x (from + i) = Ok y /\ nth_error out i = Some y).
Proof.
  induction l as [|a l IH]; intros from out H; cbn in H.
  - inversion H. split; [reflexivity|]. intros [|i] x E; discriminate E.
  - destruct (body a from) as [y|] eqn:Hy; cbn in H; [|discriminate].
    destruct (mapIndexed l (S from) body) as [ys|] eqn:M; cbn in H; [|discriminate].
    inversion H; subst; clear H. destruct (IH _ _ M) as [L N].
    split; [cbn; congruence|].
    intros [|i] x E; cbn in E.
    + inversion E; subst. exists y. rewrite Nat.add_0_r. auto.
    + destruct (N i x E) as (z & Z1 & Z2). exists z.
      replace (from + S i) with (S from + i) by lia. auto.
Qed.

Lemma mapIndexed_returns {A B : Type} (body : A -> nat -> Exn B) (l : list A) :
  forall from,
    (forall i x, nth_error l i = Some x -> returned (body x (from + i)) = true) ->
    exists out, mapIndexed l from body = Ok out.
Proof.
  induction l as [|a l IH]; intros from H; cbn.
  - eexists. reflexivity.
  - assert (Ha := H 0 a eq_refl). rewrite Nat.add_0_r in Ha.
    destruct (body a from) as [y|]; [|discriminate]. cbn [bind].
    destruct (IH (S from)) as [ys Hys].
    + intros i x E. replace (S from + i) with (from + S i) by lia. apply H. exact E.
    + rewrite Hys. eexists. reflexivity.
Qed.

Lemma validateAllPlotsWithSteps_spec geojson :
  validateAllPlotsWithSteps host geojson
  = match collectionFeatures geojson with
    | Some features => mapIndexed features 0 (validatePlot host)
    | None => Ok []
    end.
Proof.
  unfold validateAllPlotsWithSteps, collectionFeatures.
  destruct geojson as [| |[]|x|str|elems|fields].
  - reflexivity.
  - reflexivity.
  - reflexivity.
  - reflexivity.
  - unfold typeof. change ("number" =? "object") with false.
    cbn [negb]. rewrite orb_true_r. reflexivity.
  - unfold typeof. change ("string" =? "object") with false.
    cbn [negb]. rewrite orb_true_r. reflexivity.
  - reflexivity.
  - unfold typeof, ToBoolean. change ("object" =? "object") with true.
    cbn [negb orb Get bind].
    destruct (lookup "type" fields) as [[| | | |type| |]|]; try reflexivity.
    cbn [StrictEquals].
    destruct (type =? "FeatureCollection"); cbn [negb]; [|destruct (lookup "features" fields) as [[]|]; reflexivity].
    destruct (lookup "features" fields) as [[]|]; reflexivity.
Qed.
End Engine.
End WithStepsFacts.

(** ** Facts about the plain engine *)
Module PlainFacts.
Import Plain PlainTrace.

Lemma appends_refl r : appends r r.
Proof. exists []. rewrite app_nil_r, andb_true_r. auto. Qed.

Lemma appends_trans r1 r2 r3 : appends r1 r2 -> appends r2 r3 -> appends r1 r3.
Proof.
  intros [n1 (E1 & V1)] [n2 (E2 & V2)]. exists (n1 ++ n2)%list.
  rewrite E2, E1, V2, V1, app_assoc. split; [reflexivity|].
  destruct n1, n2; cbn; rewrite ?andb_true_r, ?andb_false_r; reflexivity.
Qed.

Lemma appends_addError r msg : appends r (addError r msg).
Proof. exists [msg]. cbn. rewrite andb_false_r. auto. Qed.

Lemma appends_errors r r' e : appends r r' -> In e (errors r) -> In e (errors r').
Proof. intros [new (E & _)] H. rewrite E. apply in_or_app. auto. Qed.

Lemma forLoop_appends (body : nat -> ValidationResult -> Exn ValidationResult) :
  (forall i r r', body i r = Ok r' -> appends r r') ->
  forall count from r r', forLoop from count body r = Ok r' -> appends r r'.
Proof.
  intros Hbody. induction count as [|c IH]; intros from r r' H; cbn in H.
  - inversion H. apply appends_refl.
  - destruct (body from r) eqn:B; cbn in H; [|discriminate].
    eapply appends_trans; eauto.
Qed.

Lemma forEach_appends {A : Type} (body : A -> nat -> ValidationResult -> Exn ValidationResult) :
  (forall x i r r', body x i r = Ok r' -> appends r r') ->
  forall l from r r', forEach l from body r = Ok r' -> appends r r'.
Proof.
  intros Hbody. induction l as [|x l IH]; intros from r r' H; cbn in H.
  - inversion H. apply appends_refl.
  - destruct (body x from r) eqn:B; cbn in H; [|discriminate].
    eapply appends_trans; eauto.
Qed.

Ltac run H :=
  repeat match type of H with
    | Ok _ = Ok _ => inversion H; subst; clear H
    | Throw = Ok _ => discriminate H
    | context [bind ?m _] => destruct m eqn:?; cbn [bind] in H
    | context [if ?b then _ else _] => destruct b eqn:?
    | context [match ?x with _ => _ end] => destruct x eqn:?
    end.

Ltac runs := repeat match goal with H : _ = Ok _ |- _ => progress run H end.

Ltac chain :=
  repeat match goal with
    | |- appends ?a ?a => apply appends_refl
    | H : appends ?b ?c |- appends ?a ?c => apply (appends_trans a b c); [clear H | exact H]
    | |- appends ?a (addError ?b _) => apply (appends_trans a b); [| apply appends_addError]
    | |- appends ?a (if ?c then _ else _) => destruct c
    end.

Section Engine.
Variable host : Host.

Lemma checkExcessiveStraightLines_appends ring fi r r' :
  checkExcessiveStraightLines ring fi r = Ok r' -> appends r r'.
Proof. unfold checkExcessiveStraightLines. intros H. run H; chain. Qed.

Lemma checkSelfIntersections_appends ring fi r r' :
  checkSelfIntersections host ring fi r = Ok r' -> appends r r'.
Proof. unfold checkSelfIntersections. intros H. run H; chain. Qed.

Lemma checkForSpikes_appends ring fi r r' :
  checkForSpikes host ring fi r = Ok r' -> appends r r'.
Proof.
  unfold checkForSpikes. apply forLoop_appends.
  intros i x x' Hb. run Hb; chain.
Qed.

Lemma checkForSpikes_none ring fi r :
  (forall i, 1 <= i < List.length ring - 1 ->
             exists angle,
               calculateAngle host (nth (i - 1) ring JUndefined) (nth i ring JUndefined)
                 (nth (i + 1) ring JUndefined) = Ok angle
               /\ PrimFloat.ltb angle 5 = false) ->
  checkForSpikes host ring fi r = Ok r.
Proof.
  intros H. unfold checkForSpikes. apply WithStepsFacts.forLoop_fixed.
  intros i Hi. destruct (H i ltac:(lia)) as (angle & A & B).
  rewrite A. cbn [bind]. rewrite B. reflexivity.
Qed.

Lemma validateCoordinate_appends coord fi ri pi r r' :
  validateCoordinate coord fi ri pi r = Ok r' -> appends r r'.
Proof. unfold validateCoordinate. intros H. runs; chain. Qed.

(** An array of fewer than four positions: the closure comparison is made
    first, then the size error is recorded and nothing else is checked. *)
Lemma validateRing_short elems fi ri r :
  List.length elems < 4 ->
  validateRing host (JArr elems) fi ri r
  = (closed <- pointsEqual (List.length elems =? 1)%nat (nth 0 elems JUndefined)
                 (nth (List.length elems - 1) elems JUndefined) ;;
     Ok (addError
           (if negb closed then
              addError r (featureLabel fi
                          ++ ": Ring must be closed (first/last points identical)")
            else r)
           (featureLabel fi ++ ": Ring must have at least 4 points"))).
Proof.
  intros L. unfold validateRing. apply Nat.ltb_lt in L. rewrite L. reflexivity.
Qed.

End Engine.
End PlainFacts.

(** ** The verdict of the diagnostics-capable engine *)
Section Verdict.
Import WithSteps Trace WithStepsFacts.
Variable host : Host.

(** C4: every result returned by [validateGeoJSONWithSteps] has [isValid]
    true exactly when no failing step was recorded, and exactly when the
    error list is empty; the verdict is monotonic: [addStep] leaves it
    untouched, [addError] lowers it, and no feature check raises it again. *)
Theorem isValid_iff_no_failure :
  (forall geojson r,
      validateGeoJSONWithSteps host geojson = Ok r ->
      (isValid r = true <-> (forall s, In s (steps r) -> passed s = true))
      /\ (isValid r = true <-> errors r = []))
  /\ (forall r rule p msg, isValid (addStep r rule p msg) = isValid r)
  /\ (forall r msg, isValid (addError r msg) = false)
  /\ (forall feature index r r',
         validateFeatureWithSteps host feature index r = Ok r' ->
         isValid r = false -> isValid r' = false).
Proof.
  split; [| split; [reflexivity | split; [reflexivity |]]].
  - intros geojson r H.
    destruct (consistent_verdict r (validateGeoJSONWithSteps_consistent host _ _ H)) as [S E].
    split; [| exact E].
    rewrite S. apply forallb_forall.
  - intros feature index r r' H. apply extends_monotonic.
    apply (validateFeatureWithSteps_extends host _ _ _ _ H).
Qed.
End Verdict.

(** The verdict property at a document with one unnamed feature. *)
Lemma isValid_iff_no_failure_unnamed :
  exists r,
    WithSteps.validateGeoJSONWithSteps sampleHost (collection [unnamedFeature]) = Ok r
    /\ WithSteps.isValid r = false
    /\ (WithSteps.isValid r = true <-> WithSteps.errors r = []).
Proof.
  eexists. split; [vm_compute; reflexivity|]. split; [reflexivity|].
  apply (proj1 (isValid_iff_no_failure sampleHost) (collection [unnamedFeature])).
  vm_compute. reflexivity.
Defined.

(** ** Faults *)

(** C1: a feature whose [properties] is [null] gets past the
    object-or-null check and the required-property checks, and then
    [\"area\" in feature.properties] raises a [TypeError]: none of the three
    entry points returns.  A [null] entry of [features] does the same at
    [feature.type]. *)
Theorem null_properties_throw (host : Host) :
  WithSteps.validateGeoJSONWithSteps host (collection [nullPropertiesFeature]) = Throw
  /\ Plain.validateGeoJSON host (collection [nullPropertiesFeature]) = Throw
  /\ WithSteps.validateAllPlotsWithSteps host (collection [nullPropertiesFeature]) = Throw
  /\ WithSteps.validateGeoJSONWithSteps host (collection [JNull]) = Throw
  /\ Plain.validateGeoJSON host (collection [JNull]) = Throw
  /\ WithSteps.validateAllPlotsWithSteps host (collection [JNull]) = Throw.
Proof. repeat split; vm_compute; reflexivity. Qed.

(** Values other than arrays in the place of a ring, in the plain engine:
    an array-like object is measured like an array; a string raises. *)
Example plain_ring_not_an_array (host : Host) :
  Plain.validateRing host
    (JObj [("0", position 0 0); ("1", position 0 0); ("length", JNum 2)]) 0 0 Plain.emptyResult
  = Ok {| Plain.isValid := false;
          Plain.errors := ["Feature 0: Ring must have at least 4 points"] |}
  /\ Plain.validateRing host (JStr "abcd") 0 0 Plain.emptyResult = Throw
  /\ Plain.validateRing host JNull 0 0 Plain.emptyResult = Throw.
Proof. repeat split; vm_compute; reflexivity. Qed.

(** X10: at the root, malformed input is reported: a root that is not a
    collection with at least one feature gets one error from either
    engine, and no exception. *)
Lemma malformed_root_is_reported (host : Host) (geojson : JsVal) :
  hasFeatures geojson = false ->
  (exists r,
      WithSteps.validateGeoJSONWithSteps host geojson = Ok r
      /\ WithSteps.isValid r = false
      /\ List.length (WithSteps.errors r) = 1)
  /\ (exists r,
         Plain.validateGeoJSON host geojson = Ok r
         /\ Plain.isValid r = false
         /\ List.length (Plain.errors r) = 1).
Proof.
  unfold hasFeatures, collectionFeatures, WithSteps.validateGeoJSONWithSteps,
    Plain.validateGeoJSON.
  destruct geojson as [| |[]|x|str|elems|fields]; intros H.
  1-4, 7: split; eexists; (split; [reflexivity | split; reflexivity]).
  1-2: unfold typeof;
       change ("number" =? "object") with false; change ("string" =? "object") with false;
       cbn [negb]; rewrite orb_true_r;
       split; eexists; (split; [reflexivity | split; reflexivity]).
  unfold typeof, ToBoolean. change ("object" =? "object") with true.
  cbn [negb orb Get bind].
  destruct (lookup "type" fields) as [[| | | |type| |]|];
    try (split; eexists; (split; [reflexivity | split; reflexivity])).
  cbn [StrictEquals].
  destruct (type =? "FeatureCollection"); cbn [negb];
    [| split; eexists; (split; [reflexivity | split; reflexivity]) ].
  destruct (lookup "features" fields) as [[| | | | |[|f fs]|]|];
    try discriminate H;
    split; eexists; (split; [reflexivity | split; reflexivity]).
Qed.

(** C10: on a collection with no features [validateAllPlotsWithSteps]
    returns the empty sequence, as it does for a root that is not a
    collection at all, while [validateGeoJSONWithSteps] returns an invalid
    result with a failing "Features array" step. *)
Theorem empty_features_disagree (host : Host) :
  WithSteps.validateAllPlotsWithSteps host (collection []) = Ok []
  /\ WithSteps.validateAllPlotsWithSteps host JNull = Ok []
  /\ WithSteps.validateAllPlotsWithSteps host (JObj [("type", JStr "Feature")]) = Ok []
  /\ WithSteps.validateGeoJSONWithSteps host (collection [])
     = Ok {| WithSteps.isValid := false;
             WithSteps.errors := ["'features' must be a non-empty array"];
             WithSteps.steps :=
               [ {| WithSteps.rule := "Root type"; WithSteps.passed := true;
                    WithSteps.message := "Root type is 'FeatureCollection'" |};
                 {| WithSteps.rule := "Features array"; WithSteps.passed := false;
                    WithSteps.message := "'features' must be a non-empty array" |} ] |}.
Proof. repeat split; vm_compute; reflexivity. Qed.

(** ** Ring checks *)

(** C3, as the code has it: in the diagnostics-capable engine a ring of
    exactly four positions whose first and last are equal (after rounding)
    passes, any other ring of at most four positions fails, and a ring of
    more than four passes; the plain engine has no exemption: every ring of
    at most four positions fails and every longer ring passes. *)
Theorem straight_lines_heuristic :
  (forall ring fi r,
      List.length ring = 4 ->
      WithSteps.pointsEqual (nth 0 ring JUndefined) (nth 3 ring JUndefined) = Ok true ->
      WithSteps.checkExcessiveStraightLinesWithSteps ring fi r
      = Ok (WithSteps.addStep r (WithSteps.featureLabel fi ++ " straight lines") true
              (WithSteps.featureLabel fi ++ ": Polygon is a closed triangle (acceptable)")))
  /\ (forall ring fi r,
         List.length ring <= 4 ->
         (List.length ring = 4 ->
          WithSteps.pointsEqual (nth 0 ring JUndefined) (nth 3 ring JUndefined) = Ok false) ->
         WithSteps.checkExcessiveStraightLinesWithSteps ring fi r
         = Ok (WithSteps.addError
                 (WithSteps.addStep r (WithSteps.featureLabel fi ++ " straight lines") false
                    (WithSteps.featureLabel fi
                     ++ ": Polygon may have excessive straight lines (not enough points for curves)"))
                 (WithSteps.featureLabel fi
                  ++ ": Polygon may have excessive straight lines (not enough points for curves)")))
  /\ (forall ring fi r,
         4 < List.length ring ->
         WithSteps.checkExcessiveStraightLinesWithSteps ring fi r
         = Ok (WithSteps.addStep r (WithSteps.featureLabel fi ++ " straight lines") true
                 (WithSteps.featureLabel fi ++ ": Polygon has enough points for curves")))
  /\ (forall ring fi r,
         List.length ring <= 4 ->
         Plain.checkExcessiveStraightLines ring fi r
         = Ok (Plain.addError r
                 (Plain.featureLabel fi
                  ++ ": Polygon may have excessive straight lines (not enough points for curves)")))
  /\ (forall ring fi r,
         4 < List.length ring ->
         Plain.checkExcessiveStraightLines ring fi r = Ok r).
Proof.
  repeat split.
  - intros ring fi r N C. unfold WithSteps.checkExcessiveStraightLinesWithSteps.
    rewrite N. cbn [Nat.eqb Nat.sub]. rewrite C. reflexivity.
  - intros ring fi r N C. unfold WithSteps.checkExcessiveStraightLinesWithSteps.
    destruct (Nat.eqb_spec (List.length ring) 4) as [E|E].
    + rewrite E in *. cbn [Nat.sub]. rewrite (C eq_refl). reflexivity.
    + cbn [bind]. apply Nat.leb_le in N. rewrite N. reflexivity.
  - intros ring fi r N. unfold WithSteps.checkExcessiveStraightLinesWithSteps.
    destruct (Nat.eqb_spec (List.length ring) 4) as [E|E]; [lia|].
    cbn [bind]. apply Nat.leb_gt in N. rewrite N. reflexivity.
  - intros ring fi r N. unfold Plain.checkExcessiveStraightLines.
    apply Nat.leb_le in N. rewrite N. reflexivity.
  - intros ring fi r N. unfold Plain.checkExcessiveStraightLines.
    apply Nat.leb_gt in N. rewrite N. reflexivity.
Qed.

(** The heuristic at the closed triangle (0,0), (0,1), (1,0), (0,0). *)
Lemma straight_lines_heuristic_triangle :
  WithSteps.checkExcessiveStraightLinesWithSteps closedTriangle 0 WithSteps.emptyResult
  = Ok (WithSteps.addStep WithSteps.emptyResult "Feature 0 straight lines" true
          "Feature 0: Polygon is a closed triangle (acceptable)").
Proof.
  apply (proj1 straight_lines_heuristic closedTriangle 0 WithSteps.emptyResult).
  - reflexivity.
  - vm_compute. reflexivity.
Defined.

(** C3, against the claim: the plain engine rejects the closed triangle
    that the diagnostics-capable engine accepts. *)
Lemma plain_flags_closed_triangle :
  WithSteps.pointsEqual (nth 0 closedTriangle JUndefined) (nth 3 closedTriangle JUndefined)
  = Ok true
  /\ Plain.checkExcessiveStraightLines closedTriangle 0 Plain.emptyResult
     = Ok {| Plain.isValid := false;
             Plain.errors :=
               ["Feature 0: Polygon may have excessive straight lines (not enough points for curves)"] |}
  /\ Plain.validateGeoJSON sampleHost (collection [polygonFeature closedTriangle])
     = Ok {| Plain.isValid := false;
             Plain.errors :=
               ["Feature 0: Polygon may have excessive straight lines (not enough points for curves)"] |}
  /\ (exists r,
         WithSteps.validateGeoJSONWithSteps sampleHost
           (collection [polygonFeature closedTriangle]) = Ok r
         /\ WithSteps.isValid r = true).
Proof.
  repeat split; try (vm_compute; reflexivity).
  eexists. split; vm_compute; reflexivity.
Qed.

Lemma append_cancel_l (p a b : string) : p ++ a = p ++ b -> a = b.
Proof.
  induction p as [|c p IH]; cbn; intros H; [exact H|].
  inversion H. auto.
Qed.

(** X11: rings of fewer than four positions, where the engines return: the
    result is invalid and carries nothing of the self-intersection and
    spike checks. *)
Lemma short_ring_rejected (host : Host) elems fi ri :
  List.length elems < 4 ->
  (forall r,
      exists r',
        WithSteps.validateRingWithSteps host (JArr elems) fi ri r = Ok r'
        /\ WithSteps.isValid r' = false
        /\ (forall s, In s (WithSteps.steps r') ->
                      In s (WithSteps.steps r)
                      \/ (WithSteps.rule s <> WithSteps.featureLabel fi ++ " self-intersection"
                          /\ WithSteps.rule s <> WithSteps.featureLabel fi ++ " spike vertex"))
        /\ WithSteps.errors r'
           = (WithSteps.errors r
              ++ [(WithSteps.featureLabel fi ++ ": Ring must have at least 4 points")%string])%list)
  /\ (forall r r',
         Plain.validateRing host (JArr elems) fi ri r = Ok r' ->
         Plain.isValid r' = false
         /\ (forall e, In e (Plain.errors r') ->
                       In e (Plain.errors r)
                       \/ e = Plain.featureLabel fi
                              ++ ": Ring must be closed (first/last points identical)"
                       \/ e = Plain.featureLabel fi ++ ": Ring must have at least 4 points")).
Proof.
  intros L. split.
  - intros r. eexists. split; [apply WithStepsFacts.validateRingWithSteps_short; exact L|].
    split; [reflexivity|]. split; [|reflexivity].
    intros s. cbn [WithSteps.steps WithSteps.addStep WithSteps.addError].
    rewrite <- app_assoc. intros I.
    apply in_app_or in I. destruct I as [I|I]; [left; exact I|]. right.
    destruct I as [<-|[<-|[]]]; cbn [WithSteps.rule]; split; intros E;
      apply append_cancel_l in E; discriminate E.
  - intros r r' H. rewrite (PlainFacts.validateRing_short host elems fi ri r L) in H.
    destruct (Plain.pointsEqual _ _ _) as [closed|]; cbn [bind] in H; [|discriminate].
    inversion H; subst; clear H. split; [reflexivity|].
    intros e I. cbn in I. apply in_app_or in I. destruct I as [I|[<-|[]]]; [|auto].
    destruct closed; cbn in I; [auto|].
    apply in_app_or in I. destruct I as [I|[<-|[]]]; auto.
Qed.

(** C6: an empty exterior ring reaches [validateRing] of the plain engine,
    whose first statement compares [ring[0]] with [ring[ring.length - 1]],
    both [undefined]: reading [length] of [undefined] raises a [TypeError]
    and no result is returned.  The diagnostics-capable engine checks the
    size first and returns an invalid result. *)
Theorem empty_ring_throws (host : Host) :
  Plain.validateGeoJSON host (collection [polygonFeature []]) = Throw
  /\ Plain.validateRing host (JArr []) 0 0 Plain.emptyResult = Throw
  /\ (exists r,
         WithSteps.validateGeoJSONWithSteps host (collection [polygonFeature []]) = Ok r
         /\ WithSteps.isValid r = false
         /\ WithSteps.errors r = ["Feature 0: Ring must have at least 4 points"]).
Proof.
  repeat split; try (vm_compute; reflexivity).
  eexists. repeat split; vm_compute; reflexivity.
Qed.

(** ** Documents *)

(** C7: the unit-square document is valid for both entry points, on every
    host whose [Math.acos] puts a right angle (cosine [+0] or [-0]) at five
    degrees or more. *)
Theorem square_document_valid (host : Host) :
  PrimFloat.ltb (Math_acos host 0 * (180 / Math_PI)) 5 = false ->
  PrimFloat.ltb (Math_acos host (-0) * (180 / Math_PI)) 5 = false ->
  Plain.validateGeoJSON host squareDocument
  = Ok {| Plain.isValid := true; Plain.errors := [] |}
  /\ (exists r,
         WithSteps.validateGeoJSONWithSteps host squareDocument = Ok r
         /\ WithSteps.isValid r = true
         /\ WithSteps.errors r = []).
Proof.
  intros P N.
  assert (A : forall i, 1 <= i < List.length unitSquare - 1 ->
                        exists angle,
                          calculateAngle host (nth (i - 1) unitSquare JUndefined)
                            (nth i unitSquare JUndefined) (nth (i + 1) unitSquare JUndefined)
                          = Ok angle
                          /\ PrimFloat.ltb angle 5 = false).
  { intros i Hi. cbn in Hi. assert (C : i = 1 \/ i = 2 \/ i = 3) by lia.
    destruct C as [->|[->| ->]]; eexists; (split; [vm_compute; reflexivity|]); assumption. }
  split.
  - lazy -[Plain.checkForSpikes].
    rewrite (PlainFacts.checkForSpikes_none host unitSquare _ _ A). reflexivity.
  - eexists. split; [|split].
    + lazy -[WithSteps.checkForSpikesWithSteps].
      rewrite (WithStepsFacts.checkForSpikesWithSteps_none host unitSquare _ _ A).
      lazy. reflexivity.
    + reflexivity.
    + reflexivity.
Qed.

(** The unit-square document on the sample host. *)
Lemma square_document_valid_sample :
  Plain.validateGeoJSON sampleHost squareDocument
  = Ok {| Plain.isValid := true; Plain.errors := [] |}
  /\ (exists r,
         WithSteps.validateGeoJSONWithSteps sampleHost squareDocument = Ok r
         /\ WithSteps.isValid r = true
         /\ WithSteps.errors r = []).
Proof.
  apply (square_document_valid sampleHost); vm_compute; reflexivity.
Defined.

(** ** Reversing a ring *)
Module ScanFacts.
Section Scan.
Variable host : Host.

Lemma in_examinedPairs n i j :
  In (i, j) (examinedPairs n) <-> i + 2 <= j /\ j + 1 < n /\ ~ (i = 0 /\ j = n - 2).
Proof.
  unfold examinedPairs, pairsFrom. rewrite in_flat_map. split.
  - intros (i' & Hi & Hj). apply in_map_iff in Hj. destruct Hj as (j' & E & Hj).
    inversion E; subst; clear E. apply filter_In in Hj. destruct Hj as [Hj S].
    apply in_seq in Hi. apply in_seq in Hj. unfold skipped in S.
    apply negb_true_iff, andb_false_iff in S.
    repeat split; try lia.
    intros [A B]. destruct S as [S|S]; apply Nat.eqb_neq in S; lia.
  - intros (A & B & C). exists i. split; [apply in_seq; lia|].
    apply in_map. apply filter_In. split; [apply in_seq; lia|].
    unfold skipped. apply negb_true_iff, andb_false_iff.
    destruct (Nat.eqb_spec i 0); [right|left; reflexivity].
    apply Nat.eqb_neq. lia.
Qed.

Lemma scanInner_spec ring i count j :
  (forall j', j <= j' < j + count -> skipped (List.length ring) i j' = false ->
              exists b, intersectAt host ring (i, j') = Ok b) ->
  scanInner host ring i j count
  = Ok (existsb (hit host ring)
          (map (pair i)
             (filter (fun j => negb (skipped (List.length ring) i j)) (seq j count)))).
Proof.
  revert j. induction count as [|c IH]; intros j A; [reflexivity|].
  cbn [scanInner seq filter]. fold (skipped (List.length ring) i j).
  destruct (skipped (List.length ring) i j) eqn:S; cbn [negb].
  - apply IH. intros j' R. apply A. lia.
  - destruct (A j ltac:(lia) S) as [b B].
    cbn [map existsb]. unfold hit at 1. unfold intersectAt in B |- *. cbn [fst snd] in B |- *.
    rewrite B. cbn [bind]. destruct b; [reflexivity|].
    cbn [orb]. apply IH. intros j' R. apply A. lia.
Qed.

Lemma scanOuter_spec ring count i :
  (forall ij, In ij (examinedPairs (List.length ring)) ->
              exists b, intersectAt host ring ij = Ok b) ->
  i + count = List.length ring - 1 ->
  scanOuter host ring i count
  = Ok (existsb (hit host ring) (flat_map (pairsFrom (List.length ring)) (seq i count))).
Proof.
  intros A. revert i. induction count as [|c IH]; intros i E; [reflexivity|].
  cbn [scanOuter seq flat_map]. rewrite existsb_app.
  rewrite scanInner_spec.
  - cbn [bind]. fold (pairsFrom (List.length ring) i).
    destruct (existsb (hit host ring) (pairsFrom (List.length ring) i)); [reflexivity|].
    cbn [orb]. apply IH. lia.
  - intros j' R S. apply A. apply in_examinedPairs.
    unfold skipped in S. apply andb_false_iff in S.
    repeat split; try lia.
    intros [P Q]. destruct S as [S|S]; apply Nat.eqb_neq in S; lia.
Qed.

Lemma scan_spec ring :
  (forall ij, In ij (examinedPairs (List.length ring)) ->
              exists b, intersectAt host ring ij = Ok b) ->
  scanSelfIntersections host ring
  = Ok (existsb (hit host ring) (examinedPairs (List.length ring))).
Proof.
  intros A. unfold scanSelfIntersections. apply scanOuter_spec; [exact A | reflexivity].
Qed.

(** What the scan of the reversed ring computes on a pair. *)
Lemma intersectAt_rev ring i j :
  i + 2 <= j -> j + 1 < List.length ring ->
  intersectAt host (rev ring) (i, j)
  = intersectBackAt host ring (List.length ring - 2 - j, List.length ring - 2 - i).
Proof.
  intros A B. unfold intersectAt, intersectBackAt. cbn [fst snd].
  rewrite !rev_nth by lia.
  replace (List.length ring - S i) with (List.length ring - 2 - i + 1) by lia.
  replace (List.length ring - S (i + 1)) with (List.length ring - 2 - i) by lia.
  replace (List.length ring - S j) with (List.length ring - 2 - j + 1) by lia.
  replace (List.length ring - S (j + 1)) with (List.length ring - 2 - j) by lia.
  reflexivity.
Qed.

Lemma directionBlind_spec ring ij :
  directionBlind host ring = true ->
  In ij (examinedPairs (List.length ring)) ->
  exists b, intersectAt host ring ij = Ok b /\ intersectBackAt host ring ij = Ok b.
Proof.
  unfold directionBlind. intros D I. rewrite forallb_forall in D. specialize (D ij I).
  destruct (intersectAt host ring ij) as [a|]; [|discriminate].
  destruct (intersectBackAt host ring ij) as [b|]; [|discriminate].
  apply eqb_prop in D. subst. exists b. auto.
Qed.

Lemma mirror_examined n i j :
  In (i, j) (examinedPairs n) -> In (n - 2 - j, n - 2 - i) (examinedPairs n).
Proof. rewrite !in_examinedPairs. lia. Qed.

Lemma scan_rev ring :
  directionBlind host ring = true ->
  scanSelfIntersections host (rev ring) = scanSelfIntersections host ring.
Proof.
  intros D.
  assert (N : List.length (rev ring) = List.length ring) by apply length_rev.
  assert (R : forall i j, In (i, j) (examinedPairs (List.length ring)) ->
                          exists b,
                            intersectAt host (rev ring) (i, j) = Ok b
                            /\ intersectAt host ring
                                 (List.length ring - 2 - j, List.length ring - 2 - i) = Ok b).
  { intros i j I. assert (I' := I). apply in_examinedPairs in I'.
    rewrite intersectAt_rev by lia.
    destruct (directionBlind_spec ring _ D (mirror_examined _ _ _ I)) as (b & F & B).
    exists b. auto. }
  rewrite !scan_spec.
  - rewrite N. f_equal. apply eq_true_iff_eq. rewrite !existsb_exists. split.
    + intros ([i j] & I & H). exists (List.length ring - 2 - j, List.length ring - 2 - i).
      split; [apply mirror_examined; exact I|].
      destruct (R i j I) as (b & F & B). unfold hit in *. rewrite F in H. rewrite B. exact H.
    + intros ([i j] & I & H). exists (List.length ring - 2 - j, List.length ring - 2 - i).
      split; [apply mirror_examined; exact I|].
      assert (I' := I). apply in_examinedPairs in I'.
      destruct (R _ _ (mirror_examined _ _ _ I)) as (b & F & B).
      replace (List.length ring - 2 - (List.length ring - 2 - i)) with i in B by lia.
      replace (List.length ring - 2 - (List.length ring - 2 - j)) with j in B by lia.
      unfold hit in *. rewrite B in H. rewrite F. exact H.
  - intros ij I. destruct (directionBlind_spec ring ij D I) as (b & F & _). eauto.
  - rewrite N. intros [i j] I. destruct (R i j I) as (b & F & _). eauto.
Qed.
End Scan.
End ScanFacts.

(** ** Per-plot validation *)

(** C5, as the code has it: [validateAllPlotsWithSteps] returns the empty
    sequence for a root that is not a collection; for a collection, when it
    returns, it returns one result per feature, the one [validatePlot]
    computes from the feature and its index; it returns as soon as every
    feature's own validation does; and the index only shows in rule names
    and messages: the verdict, the pass/fail sequence of the steps and the
    number of errors of a feature are the same at every index. *)
Theorem per_plot_results (host : Host) :
  (forall geojson,
      collectionFeatures geojson = None ->
      WithSteps.validateAllPlotsWithSteps host geojson = Ok [])
  /\ (forall geojson features out,
         collectionFeatures geojson = Some features ->
         WithSteps.validateAllPlotsWithSteps host geojson = Ok out ->
         List.length out = List.length features
         /\ (forall i feature,
                nth_error features i = Some feature ->
                exists p,
                  WithSteps.validatePlot host feature i = Ok p /\ nth_error out i = Some p))
  /\ (forall geojson features,
         collectionFeatures geojson = Some features ->
         (forall i feature,
             nth_error features i = Some feature ->
             returned (WithSteps.validatePlot host feature i) = true) ->
         exists out, WithSteps.validateAllPlotsWithSteps host geojson = Ok out)
  /\ (forall feature i j p,
         WithSteps.validatePlot host feature i = Ok p ->
         exists q,
           WithSteps.validatePlot host feature j = Ok q
           /\ WithSteps.plotIsValid q = WithSteps.plotIsValid p
           /\ map WithSteps.passed (WithSteps.plotSteps q)
              = map WithSteps.passed (WithSteps.plotSteps p)
           /\ List.length (WithSteps.plotErrors q) = List.length (WithSteps.plotErrors p)).
Proof.
  split; [|split; [|split]].
  - intros geojson N. rewrite WithStepsFacts.validateAllPlotsWithSteps_spec, N. reflexivity.
  - intros geojson features out C H.
    rewrite WithStepsFacts.validateAllPlotsWithSteps_spec, C in H.
    exact (WithStepsFacts.mapIndexed_spec _ _ _ _ H).
  - intros geojson features C R.
    rewrite WithStepsFacts.validateAllPlotsWithSteps_spec, C.
    apply WithStepsFacts.mapIndexed_returns. exact R.
  - intros feature i j p H.
    assert (A := WithStepsFacts.validatePlot_alike host feature i j).
    rewrite H in A. destruct (WithSteps.validatePlot host feature j) as [q|]; [|contradiction].
    cbn in A. unfold Trace.plotOutcome in A. inversion A.
    exists q. auto.
Qed.

(** Per-plot validation of three features, the second of which is not a
    Feature. *)
Lemma per_plot_results_three :
  exists out,
    WithSteps.validateAllPlotsWithSteps sampleHost
      (collection [namedFeature; wrongTypeFeature; namedFeature]) = Ok out
    /\ List.length out = 3
    /\ map WithSteps.plotIsValid out = [true; false; true].
Proof.
  eexists. split; [vm_compute; reflexivity|]. split; [|reflexivity].
  apply (proj1 (proj2 (per_plot_results sampleHost))
           (collection [namedFeature; wrongTypeFeature; namedFeature])
           [namedFeature; wrongTypeFeature; namedFeature]).
  - reflexivity.
  - vm_compute. reflexivity.
Defined.

(** C5, against the claim: two features with the same value get different
    errors and steps, because their index is written into every rule name
    and message. *)
Lemma equal_features_differ :
  exists p q,
    WithSteps.validateAllPlotsWithSteps sampleHost (collection [unnamedFeature; unnamedFeature])
    = Ok [p; q]
    /\ WithSteps.plotErrors p
       = ["Feature 0: Missing required property 'plot_ID'";
          "Feature 0: Missing required property 'farmer_name'"]
    /\ WithSteps.plotErrors q
       = ["Feature 1: Missing required property 'plot_ID'";
          "Feature 1: Missing required property 'farmer_name'"]
    /\ map WithSteps.rule (WithSteps.plotSteps p)
       = ["Feature 0 type"; "Feature 0 properties"; "Feature 0 property plot_ID";
          "Feature 0 property farmer_name"; "Feature 0 geometry"]
    /\ map WithSteps.rule (WithSteps.plotSteps q)
       = ["Feature 1 type"; "Feature 1 properties"; "Feature 1 property plot_ID";
          "Feature 1 property farmer_name"; "Feature 1 geometry"].
Proof.
  eexists. eexists. split; [vm_compute; reflexivity|]. repeat split.
Qed.

(** A feature that raises takes the whole call with it: no result for the
    features around it. *)
Lemma per_plot_results_lost (host : Host) :
  WithSteps.validateAllPlotsWithSteps host
    (collection [namedFeature; nullPropertiesFeature; namedFeature]) = Throw.
Proof. vm_compute. reflexivity. Qed.

(** ** Coordinate precision *)

Module PrecisionFacts.
Import Plain.

Lemma afterFirstDot_app a b :
  afterFirstDot (a ++ b)
  = match afterFirstDot a with
    | Some rest => Some (rest ++ b)
    | None => afterFirstDot b
    end.
Proof.
  induction a as [|c a IH]; cbn; [reflexivity|].
  destruct (Ascii.eqb c "."); auto.
Qed.

Lemma untilDot_whole a : afterFirstDot a = None -> untilDot a = a.
Proof.
  induction a as [|c a IH]; cbn; [reflexivity|].
  destruct (Ascii.eqb c "."); [discriminate|]. intros H. f_equal. auto.
Qed.

Lemma dotless_app a b :
  afterFirstDot a = None -> afterFirstDot b = None -> afterFirstDot (a ++ b) = None.
Proof. intros A B. rewrite afterFirstDot_app, A. exact B. Qed.

Lemma dotless_zeros n : afterFirstDot (zeros n) = None.
Proof. induction n; cbn; auto. Qed.

Lemma dotless_substring s :
  afterFirstDot s = None -> forall n m, afterFirstDot (substring n m s) = None.
Proof.
  induction s as [|c s IH]; intros H n m.
  - destruct n, m; reflexivity.
  - cbn in H. destruct (Ascii.eqb c ".") eqn:E; [discriminate|].
    destruct n as [|n]; [destruct m as [|m]|]; cbn; rewrite ?E; auto.
Qed.

Lemma dotless_digits z : afterFirstDot (digits_of_Z z) = None.
Proof.
  unfold digits_of_Z, NilZero.string_of_uint.
  assert (D : forall d, afterFirstDot (NilEmpty.string_of_uint d) = None)
    by (induction d; cbn; auto).
  destruct (N.to_uint (Z.to_N z)); try apply D. reflexivity.
Qed.

Lemma length_zeros n : String.length (zeros n) = n.
Proof. induction n; cbn; auto. Qed.

Lemma length_app a b : String.length (a ++ b) = String.length a + String.length b.
Proof. induction a; cbn; auto. Qed.

Lemma length_substring s :
  forall n m, n + m <= String.length s -> String.length (substring n m s) = m.
Proof.
  induction s as [|c s IH]; intros n m H; cbn in H.
  - destruct n, m; cbn; lia.
  - destruct n as [|n]; [destruct m as [|m]|]; cbn; auto.
    + f_equal. apply IH. lia.
    + apply IH. lia.
Qed.

(** In positional notation the decimal part that [hasExcessivePrecision]
    measures has the length [k - n]. *)
Lemma decimalPart_positional ds n :
  afterFirstDot ds = None ->
  (-6 < n <= 21)%Z ->
  String.length (decimalPart (layout_number ds n))
  = Z.to_nat (Z.of_nat (String.length ds) - n).
Proof.
  intros D R. unfold layout_number, decimalPart.
  destruct ((Z.of_nat (String.length ds) <=? n) && (n <=? 21))%Z eqn:C1.
  { apply andb_true_iff in C1. destruct C1 as [C1 _]. apply Z.leb_le in C1.
    rewrite (dotless_app _ _ D (dotless_zeros _)). cbn. lia. }
  destruct ((0 <? n) && (n <=? 21))%Z eqn:C2.
  { apply andb_true_iff in C2. destruct C2 as [C2 C2']. apply Z.ltb_lt in C2.
    apply Z.leb_le in C2'. apply andb_false_iff in C1.
    assert (K : (n < Z.of_nat (String.length ds))%Z)
      by (destruct C1 as [C1|C1]; [apply Z.leb_gt in C1; lia | apply Z.leb_gt in C1; lia]).
    rewrite afterFirstDot_app, (dotless_substring _ D). cbn [append afterFirstDot Ascii.eqb Bool.eqb].
    rewrite untilDot_whole by (apply dotless_substring; exact D).
    rewrite length_substring by lia. lia. }
  destruct ((-6 <? n) && (n <=? 0))%Z eqn:C3.
  { apply andb_true_iff in C3. destruct C3 as [_ C3]. apply Z.leb_le in C3.
    cbn [append afterFirstDot Ascii.eqb Bool.eqb].
    rewrite untilDot_whole by (apply dotless_app; [apply dotless_zeros | exact D]).
    rewrite length_app, length_zeros. lia. }
  apply andb_false_iff in C2. apply andb_false_iff in C3.
  destruct C2 as [C2|C2]; [apply Z.ltb_ge in C2 | apply Z.leb_gt in C2; lia].
  destruct C3 as [C3|C3]; [apply Z.ltb_ge in C3; lia | apply Z.leb_gt in C3; lia].
Qed.

(** X12: whenever [toString] writes a number positionally (its decimal
    exponent [n] is within [-5 .. 21]), [hasExcessivePrecision] is true
    exactly when the number has more than six fractional digits. *)
Lemma precision_check_positional x s m e digits n :
  Prim2SF x = S754_finite s m e ->
  shortest_decimal m e = (digits, n) ->
  (-6 < n <= 21)%Z ->
  hasExcessivePrecision (JNum x) = Ok (6 <? fractionalDigits x)%nat.
Proof.
  intros F S R. unfold hasExcessivePrecision, ToString, Number_toString, fractionalDigits.
  rewrite F, S. cbn [bind]. do 2 f_equal.
  rewrite <- (decimalPart_positional (digits_of_Z digits) n (dotless_digits digits) R).
  destruct s; reflexivity.
Qed.
End PrecisionFacts.

(** C9: 0.0000001 has seven fractional digits, but [toString] writes it
    ["1e-7"], in which [hasExcessivePrecision] finds no decimal part: the
    plain engine records no precision violation and accepts the document.
    With a coordinate that [toString] writes positionally, 0.1234567, the
    plain engine does reject the document, and the diagnostics-capable
    engine, which has no precision check, accepts it. *)
Theorem tiny_coordinate_escapes_precision_check :
  fractionalDigits 0.0000001 = 7
  /\ Number_toString 0.0000001 = "1e-7"
  /\ Plain.hasExcessivePrecision (JNum 0.0000001) = Ok false
  /\ Plain.validateCoordinate (position 0.0000001 0) 0 0 0 Plain.emptyResult
     = Ok Plain.emptyResult
  /\ Plain.validateGeoJSON sampleHost (collection [polygonFeature (rectangleFrom 0.0000001)])
     = Ok {| Plain.isValid := true; Plain.errors := [] |}
  /\ fractionalDigits 0.1234567 = 7
  /\ Plain.validateGeoJSON sampleHost (collection [polygonFeature (rectangleFrom 0.1234567)])
     = Ok {| Plain.isValid := false;
             Plain.errors :=
               ["Feature 0 Point 0: Excessive coordinate precision";
                "Feature 0 Point 1: Excessive coordinate precision";
                "Feature 0 Point 4: Excessive coordinate precision"] |}
  /\ (exists r,
         WithSteps.validateGeoJSONWithSteps sampleHost
           (collection [polygonFeature (rectangleFrom 0.1234567)]) = Ok r
         /\ WithSteps.isValid r = true
         /\ WithSteps.errors r = []).
Proof.
  repeat split; try (vm_compute; reflexivity).
  eexists. repeat split; vm_compute; reflexivity.
Qed.

(** ** One result after another

    What a check adds to a result does not depend on what the result
    already holds. *)
Module FrameFacts.
Import WithSteps Frame WithStepsFacts.

Lemma after_addStep r0 d rule p msg :
  after r0 (addStep d rule p msg) = addStep (after r0 d) rule p msg.
Proof. unfold after, addStep. cbn. rewrite app_assoc. reflexivity. Qed.

Lemma after_addError r0 d msg : after r0 (addError d msg) = addError (after r0 d) msg.
Proof. unfold after, addError. cbn. rewrite app_assoc, andb_false_r. reflexivity. Qed.

Lemma after_empty r : after r emptyResult = r.
Proof. destruct r. unfold after. cbn. rewrite !app_nil_r, andb_true_r. reflexivity. Qed.

Lemma after_assoc a b c : after (after a b) c = after a (after b c).
Proof. unfold after. cbn. rewrite !app_assoc, andb_assoc. reflexivity. Qed.

Lemma shifted_addStep r0 d d' rule p msg :
  shifted r0 d d' -> shifted r0 (addStep d rule p msg) (addStep d' rule p msg).
Proof. unfold shifted. intros ->. symmetry. apply after_addStep. Qed.

Lemma shifted_addError r0 d d' msg :
  shifted r0 d d' -> shifted r0 (addError d msg) (addError d' msg).
Proof. unfold shifted. intros ->. symmetry. apply after_addError. Qed.

Lemma alike_forEach_aligned {A R1 R2 : Type} (rel : R1 -> R2 -> Prop)
  (b1 : A -> nat -> R1 -> Exn R1) (b2 : A -> nat -> R2 -> Exn R2) :
  (forall a k x y, rel x y -> alike rel (b1 a k x) (b2 a k y)) ->
  forall l from x y, rel x y -> alike rel (forEach l from b1 x) (forEach l from b2 y).
Proof.
  intros Hb. induction l as [|a l IH]; intros from x y H; cbn; [exact H|].
  apply (alike_bind rel); auto.
Qed.

Create HintDb frame.
#[local] Hint Resolve shifted_addStep shifted_addError : frame.

(** Split on the tests the two runs share. *)
Ltac apart :=
  repeat (cbn [bind alike];
          match goal with
          | |- alike _ (bind ?m _) (bind ?m _) => destruct m eqn:?
          | |- alike _ (if ?b then _ else _) (if ?b then _ else _) => destruct b eqn:?
          | |- alike _ (match ?x with _ => _ end) (match ?x with _ => _ end) => destruct x eqn:?
          | |- alike _ (let (_, _) := ?x in _) _ => destruct x
          end);
  cbn [bind alike]; auto 10 with frame.

Section Engine.
Variable host : Host.
Variable r0 : ValidationResultWithSteps.

Lemma checkExcessiveStraightLinesWithSteps_frame ring fi d d' :
  shifted r0 d d' ->
  alike (shifted r0) (checkExcessiveStraightLinesWithSteps ring fi d)
                     (checkExcessiveStraightLinesWithSteps ring fi d').
Proof. intros H. unfold checkExcessiveStraightLinesWithSteps. apart. Qed.

Lemma checkSelfIntersectionsWithSteps_frame ring fi d d' :
  shifted r0 d d' ->
  alike (shifted r0) (checkSelfIntersectionsWithSteps host ring fi d)
                     (checkSelfIntersectionsWithSteps host ring fi d').
Proof. intros H. unfold checkSelfIntersectionsWithSteps. apart. Qed.

Lemma checkForSpikesWithSteps_frame ring fi d d' :
  shifted r0 d d' ->
  alike (shifted r0) (checkForSpikesWithSteps host ring fi d)
                     (checkForSpikesWithSteps host ring fi d').
Proof.
  intros H. unfold checkForSpikesWithSteps.
  apply (alike_bind (fun s1 s2 => shifted r0 (fst s1) (fst s2) /\ snd s1 = snd s2)).
  - apply alike_forLoop; [|split; [exact H | reflexivity]].
    intros k [x fx] [y fy] [Hxy Hf]. cbn in Hxy, Hf. subst fy.
    apart. all: split; cbn; auto with frame.
  - intros [x fx] [y fy] [Hxy Hf]. cbn in Hxy, Hf. subst fy.
    destruct fx; cbn; auto with frame.
Qed.

Lemma validateCoordinateWithSteps_frame coord fi ri pi d d' :
  shifted r0 d d' ->
  alike (shifted r0) (validateCoordinateWithSteps coord fi ri pi d)
                     (validateCoordinateWithSteps coord fi ri pi d').
Proof.
  intros H. unfold validateCoordinateWithSteps.
  destruct coord; cbn [alike]; auto with frame.
  destruct (_ || _); cbn [alike]; auto with frame.
  apply (alike_bind (shifted r0)).
  - apart.
  - intros x y Hxy. apart.
Qed.

Lemma validateRingWithSteps_frame ring fi ri d d' :
  shifted r0 d d' ->
  alike (shifted r0) (validateRingWithSteps host ring fi ri d)
                     (validateRingWithSteps host ring fi ri d').
Proof.
  intros H. unfold validateRingWithSteps.
  destruct ring; cbn [alike]; auto with frame.
  destruct (_ <? _)%nat; cbn [alike]; auto 10 with frame.
  destruct (pointsEqual _ _) as [closed|]; cbn [bind alike]; [|exact I].
  apply (alike_bind (shifted r0)).
  { apply alike_forLoop; [|destruct closed; cbn; auto 10 with frame].
    intros k x y Hxy. apart. }
  intros x1 y1 H1. apply (alike_bind (shifted r0)).
  { apply alike_forLoop; [|exact H1]. intros k x y Hxy. apart. }
  intros x2 y2 H2. apply (alike_bind (shifted r0)).
  { apply alike_forEach_aligned; [|exact H2].
    intros a k x y Hxy. apply validateCoordinateWithSteps_frame. exact Hxy. }
  intros x3 y3 H3. apply (alike_bind (shifted r0)).
  { apply checkSelfIntersectionsWithSteps_frame. exact H3. }
  intros x4 y4 H4. apply (alike_bind (shifted r0)).
  { apply checkForSpikesWithSteps_frame. exact H4. }
  intros x5 y5 H5. apply checkExcessiveStraightLinesWithSteps_frame. exact H5.
Qed.

Lemma validatePolygonCoordinatesWithSteps_frame coordinates fi d d' :
  shifted r0 d d' ->
  alike (shifted r0) (validatePolygonCoordinatesWithSteps host coordinates fi d)
                     (validatePolygonCoordinatesWithSteps host coordinates fi d').
Proof.
  intros H. unfold validatePolygonCoordinatesWithSteps.
  destruct (_ <? _)%nat; cbn [alike]; auto with frame.
  destruct (_ =? _)%nat; cbn [alike]; auto 10 with frame.
  apply validateRingWithSteps_frame. auto 10 with frame.
Qed.

Lemma validateGeometryWithSteps_frame geometry fi d d' :
  shifted r0 d d' ->
  alike (shifted r0) (validateGeometryWithSteps host geometry fi d)
                     (validateGeometryWithSteps host geometry fi d').
Proof.
  intros H. unfold validateGeometryWithSteps.
  destruct (Get geometry "type") as [type|]; cbn [bind alike]; [|exact I].
  destruct (_ || _); cbn [alike]; auto with frame.
  destruct (ToString type); cbn [bind alike]; [|exact I].
  destruct (negb _); cbn [alike]; auto 10 with frame.
  destruct (Get geometry "coordinates") as [[]|]; cbn [bind alike]; auto 10 with frame.
  apply validatePolygonCoordinatesWithSteps_frame. auto 10 with frame.
Qed.

Lemma validateFeatureWithSteps_frame feature index d d' :
  shifted r0 d d' ->
  alike (shifted r0) (validateFeatureWithSteps host feature index d)
                     (validateFeatureWithSteps host feature index d').
Proof.
  intros H. unfold validateFeatureWithSteps.
  destruct (Get feature "type") as [type|]; cbn [bind alike]; [|exact I].
  destruct (negb _); cbn [alike]; auto with frame.
  destruct (HasProperty "properties" feature); cbn [bind alike]; [|exact I].
  destruct (Get feature "properties") as [properties|]; cbn [bind alike]; [|exact I].
  destruct (_ || _); cbn [alike]; auto 10 with frame.
  apply (alike_bind (shifted r0)).
  { apply alike_forEach_aligned; [|auto 10 with frame]. intros prop k x y Hxy. apart. }
  intros x1 y1 H1.
  destruct (HasProperty "area" properties) as [hasArea|]; cbn [bind alike]; [|exact I].
  apply (alike_bind (shifted r0)).
  { apart. }
  intros x2 y2 H2.
  destruct (HasProperty "geometry" feature); cbn [bind alike]; [|exact I].
  destruct (Get feature "geometry") as [geometry|]; cbn [bind alike]; [|exact I].
  destruct (_ && _); cbn [alike]; auto with frame.
  destruct (StrictEquals _ _ _); cbn [alike]; auto with frame.
  apply validateGeometryWithSteps_frame. exact H2.
Qed.

End Engine.

(** What a feature adds to a result does not depend on the result. *)
Lemma validateFeatureWithSteps_after host feature index r :
  validateFeatureWithSteps host feature index r
  = (d <- validateFeatureWithSteps host feature index emptyResult ;; Ok (after r d)).
Proof.
  assert (A := validateFeatureWithSteps_frame host r feature index emptyResult r).
  unfold shifted in A. rewrite after_empty in A. specialize (A eq_refl).
  destruct (validateFeatureWithSteps host feature index emptyResult) as [d|],
           (validateFeatureWithSteps host feature index r) as [d'|];
    cbn in A |- *; try contradiction; congruence.
Qed.

Lemma OptGet_returns v k : exists x, OptGet v k = Ok x.
Proof. destruct v; cbn; eauto. Qed.

Lemma validatePlot_result host feature index :
  alike (fun d p => plotResult p = d)
    (validateFeatureWithSteps host feature index emptyResult)
    (validatePlot host feature index).
Proof.
  unfold validatePlot.
  destruct (validateFeatureWithSteps host feature index emptyResult) as [d|];
    cbn [bind alike]; [|exact I].
  destruct (OptGet_returns feature "properties") as [props ->]. cbn [bind].
  destruct (OptGet_returns props "plot_ID") as [x ->].
  destruct (OptGet_returns props "farmer_name") as [y ->]. cbn [bind alike].
  destruct d. reflexivity.
Qed.

(** The aggregate of per-plot results. *)
Lemma forEach_mapIndexed host features :
  forall from r,
    alike (fun r' out => r' = fold_left (fun acc p => after acc (plotResult p)) out r)
      (forEach features from
         (fun feature index results => validateFeatureWithSteps host feature index results) r)
      (mapIndexed features from (validatePlot host)).
Proof.
  induction features as [|f fs IH]; intros from r; cbn [forEach mapIndexed alike fold_left];
    [reflexivity|].
  rewrite validateFeatureWithSteps_after.
  assert (P := validatePlot_result host f from).
  destruct (validateFeatureWithSteps host f from emptyResult) as [d|],
           (validatePlot host f from) as [p|]; cbn in P |- *; try contradiction; [|exact I].
  subst d. specialize (IH (S from) (after r (plotResult p))).
  destruct (forEach fs (S from) _ _) as [r'|], (mapIndexed fs (S from) _) as [out|];
    cbn in IH |- *; try contradiction; [|exact I].
  exact IH.
Qed.

Lemma fold_after out :
  forall r,
    let r' := fold_left (fun acc p => after acc (plotResult p)) out r in
    steps r' = (steps r ++ List.concat (map plotSteps out))%list
    /\ errors r' = (errors r ++ List.concat (map plotErrors out))%list
    /\ isValid r' = isValid r && forallb plotIsValid out.
Proof.
  induction out as [|p out IH]; intros r; cbn.
  - rewrite !app_nil_r, andb_true_r. auto.
  - destruct (IH (after r (plotResult p))) as (S & E & V).
    rewrite S, E, V. cbn. rewrite !app_assoc, andb_assoc. auto.
Qed.

(** On a collection with features, [validateGeoJSONWithSteps] is the loop
    over the features, started after the two root steps. *)
Lemma validateGeoJSONWithSteps_features host geojson features :
  collectionFeatures geojson = Some features ->
  features <> [] ->
  validateGeoJSONWithSteps host geojson
  = forEach features 0
      (fun feature index results => validateFeatureWithSteps host feature index results)
      {| isValid := true; errors := []; steps := rootSteps |}.
Proof.
  unfold collectionFeatures, validateGeoJSONWithSteps.
  destruct geojson as [| |[]|x|str|elems|fields]; try discriminate.
  destruct (lookup "type" fields) as [[| | | |type| |]|] eqn:T; try discriminate.
  destruct (lookup "features" fields) as [[| | | | |fs|]|] eqn:F; try discriminate.
  destruct (type =? "FeatureCollection") eqn:E; [|discriminate].
  intros H N. inversion H; subst; clear H.
  unfold typeof, ToBoolean. change ("object" =? "object") with true.
  cbn [negb orb Get bind]. rewrite T, F. cbn [StrictEquals]. rewrite E. cbn [negb].
  destruct features as [|f fs]; [contradiction|]. reflexivity.
Qed.

End FrameFacts.

(** X1: on a collection with at least one feature the two entry points of
    the diagnostics-capable engine agree: either both raise, or both
    return, and then the aggregate result holds the two root steps
    followed by the steps of the per-plot results in order, its errors are
    the errors of the per-plot results in order, and it is valid exactly
    when every plot is. *)
Theorem entry_points_agree (host : Host) (geojson : JsVal) :
  hasFeatures geojson = true ->
  alike
    (fun r out =>
       WithSteps.steps r = (Frame.rootSteps ++ List.concat (map WithSteps.plotSteps out))%list
       /\ WithSteps.errors r = List.concat (map WithSteps.plotErrors out)
       /\ WithSteps.isValid r = forallb WithSteps.plotIsValid out)
    (WithSteps.validateGeoJSONWithSteps host geojson)
    (WithSteps.validateAllPlotsWithSteps host geojson).
Proof.
  unfold hasFeatures. intros H.
  destruct (collectionFeatures geojson) as [[|f fs]|] eqn:C; try discriminate.
  rewrite (FrameFacts.validateGeoJSONWithSteps_features host geojson (f :: fs) C)
    by discriminate.
  rewrite WithStepsFacts.validateAllPlotsWithSteps_spec, C.
  assert (A := FrameFacts.forEach_mapIndexed host (f :: fs) 0
                 {| WithSteps.isValid := true; WithSteps.errors := [];
                    WithSteps.steps := Frame.rootSteps |}).
  destruct (forEach _ _ _ _) as [r|], (mapIndexed _ _ _) as [out|];
    cbn [alike] in A |- *; try contradiction; [|exact I].
  subst r. exact (FrameFacts.fold_after out _).
Qed.

(** The agreement on three features, one of them of the wrong type and
    one without names. *)
Lemma entry_points_agree_three :
  alike
    (fun r out =>
       WithSteps.steps r = (Frame.rootSteps ++ List.concat (map WithSteps.plotSteps out))%list
       /\ WithSteps.errors r = List.concat (map WithSteps.plotErrors out)
       /\ WithSteps.isValid r = forallb WithSteps.plotIsValid out)
    (WithSteps.validateGeoJSONWithSteps sampleHost
       (collection [namedFeature; wrongTypeFeature; unnamedFeature]))
    (WithSteps.validateAllPlotsWithSteps sampleHost
       (collection [namedFeature; wrongTypeFeature; unnamedFeature])).
Proof.
  apply (entry_points_agree sampleHost
           (collection [namedFeature; wrongTypeFeature; unnamedFeature])).
  reflexivity.
Defined.

(** ** How the results of the plain engine grow *)
Module PlainGrowth.
Import Plain PlainTrace PlainFacts.

Section Engine.
Variable host : Host.

Lemma validateRing_appends ring fi ri r r' :
  validateRing host ring fi ri r = Ok r' -> appends r r'.
Proof.
  unfold validateRing. intros H. run H; try solve [chain].
  all: repeat match goal with
         | L : forLoop _ _ _ _ = Ok _ |- _ =>
             apply forLoop_appends in L;
             [ | let Hb := fresh in intros ? ? ? Hb; run Hb; chain ]
         | L : forEach _ _ _ _ = Ok _ |- _ =>
             apply forEach_appends in L;
             [ | intros ? ? ? ?; apply validateCoordinate_appends ]
         | L : checkSelfIntersections _ _ _ _ = Ok _ |- _ =>
             apply checkSelfIntersections_appends in L
         | L : checkForSpikes _ _ _ _ = Ok _ |- _ =>
             apply checkForSpikes_appends in L
         | L : checkExcessiveStraightLines _ _ _ = Ok _ |- _ =>
             apply checkExcessiveStraightLines_appends in L
         end.
  all: chain.
Qed.

Lemma validatePolygonCoordinates_appends coordinates fi r r' :
  validatePolygonCoordinates host coordinates fi r = Ok r' -> appends r r'.
Proof.
  unfold validatePolygonCoordinates. intros H. run H; try solve [chain].
  apply validateRing_appends in H. chain.
Qed.

Lemma validateGeometry_appends geometry fi r r' :
  validateGeometry host geometry fi r = Ok r' -> appends r r'.
Proof.
  unfold validateGeometry. intros H. run H; try solve [chain].
  apply validatePolygonCoordinates_appends in H. chain.
Qed.

Lemma validateFeature_appends feature index r r' :
  validateFeature host feature index r = Ok r' -> appends r r'.
Proof.
  unfold validateFeature. intros H. run H; try solve [chain].
  all: repeat match goal with
         | L : forEach _ _ _ _ = Ok _ |- _ =>
             apply forEach_appends in L;
             [ | let Hb := fresh in intros ? ? ? ? Hb; runs; chain ]
         | L : validateGeometry _ _ _ _ = Ok _ |- _ =>
             apply validateGeometry_appends in L
         end.
  all: runs; chain.
Qed.

Lemma validateGeoJSON_appends geojson r :
  validateGeoJSON host geojson = Ok r -> appends emptyResult r.
Proof.
  unfold validateGeoJSON. intros H. run H; try solve [chain].
  apply forEach_appends in H; [ | intros ? ? ? ?; apply validateFeature_appends ].
  chain.
Qed.

End Engine.
End PlainGrowth.

(** X3: a result returned by [validateGeoJSON] is valid exactly when it
    holds no error; and validating a feature only appends errors to the
    result it is given, lowering the verdict when it appends any. *)
Theorem plain_verdict (host : Host) :
  (forall geojson r,
      Plain.validateGeoJSON host geojson = Ok r ->
      (Plain.isValid r = true <-> Plain.errors r = []))
  /\ (forall feature index r r',
         Plain.validateFeature host feature index r = Ok r' ->
         exists new,
           Plain.errors r' = (Plain.errors r ++ new)%list
           /\ Plain.isValid r' = Plain.isValid r && match new with [] => true | _ :: _ => false end).
Proof.
  split.
  - intros geojson r H.
    destruct (PlainGrowth.validateGeoJSON_appends host geojson r H) as (new & E & V).
    rewrite E, V. cbn. destruct new; split; intros; (reflexivity || discriminate).
  - intros feature index r r' H. exact (PlainGrowth.validateFeature_appends host _ _ _ _ H).
Qed.

(** The verdict of the plain engine on a document with one unnamed
    feature. *)
Lemma plain_verdict_unnamed :
  exists r,
    Plain.validateGeoJSON sampleHost (collection [unnamedFeature]) = Ok r
    /\ Plain.isValid r = false
    /\ (Plain.isValid r = true <-> Plain.errors r = []).
Proof.
  eexists. split; [vm_compute; reflexivity|]. split; [reflexivity|].
  apply (proj1 (plain_verdict sampleHost) (collection [unnamedFeature])).
  vm_compute. reflexivity.
Defined.

(** ** What a valid verdict means *)
Module AcceptedFacts.
Import WithSteps Accepted WithStepsFacts.

Lemma StrictEquals_string v s : StrictEquals false v (JStr s) = true -> v = JStr s.
Proof.
  destruct v; cbn; try discriminate. intros H. apply String.eqb_eq in H. congruence.
Qed.

Lemma StrictEquals_null v : StrictEquals false v JNull = true -> v = JNull.
Proof. destruct v; cbn; try discriminate. reflexivity. Qed.

Lemma Get_string v k s :
  Get v k = Ok (JStr s) -> exists fields, v = JObj fields /\ lookup k fields = Some (JStr s).
Proof.
  destruct v; cbn; try discriminate; intros H; inversion H as [E]; clear H.
  - destruct (k =? "length"); discriminate.
  - destruct (k =? "length"); discriminate.
  - exists fields. split; [reflexivity|].
    destruct (lookup k fields); [congruence | discriminate].
Qed.

Lemma forLoop_sound {R : Type} (ok : R -> bool) (Q : nat -> Prop) (body : nat -> R -> Exn R) :
  (forall i r r', body i r = Ok r' -> ok r' = true -> ok r = true /\ Q i) ->
  forall count from r r',
    forLoop from count body r = Ok r' -> ok r' = true ->
    ok r = true /\ forall i, from <= i < from + count -> Q i.
Proof.
  intros Hb. induction count as [|c IH]; intros from r r' H V; cbn in H.
  - inversion H; subst. split; [exact V | intros; lia].
  - destruct (body from r) as [r1|] eqn:B; cbn in H; [|discriminate].
    destruct (IH _ _ _ H V) as [V1 Q1]. destruct (Hb _ _ _ B V1) as [V0 Q0].
    split; [exact V0|]. intros i Hi.
    destruct (Nat.eq_dec i from) as [->|N]; [exact Q0 | apply Q1; lia].
Qed.

Lemma forEach_sound {A R : Type} (ok : R -> bool) (Q : A -> Prop)
  (body : A -> nat -> R -> Exn R) :
  (forall x i r r', body x i r = Ok r' -> ok r' = true -> ok r = true /\ Q x) ->
  forall l from r r',
    forEach l from body r = Ok r' -> ok r' = true -> ok r = true /\ Forall Q l.
Proof.
  intros Hb. induction l as [|x l IH]; intros from r r' H V; cbn in H.
  - inversion H; subst. split; [exact V | constructor].
  - destruct (body x from r) as [r1|] eqn:B; cbn in H; [|discriminate].
    destruct (IH _ _ _ H V) as [V1 Q1]. destruct (Hb _ _ _ _ B V1) as [V0 Q0].
    split; [exact V0 | constructor; assumption].
Qed.

Lemma forEach_complete {A R : Type} (ok : R -> bool) (body : A -> nat -> R -> Exn R) :
  forall l from r,
    (forall x i r, In x l -> exists r', body x i r = Ok r' /\ ok r' = ok r) ->
    exists r', forEach l from body r = Ok r' /\ ok r' = ok r.
Proof.
  induction l as [|x l IH]; intros from r Hb; cbn.
  - eexists. split; reflexivity.
  - destruct (Hb x from r (or_introl eq_refl)) as (r1 & B & V1). rewrite B. cbn [bind].
    destruct (IH (S from) r1) as (r' & F & V).
    + intros y i q I. apply Hb. right. exact I.
    + exists r'. split; [exact F | congruence].
Qed.

Section Engine.
Variable host : Host.

Lemma validateCoordinateWithSteps_sound coord fi ri pi r r' :
  validateCoordinateWithSteps coord fi ri pi r = Ok r' ->
  isValid r' = true -> isValid r = true /\ goodPosition coord.
Proof.
  unfold validateCoordinateWithSteps. intros H V. runs; cbn in V; try discriminate V.
  all: try match goal with E : ToString (JNum _) = Throw |- _ => discriminate E end.
  split; [exact V|].
  match goal with E : (_ <? _)%nat || _ = false |- _ => apply orb_false_iff in E; destruct E as [E1 E2] end.
  apply Nat.ltb_ge in E1. apply Nat.ltb_ge in E2.
  repeat match goal with E : _ || _ = false |- _ => apply orb_false_iff in E; destruct E end.
  eexists. split; [reflexivity|]. split; [lia|].
  split; eexists; (split; [eassumption|]); auto.
Qed.

Lemma validateCoordinateWithSteps_complete coord fi ri pi r :
  goodPosition coord ->
  exists r', validateCoordinateWithSteps coord fi ri pi r = Ok r' /\ isValid r' = isValid r.
Proof.
  intros (elems & -> & L & (x & X & X1 & X2) & (y & Y & Y1 & Y2)).
  unfold validateCoordinateWithSteps.
  assert (B : (List.length elems <? 2)%nat || (3 <? List.length elems)%nat = false).
  { apply orb_false_iff. split; apply Nat.ltb_ge; lia. }
  rewrite B, X, Y, X1, X2. cbn [bind orb]. rewrite Y1, Y2. cbn [orb].
  eexists. split; reflexivity.
Qed.

Lemma checkForSpikesWithSteps_sound ring fi r r' :
  checkForSpikesWithSteps host ring fi r = Ok r' ->
  isValid r' = true ->
  isValid r = true
  /\ (forall i, 1 <= i < List.length ring - 1 ->
                exists angle,
                  calculateAngle host (nth (i - 1) ring JUndefined) (nth i ring JUndefined)
                    (nth (i + 1) ring JUndefined) = Ok angle
                  /\ PrimFloat.ltb angle 5 = false).
Proof.
  unfold checkForSpikesWithSteps. intros H V.
  destruct (forLoop _ _ _ _) as [[r1 found]|] eqn:L; cbn [bind] in H; [|discriminate].
  assert (V1 : isValid r1 = true) by (destruct found; cbn in H; inversion H; subst; exact V).
  apply (forLoop_sound (fun s => isValid (fst s))
           (fun i => exists angle,
                       calculateAngle host (nth (i - 1) ring JUndefined) (nth i ring JUndefined)
                         (nth (i + 1) ring JUndefined) = Ok angle
                       /\ PrimFloat.ltb angle 5 = false)) in L; [ | | exact V1].
  - destruct L as [V0 Q]. split; [exact V0|]. intros i Hi. apply Q. lia.
  - intros i [x fx] [y fy] Hb Vy. cbn in Vy |- *.
    run Hb; cbn in Vy; try discriminate Vy. split; [exact Vy | eauto].
Qed.

Lemma checkSelfIntersectionsWithSteps_sound ring fi r r' :
  checkSelfIntersectionsWithSteps host ring fi r = Ok r' ->
  isValid r' = true ->
  isValid r = true /\ scanSelfIntersections host ring = Ok false.
Proof.
  unfold checkSelfIntersectionsWithSteps. intros H V.
  run H; cbn in V; try discriminate V. auto.
Qed.

Lemma checkExcessiveStraightLinesWithSteps_sound ring fi r r' :
  checkExcessiveStraightLinesWithSteps ring fi r = Ok r' ->
  isValid r' = true -> isValid r = true.
Proof.
  unfold checkExcessiveStraightLinesWithSteps. intros H V.
  run H; cbn in V; try discriminate V; exact V.
Qed.

(** A ring that passed the closure check passes the straight-lines
    heuristic. *)
Lemma checkExcessiveStraightLinesWithSteps_closed ring fi r :
  4 <= List.length ring ->
  pointsEqual (nth 0 ring JUndefined) (nth (List.length ring - 1) ring JUndefined) = Ok true ->
  exists msg,
    checkExcessiveStraightLinesWithSteps ring fi r
    = Ok (addStep r (featureLabel fi ++ " straight lines") true msg).
Proof.
  intros L C. unfold checkExcessiveStraightLinesWithSteps.
  destruct (Nat.eqb_spec (List.length ring) 4) as [E|E].
  - rewrite C. cbn [bind]. eexists. reflexivity.
  - cbn [bind]. assert (B : (List.length ring <=? 4)%nat = false) by (apply Nat.leb_gt; lia).
    rewrite B. eexists. reflexivity.
Qed.

Lemma validateRingWithSteps_sound ring fi ri r r' :
  validateRingWithSteps host ring fi ri r = Ok r' ->
  isValid r' = true ->
  isValid r = true /\ exists elems, ring = JArr elems /\ goodRing host elems.
Proof.
  unfold validateRingWithSteps. intros H V.
  destruct ring as [| | | | |elems|]; try (inversion H; subst; discriminate V).
  destruct (List.length elems <? 4)%nat eqn:B; [inversion H; subst; discriminate V|].
  apply Nat.ltb_ge in B.
  destruct (pointsEqual _ _) as [closed|] eqn:C; cbn [bind] in H; [|discriminate].
  destruct (forLoop _ _ _ _) as [r1|] eqn:L1 in H; cbn [bind] in H; [|discriminate].
  destruct (forLoop _ _ _ _) as [r2|] eqn:L2 in H; cbn [bind] in H; [|discriminate].
  destruct (forEach _ _ _ _) as [r3|] eqn:L3 in H; cbn [bind] in H; [|discriminate].
  destruct (checkSelfIntersectionsWithSteps _ _ _ _) as [r4|] eqn:L4 in H;
    cbn [bind] in H; [|discriminate].
  destruct (checkForSpikesWithSteps _ _ _ _) as [r5|] eqn:L5 in H;
    cbn [bind] in H; [|discriminate].
  assert (V5 := checkExcessiveStraightLinesWithSteps_sound _ _ _ _ H V).
  destruct (checkForSpikesWithSteps_sound _ _ _ _ L5 V5) as [V4 Angles].
  destruct (checkSelfIntersectionsWithSteps_sound _ _ _ _ L4 V4) as [V3 Scan].
  destruct (forEach_sound isValid goodPosition _
              (fun x i q q' => validateCoordinateWithSteps_sound x fi ri i q q')
              _ _ _ _ L3 V3) as [V2 Positions].
  assert (Dup : forall i q q',
             (dup <- pointsEqual (nth i elems JUndefined) (nth (i - 1) elems JUndefined) ;;
              if dup then
                Ok (addError
                      (addStep q (featureLabel fi ++ " zero-length edge") false
                         (featureLabel fi ++ ": Zero-length edge at points "
                          ++ nat_toString (i - 1) ++ " and " ++ nat_toString i))
                      (featureLabel fi ++ ": Zero-length edge at points "
                       ++ nat_toString (i - 1) ++ " and " ++ nat_toString i))
              else Ok q) = Ok q' ->
             isValid q' = true ->
             isValid q = true
             /\ pointsEqual (nth i elems JUndefined) (nth (i - 1) elems JUndefined) = Ok false).
  { intros i q q' Hb Vq. run Hb; cbn in Vq; try discriminate Vq. auto. }
  destruct (forLoop_sound isValid _ _ Dup _ _ _ _ L2 V2) as [V1 Distinct].
  assert (V0 : isValid (if negb closed
                        then addError
                               (addStep
                                  (addStep
                                     (addStep r (featureLabel fi ++ " ring array") true
                                        (featureLabel fi ++ ": Ring is an array of positions"))
                                     (featureLabel fi ++ " ring points") true
                                     (featureLabel fi ++ ": Ring has at least 4 points"))
                                  (featureLabel fi ++ " ring closure") false
                                  (featureLabel fi
                                   ++ ": Ring must be closed (first/last points identical)"))
                               (featureLabel fi
                                ++ ": Ring must be closed (first/last points identical)")
                        else addStep
                               (addStep
                                  (addStep r (featureLabel fi ++ " ring array") true
                                     (featureLabel fi ++ ": Ring is an array of positions"))
                                  (featureLabel fi ++ " ring points") true
                                  (featureLabel fi ++ ": Ring has at least 4 points"))
                               (featureLabel fi ++ " ring closure") true
                               (featureLabel fi ++ ": Ring is closed")) = true).
  { apply forLoop_extends in L1;
      [ | let Hb := fresh in
          intros ? ? ? Hb; run Hb; first [apply extends_fail | apply extends_refl] ].
    destruct (isValid (if negb closed then _ else _)) eqn:E; [reflexivity|].
    rewrite (extends_monotonic _ _ L1 E) in V1. discriminate V1. }
  destruct closed; cbn in V0; [|discriminate V0].
  split; [exact V0|]. exists elems. split; [reflexivity|].
  repeat split; auto.
  intros i Hi. apply Distinct. lia.
Qed.

Lemma validateRingWithSteps_complete elems fi ri r :
  goodRing host elems ->
  exists r',
    validateRingWithSteps host (JArr elems) fi ri r = Ok r' /\ isValid r' = isValid r.
Proof.
  intros (L & C & D & P & S & A). unfold validateRingWithSteps.
  assert (B : (List.length elems <? 4)%nat = false) by (apply Nat.ltb_ge; exact L).
  rewrite B, C. cbn [bind negb].
  rewrite forLoop_fixed by (intros i Hi; rewrite D by lia; reflexivity). cbn [bind].
  rewrite forLoop_fixed by (intros i Hi; rewrite D by lia; reflexivity). cbn [bind].
  match goal with
  | |- context [forEach ?l ?from ?body ?q] =>
      destruct (forEach_complete isValid body l from q) as (r3 & F & V3)
  end.
  { intros x i q I. apply validateCoordinateWithSteps_complete.
    rewrite Forall_forall in P. auto. }
  rewrite F. cbn [bind]. unfold checkSelfIntersectionsWithSteps. rewrite S. cbn [bind].
  rewrite (checkForSpikesWithSteps_none host elems fi _ A). cbn [bind].
  match goal with
  | |- context [checkExcessiveStraightLinesWithSteps elems fi ?q] =>
      destruct (checkExcessiveStraightLinesWithSteps_closed elems fi q L C) as [msg ->]
  end.
  eexists. split; [reflexivity|]. cbn. exact V3.
Qed.

Lemma validatePolygonCoordinatesWithSteps_sound coordinates fi r r' :
  validatePolygonCoordinatesWithSteps host coordinates fi r = Ok r' ->
  isValid r' = true ->
  isValid r = true /\ exists ring, coordinates = [JArr ring] /\ goodRing host ring.
Proof.
  unfold validatePolygonCoordinatesWithSteps. intros H V.
  destruct coordinates as [|first [|second rest]]; cbn in H;
    try (inversion H; subst; discriminate V).
  destruct (validateRingWithSteps_sound _ _ _ _ _ H V) as (V0 & elems & -> & G).
  split; [exact V0 | eauto].
Qed.

Lemma validatePolygonCoordinatesWithSteps_complete ring fi r :
  goodRing host ring ->
  exists r',
    validatePolygonCoordinatesWithSteps host [JArr ring] fi r = Ok r'
    /\ isValid r' = isValid r.
Proof.
  intros G. unfold validatePolygonCoordinatesWithSteps. cbn [List.length Nat.ltb Nat.leb Nat.eqb nth].
  match goal with
  | |- context [validateRingWithSteps host (JArr ring) fi 0 ?q] =>
      destruct (validateRingWithSteps_complete ring fi 0 q G) as (r' & E & V)
  end.
  exists r'. split; [exact E | exact V].
Qed.

Lemma validateGeometryWithSteps_sound geometry fi r r' :
  validateGeometryWithSteps host geometry fi r = Ok r' ->
  isValid r' = true ->
  isValid r = true
  /\ exists fields ring,
       geometry = JObj fields
       /\ lookup "type" fields = Some (JStr "Polygon")
       /\ lookup "coordinates" fields = Some (JArr [JArr ring])
       /\ goodRing host ring.
Proof.
  unfold validateGeometryWithSteps. intros H V.
  destruct (Get geometry "type") as [type|] eqn:T; cbn [bind] in H; [|discriminate].
  destruct (_ || _); [inversion H; subst; discriminate V|].
  destruct (ToString type) as [shown|]; cbn [bind] in H; [|discriminate].
  destruct (StrictEquals false type (JStr "Polygon")) eqn:E; cbn [negb] in H;
    [|inversion H; subst; discriminate V].
  apply StrictEquals_string in E. subst type.
  apply Get_string in T. destruct T as (fields & -> & T).
  cbn [Get bind] in H.
  destruct (lookup "coordinates" fields) as [[| | | | |coordinates|]|] eqn:C;
    try (inversion H; subst; discriminate V).
  destruct (validatePolygonCoordinatesWithSteps_sound _ _ _ _ H V) as (V0 & ring & -> & G).
  split; [exact V0|]. exists fields, ring. auto.
Qed.

Lemma validateGeometryWithSteps_complete fields ring fi r :
  lookup "type" fields = Some (JStr "Polygon") ->
  lookup "coordinates" fields = Some (JArr [JArr ring]) ->
  goodRing host ring ->
  exists r',
    validateGeometryWithSteps host (JObj fields) fi r = Ok r' /\ isValid r' = isValid r.
Proof.
  intros T C G. unfold validateGeometryWithSteps. cbn [Get bind]. rewrite T, C.
  change (negb (ToBoolean (JStr "Polygon")) || negb (includes validTypes (JStr "Polygon")))
    with false.
  change (negb (StrictEquals false (JStr "Polygon") (JStr "Polygon"))) with false.
  cbn [ToString bind].
  match goal with
  | |- context [validatePolygonCoordinatesWithSteps host [JArr ring] fi ?q] =>
      destruct (validatePolygonCoordinatesWithSteps_complete ring fi q G) as (r' & E & V)
  end.
  exists r'. split; [exact E | exact V].
Qed.

Lemma requiredProps_sound properties fi r r' :
  forEach requiredProps 0
    (fun prop (_ : nat) results =>
       missing <-
         (if negb (ToBoolean properties) then Ok true
          else has <- HasProperty prop properties ;; Ok (negb has)) ;;
       if missing then
         Ok (addError
               (addStep results (featureLabel fi ++ " property " ++ prop) false
                  (featureLabel fi ++ ": Missing required property '" ++ prop ++ "'"))
               (featureLabel fi ++ ": Missing required property '" ++ prop ++ "'"))
       else
         Ok (addStep results (featureLabel fi ++ " property " ++ prop) true
               (featureLabel fi ++ ": Property '" ++ prop ++ "' is present")))
    r = Ok r' ->
  isValid r' = true ->
  isValid r = true
  /\ exists fields,
       properties = JObj fields
       /\ hasKey "plot_ID" fields = true /\ hasKey "farmer_name" fields = true.
Proof.
  intros H V.
  apply (forEach_sound isValid (fun prop => HasProperty prop properties = Ok true)) in H;
    [ | | exact V].
  - destruct H as [V0 Q]. split; [exact V0|].
    inversion Q as [|? ? Q1 Q']; subst. inversion Q' as [|? ? Q2 ?]; subst.
    destruct properties; try discriminate Q1.
    cbn in Q1, Q2. exists fields. split; [reflexivity|]. split; congruence.
  - intros prop i q q' Hb Vq. run Hb; cbn in Vq; try discriminate Vq.
    match goal with E : _ = Ok false |- _ => rename E into M end.
    destruct (negb (ToBoolean properties)); [discriminate M|].
    destruct (HasProperty prop properties) as [[|]|]; cbn in M; try discriminate M.
    split; [exact Vq | reflexivity].
Qed.

Lemma validateFeatureWithSteps_sound feature index r r' :
  validateFeatureWithSteps host feature index r = Ok r' ->
  isValid r' = true ->
  isValid r = true /\ goodFeature host feature.
Proof.
  unfold validateFeatureWithSteps. intros H V.
  destruct (Get feature "type") as [type|] eqn:T; cbn [bind] in H; [|discriminate].
  destruct (StrictEquals false type (JStr "Feature")) eqn:E; cbn [negb] in H;
    [|inversion H; subst; discriminate V].
  apply StrictEquals_string in E. subst type.
  apply Get_string in T. destruct T as (fields & -> & T).
  cbn [HasProperty Get bind] in H.
  destruct (_ || _) eqn:O; [inversion H; subst; discriminate V|].
  destruct (forEach _ _ _ _) as [r1|] eqn:L1 in H; cbn [bind] in H; [|discriminate].
  destruct (HasProperty "area" _) as [hasArea|] eqn:A in H; cbn [bind] in H; [|discriminate].
  match type of H with
  | bind ?m _ = _ => destruct m as [r2|] eqn:L2; cbn [bind] in H; [|discriminate]
  end.
  unfold hasKey in O, H.
  destruct (lookup "properties" fields) as [properties|] eqn:P; [|discriminate O].
  destruct (lookup "geometry" fields) as [geometry|] eqn:G; cbn [negb andb] in H;
    [|inversion H; subst; discriminate V].
  assert (V2 : isValid r2 = true /\ goodGeometry host geometry).
  { destruct (StrictEquals false geometry JNull) eqn:N.
    - apply StrictEquals_null in N. inversion H; subst. split; [exact V | left; reflexivity].
    - destruct (validateGeometryWithSteps_sound _ _ _ _ H V) as (V2 & gf & ring & Hg).
      split; [exact V2 | right; eauto]. }
  destruct V2 as [V2 Geometry].
  assert (V1 : isValid r1 = true).
  { destruct hasArea; [|inversion L2; subst; exact V2].
    destruct (Get properties "area") as [area|]; cbn [bind] in L2; [|discriminate].
    destruct (negb (typeof area =? "number")); inversion L2; subst;
      [discriminate V2 | exact V2]. }
  destruct (requiredProps_sound _ _ _ _ L1 V1) as (V0 & pf & -> & K1 & K2).
  split; [exact V0|].
  exists fields, (JObj pf), geometry. repeat split; auto.
  exists pf. repeat split; auto.
  intros area Ha. cbn in A, L2. unfold hasKey in A. rewrite Ha in A, L2.
  inversion A; subst. cbn [bind] in L2.
  destruct area; cbn in L2; inversion L2; subst; try discriminate V2. eauto.
Qed.
Lemma validateFeatureWithSteps_complete feature index r :
  goodFeature host feature ->
  exists r',
    validateFeatureWithSteps host feature index r = Ok r' /\ isValid r' = isValid r.
Proof.
  intros (fields & properties & geometry & -> & T & P & (pf & -> & K1 & K2 & A) & G & Geo).
  unfold validateFeatureWithSteps, requiredProps.
  assert (HP : hasKey "properties" fields = true) by (unfold hasKey; rewrite P; reflexivity).
  assert (HG : hasKey "geometry" fields = true) by (unfold hasKey; rewrite G; reflexivity).
  cbn [Get HasProperty bind forEach]. rewrite T, P, G, HP, HG.
  cbn [HasProperty bind]. rewrite K1, K2.
  change (negb (StrictEquals false (JStr "Feature") (JStr "Feature"))) with false.
  change (typeof (JObj pf) =? "object") with true.
  cbn [negb orb andb StrictEquals ToBoolean bind].
  match goal with
  | |- exists r', bind ?m ?k = Ok r' /\ _ =>
      assert (M : exists r2, m = Ok r2 /\ isValid r2 = isValid r)
  end.
  { unfold hasKey. cbn [Get]. destruct (lookup "area" pf) as [area|] eqn:Ha.
    - destruct (A area eq_refl) as [x ->]. cbn [bind].
      change (negb (typeof (JNum x) =? "number")) with false.
      eexists; split; reflexivity.
    - eexists; split; reflexivity. }
  destruct M as (r2 & -> & V2). cbn [bind].
  destruct Geo as [-> | (gf & ring & -> & GT & GC & GR)]; cbn [StrictEquals].
  - eexists. split; [reflexivity | exact V2].
  - destruct (validateGeometryWithSteps_complete gf ring index r2 GT GC GR) as (r' & E & V).
    exists r'. split; [exact E | congruence].
Qed.

(** A root that is not a collection with at least one feature is
    reported as invalid. *)
Lemma validateGeoJSONWithSteps_root geojson :
  hasFeatures geojson = false ->
  exists r, validateGeoJSONWithSteps host geojson = Ok r /\ isValid r = false.
Proof.
  unfold hasFeatures, collectionFeatures, validateGeoJSONWithSteps.
  destruct geojson as [| |[]|x|str|elems|fields]; intros H.
  1-4, 7: eexists; (split; reflexivity).
  1-2: unfold typeof;
       change ("number" =? "object") with false; change ("string" =? "object") with false;
       cbn [negb]; rewrite orb_true_r; eexists; (split; reflexivity).
  unfold typeof, ToBoolean. change ("object" =? "object") with true.
  cbn [negb orb Get bind].
  destruct (lookup "type" fields) as [[| | | |type| |]|];
    try (eexists; (split; reflexivity)).
  cbn [StrictEquals].
  destruct (type =? "FeatureCollection"); cbn [negb];
    [| eexists; (split; reflexivity) ].
  destruct (lookup "features" fields) as [[| | | | |[|f fs]|]|];
    try discriminate H; eexists; (split; reflexivity).
Qed.



End Engine.
End AcceptedFacts.

(** X2: [validateGeoJSONWithSteps] returns a valid result exactly on the
    collections of at least one feature in which every feature is an
    object of type "Feature" whose properties are an object with the keys
    [plot_ID] and [farmer_name] (and a numeric [area], if any) and whose
    geometry is [null] or a Polygon of one ring: four or more positions of
    two or three entries with longitude and latitude in range, the last
    equal to the first and no other neighbours equal after rounding, no
    examined pair of segments intersecting and no angle below five
    degrees. *)
Theorem accepted_documents (host : Host) (geojson : JsVal) :
  (exists r,
      WithSteps.validateGeoJSONWithSteps host geojson = Ok r /\ WithSteps.isValid r = true)
  <-> Accepted.goodDocument host geojson.
Proof.
  split.
  - intros (r & H & V). unfold Accepted.goodDocument.
    destruct (hasFeatures geojson) eqn:F.
    + unfold hasFeatures in F.
      destruct (collectionFeatures geojson) as [[|f fs]|] eqn:C; try discriminate F.
      exists (f :: fs). split; [reflexivity|]. split; [discriminate|].
      rewrite (FrameFacts.validateGeoJSONWithSteps_features host geojson (f :: fs) C) in H
        by discriminate.
      apply (AcceptedFacts.forEach_sound WithSteps.isValid (Accepted.goodFeature host)) in H;
        [ exact (proj2 H) | | exact V ].
      intros x i q q'. apply AcceptedFacts.validateFeatureWithSteps_sound.
    + destruct (AcceptedFacts.validateGeoJSONWithSteps_root host geojson F) as (r0 & H0 & V0).
      congruence.
  - intros (features & C & N & G).
    rewrite (FrameFacts.validateGeoJSONWithSteps_features host geojson features C N).
    destruct (AcceptedFacts.forEach_complete WithSteps.isValid
                (fun feature index results =>
                   WithSteps.validateFeatureWithSteps host feature index results)
                features 0
                {| WithSteps.isValid := true; WithSteps.errors := [];
                   WithSteps.steps := Frame.rootSteps |}) as (r & H & V).
    + intros x i q I. apply AcceptedFacts.validateFeatureWithSteps_complete.
      rewrite Forall_forall in G. auto.
    + exists r. split; [exact H | exact V].
Qed.

(** The unit-square document is one of the accepted documents. *)
Lemma accepted_documents_square : Accepted.goodDocument sampleHost squareDocument.
Proof.
  apply (proj1 (accepted_documents sampleHost squareDocument)).
  eexists. split; [vm_compute; reflexivity | reflexivity].
Defined.

(** ** Repeated positions *)
Module RingFacts.

(** What iteration [i0] establishes, and every iteration keeps, holds at
    the end of the loop. *)
Lemma forLoop_reports {R : Type} (P : R -> Prop) (body : nat -> R -> Exn R) (i0 : nat) :
  (forall i r r', body i r = Ok r' -> P r -> P r') ->
  (forall r r', body i0 r = Ok r' -> P r') ->
  forall count from r r',
    from <= i0 < from + count -> forLoop from count body r = Ok r' -> P r'.
Proof.
  intros Keep Mark. induction count as [|c IH]; intros from r r' Hi H; [lia|].
  cbn in H. destruct (body from r) as [r1|] eqn:B; cbn in H; [|discriminate].
  destruct (Nat.eq_dec from i0) as [->|N].
  - apply Mark in B. revert B. revert H.
    apply (WithStepsFacts.forLoop_preserves (fun a b => P a -> P b)); eauto.
  - apply (IH (S from) r1); [lia | exact H].
Qed.

Section Engine.
Variable host : Host.

Lemma duplicate_reported_with_steps elems fi ri i r r' :
  4 <= List.length elems ->
  1 <= i < List.length elems ->
  WithSteps.pointsEqual (nth i elems JUndefined) (nth (i - 1) elems JUndefined) = Ok true ->
  WithSteps.validateRingWithSteps host (JArr elems) fi ri r = Ok r' ->
  In (WithSteps.featureLabel fi ++ ": Duplicate consecutive points at "
      ++ nat_toString (i - 1) ++ " and " ++ nat_toString i) (WithSteps.errors r')
  /\ In (WithSteps.featureLabel fi ++ ": Zero-length edge at points "
         ++ nat_toString (i - 1) ++ " and " ++ nat_toString i) (WithSteps.errors r').
Proof.
  intros L Hi D H. unfold WithSteps.validateRingWithSteps in H.
  assert (B : (List.length elems <? 4)%nat = false) by (apply Nat.ltb_ge; exact L).
  rewrite B in H.
  destruct (WithSteps.pointsEqual _ _) as [closed|] eqn:C in H; cbn [bind] in H; [|discriminate].
  destruct (forLoop _ _ _ _) as [r1|] eqn:L1 in H; cbn [bind] in H; [|discriminate].
  destruct (forLoop _ _ _ _) as [r2|] eqn:L2 in H; cbn [bind] in H; [|discriminate].
  destruct (forEach _ _ _ _) as [r3|] eqn:L3 in H; cbn [bind] in H; [|discriminate].
  destruct (WithSteps.checkSelfIntersectionsWithSteps _ _ _ _) as [r4|] eqn:L4 in H;
    cbn [bind] in H; [|discriminate].
  destruct (WithSteps.checkForSpikesWithSteps _ _ _ _) as [r5|] eqn:L5 in H;
    cbn [bind] in H; [|discriminate].
  assert (E2 := L2). apply WithStepsFacts.forLoop_extends in E2;
    [ | let Hb := fresh in
        intros ? ? ? Hb; WithStepsFacts.run Hb;
        first [apply WithStepsFacts.extends_fail | apply WithStepsFacts.extends_refl] ].
  assert (E3 := L3). apply WithStepsFacts.forEach_extends in E3;
    [ | intros ? ? ? ?; apply WithStepsFacts.validateCoordinateWithSteps_extends ].
  assert (E4 := WithStepsFacts.checkSelfIntersectionsWithSteps_extends _ _ _ _ _ L4).
  assert (E5 := WithStepsFacts.checkForSpikesWithSteps_extends _ _ _ _ _ L5).
  assert (E6 := WithStepsFacts.checkExcessiveStraightLinesWithSteps_extends _ _ _ _ H).
  assert (E36 : Trace.extends r2 r')
    by exact (WithStepsFacts.extends_trans _ _ _ E3
                (WithStepsFacts.extends_trans _ _ _ E4
                   (WithStepsFacts.extends_trans _ _ _ E5 E6))).
  split.
  - apply (WithStepsFacts.extends_errors r1);
      [exact (WithStepsFacts.extends_trans _ _ _ E2 E36)|].
    revert L1. match goal with
    | |- forLoop _ _ ?b _ = _ -> In ?m _ =>
        apply (forLoop_reports (fun q => In m (WithSteps.errors q)) b i); [ | | lia]
    end.
    + intros k q q' Hb Hq. WithStepsFacts.run Hb; [|exact Hq].
      cbn. apply in_or_app. left. exact Hq.
    + intros q q' Hb. rewrite D in Hb. cbn in Hb. inversion Hb.
      cbn. apply in_or_app. right. left. reflexivity.
  - apply (WithStepsFacts.extends_errors r2); [exact E36|].
    revert L2. match goal with
    | |- forLoop _ _ ?b _ = _ -> In ?m _ =>
        apply (forLoop_reports (fun q => In m (WithSteps.errors q)) b i); [ | | lia]
    end.
    + intros k q q' Hb Hq. WithStepsFacts.run Hb; [|exact Hq].
      cbn. apply in_or_app. left. exact Hq.
    + intros q q' Hb. rewrite D in Hb. cbn in Hb. inversion Hb.
      cbn. apply in_or_app. right. left. reflexivity.
Qed.

Lemma duplicate_reported_plain elems fi ri i r r' :
  4 <= List.length elems ->
  1 <= i < List.length elems ->
  Plain.pointsEqual false (nth i elems JUndefined) (nth (i - 1) elems JUndefined) = Ok true ->
  Plain.validateRing host (JArr elems) fi ri r = Ok r' ->
  In (Plain.featureLabel fi ++ ": Duplicate consecutive points at "
      ++ nat_toString (i - 1) ++ " and " ++ nat_toString i) (Plain.errors r')
  /\ In (Plain.featureLabel fi ++ ": Zero-length edge at points "
         ++ nat_toString (i - 1) ++ " and " ++ nat_toString i) (Plain.errors r').
Proof.
  intros L Hi D H. unfold Plain.validateRing in H.
  assert (B : (List.length elems <? 4)%nat = false) by (apply Nat.ltb_ge; exact L).
  rewrite B in H.
  destruct (Plain.pointsEqual _ _ _) as [closed|] eqn:C in H; cbn [bind] in H; [|discriminate].
  destruct (forLoop _ _ _ _) as [r1|] eqn:L1 in H; cbn [bind] in H; [|discriminate].
  destruct (forLoop _ _ _ _) as [r2|] eqn:L2 in H; cbn [bind] in H; [|discriminate].
  destruct (forEach _ _ _ _) as [r3|] eqn:L3 in H; cbn [bind] in H; [|discriminate].
  destruct (Plain.checkSelfIntersections _ _ _ _) as [r4|] eqn:L4 in H;
    cbn [bind] in H; [|discriminate].
  destruct (Plain.checkForSpikes _ _ _ _) as [r5|] eqn:L5 in H;
    cbn [bind] in H; [|discriminate].
  assert (E2 := L2). apply PlainFacts.forLoop_appends in E2;
    [ | let Hb := fresh in intros ? ? ? Hb; PlainFacts.run Hb; PlainFacts.chain ].
  assert (E3 := L3). apply PlainFacts.forEach_appends in E3;
    [ | intros ? ? ? ?; apply PlainFacts.validateCoordinate_appends ].
  assert (E4 := PlainFacts.checkSelfIntersections_appends _ _ _ _ _ L4).
  assert (E5 := PlainFacts.checkForSpikes_appends _ _ _ _ _ L5).
  assert (E6 := PlainFacts.checkExcessiveStraightLines_appends _ _ _ _ H).
  assert (E36 : PlainTrace.appends r2 r')
    by exact (PlainFacts.appends_trans _ _ _ E3
                (PlainFacts.appends_trans _ _ _ E4
                   (PlainFacts.appends_trans _ _ _ E5 E6))).
  split.
  - apply (PlainFacts.appends_errors r1);
      [exact (PlainFacts.appends_trans _ _ _ E2 E36)|].
    revert L1. match goal with
    | |- forLoop _ _ ?b _ = _ -> In ?m _ =>
        apply (forLoop_reports (fun q => In m (Plain.errors q)) b i); [ | | lia]
    end.
    + intros k q q' Hb Hq. PlainFacts.run Hb; [|exact Hq].
      cbn. apply in_or_app. left. exact Hq.
    + intros q q' Hb. rewrite D in Hb. cbn in Hb. inversion Hb.
      cbn. apply in_or_app. right. left. reflexivity.
  - apply (PlainFacts.appends_errors r2); [exact E36|].
    revert L2. match goal with
    | |- forLoop _ _ ?b _ = _ -> In ?m _ =>
        apply (forLoop_reports (fun q => In m (Plain.errors q)) b i); [ | | lia]
    end.
    + intros k q q' Hb Hq. PlainFacts.run Hb; [|exact Hq].
      cbn. apply in_or_app. left. exact Hq.
    + intros q q' Hb. rewrite D in Hb. cbn in Hb. inversion Hb.
      cbn. apply in_or_app. right. left. reflexivity.
Qed.
End Engine.
End RingFacts.

(** X5: in a ring of at least four positions, a position equal to the one
    before it is reported twice, whatever else the ring holds: once as
    duplicate consecutive points and once as a zero-length edge.  The
    diagnostics-capable engine compares after rounding, the plain engine
    exactly. *)
Theorem duplicates_reported_twice (host : Host) (elems : list JsVal) (fi ri i : nat) :
  4 <= List.length elems ->
  1 <= i < List.length elems ->
  (forall r r',
      WithSteps.pointsEqual (nth i elems JUndefined) (nth (i - 1) elems JUndefined) = Ok true ->
      WithSteps.validateRingWithSteps host (JArr elems) fi ri r = Ok r' ->
      In (WithSteps.featureLabel fi ++ ": Duplicate consecutive points at "
          ++ nat_toString (i - 1) ++ " and " ++ nat_toString i) (WithSteps.errors r')
      /\ In (WithSteps.featureLabel fi ++ ": Zero-length edge at points "
             ++ nat_toString (i - 1) ++ " and " ++ nat_toString i) (WithSteps.errors r'))
  /\ (forall r r',
         Plain.pointsEqual false (nth i elems JUndefined) (nth (i - 1) elems JUndefined)
         = Ok true ->
         Plain.validateRing host (JArr elems) fi ri r = Ok r' ->
         In (Plain.featureLabel fi ++ ": Duplicate consecutive points at "
             ++ nat_toString (i - 1) ++ " and " ++ nat_toString i) (Plain.errors r')
         /\ In (Plain.featureLabel fi ++ ": Zero-length edge at points "
                ++ nat_toString (i - 1) ++ " and " ++ nat_toString i) (Plain.errors r')).
Proof.
  intros L Hi. split; intros r r' D H.
  - exact (RingFacts.duplicate_reported_with_steps host elems fi ri i r r' L Hi D H).
  - exact (RingFacts.duplicate_reported_plain host elems fi ri i r r' L Hi D H).
Qed.

(** The square whose second corner is repeated. *)
Lemma duplicates_reported_twice_stutter :
  exists r',
    WithSteps.validateRingWithSteps sampleHost (JArr stutteringSquare) 0 0 WithSteps.emptyResult
    = Ok r'
    /\ In "Feature 0: Duplicate consecutive points at 1 and 2" (WithSteps.errors r')
    /\ In "Feature 0: Zero-length edge at points 1 and 2" (WithSteps.errors r').
Proof.
  destruct (WithSteps.validateRingWithSteps sampleHost (JArr stutteringSquare) 0 0
              WithSteps.emptyResult) as [r'|] eqn:H; [|vm_compute in H; discriminate H].
  exists r'. split; [reflexivity|].
  apply (proj1 (duplicates_reported_twice sampleHost stutteringSquare 0 0 2
                  ltac:(cbn; lia) ltac:(cbn; lia)) WithSteps.emptyResult r').
  - vm_compute. reflexivity.
  - exact H.
Defined.

(** ** Checks the two engines share *)
Module AgreementFacts.

Lemma sameReport_addStep r q rule p msg :
  sameReport r q -> sameReport (WithSteps.addStep r rule p msg) q.
Proof. intros H. exact H. Qed.

Lemma sameReport_addError r q msg :
  sameReport r q -> sameReport (WithSteps.addError r msg) (Plain.addError q msg).
Proof. intros [E V]. split; cbn; [rewrite E|]; reflexivity. Qed.

End AgreementFacts.

(** X6: started on results that hold the same errors and verdict, the spike
    check of the one engine and that of the other both raise or both
    return, and then again hold the same errors and verdict; so do the two
    self-intersection checks. *)
Theorem geometric_checks_agree (host : Host) (ring : list JsVal) (fi : nat)
  (r : WithSteps.ValidationResultWithSteps) (q : Plain.ValidationResult) :
  sameReport r q ->
  alike sameReport (WithSteps.checkForSpikesWithSteps host ring fi r)
                   (Plain.checkForSpikes host ring fi q)
  /\ alike sameReport (WithSteps.checkSelfIntersectionsWithSteps host ring fi r)
                      (Plain.checkSelfIntersections host ring fi q).
Proof.
  intros H. split.
  - unfold WithSteps.checkForSpikesWithSteps, Plain.checkForSpikes.
    assert (A : alike (fun s q' => sameReport (fst s) q')
                  (forLoop 1 (List.length ring - 1 - 1)
                     (fun i (state : WithSteps.ValidationResultWithSteps * bool) =>
                        let (results, found) := state in
                        angle <- calculateAngle host (nth (i - 1) ring JUndefined)
                                   (nth i ring JUndefined) (nth (i + 1) ring JUndefined) ;;
                        if PrimFloat.ltb angle 5 then
                          Ok (WithSteps.addError
                                (WithSteps.addStep results
                                   (WithSteps.featureLabel fi ++ " spike vertex") false
                                   (WithSteps.featureLabel fi ++ ": Spike vertex detected ("
                                    ++ Number_toFixed1 angle ++ degree_sign ++ ")"))
                                (WithSteps.featureLabel fi ++ ": Spike vertex detected ("
                                 ++ Number_toFixed1 angle ++ degree_sign ++ ")"), true)
                        else Ok (results, found))
                     (r, false))
                  (Plain.checkForSpikes host ring fi q)).
    { unfold Plain.checkForSpikes. apply WithStepsFacts.alike_forLoop; [|exact H].
      intros k [x fx] y Hxy. cbn [fst] in Hxy.
      destruct (calculateAngle host _ _ _) as [angle|]; cbn [bind alike]; [|exact I].
      destruct (PrimFloat.ltb angle 5); cbn [alike fst]; [|exact Hxy].
      apply AgreementFacts.sameReport_addError, AgreementFacts.sameReport_addStep. exact Hxy. }
    unfold Plain.checkForSpikes in A.
    destruct (forLoop _ _ _ (r, false)) as [[r1 found]|], (forLoop _ _ _ q) as [q1|];
      cbn [alike bind fst] in A |- *; try contradiction; [|exact I].
    destruct found; cbn [negb alike]; [exact A|].
    apply AgreementFacts.sameReport_addStep. exact A.
  - unfold WithSteps.checkSelfIntersectionsWithSteps, Plain.checkSelfIntersections.
    destruct (scanSelfIntersections host ring) as [[|]|]; cbn [bind alike]; [ | | exact I].
    + apply AgreementFacts.sameReport_addError, AgreementFacts.sameReport_addStep. exact H.
    + apply AgreementFacts.sameReport_addStep. exact H.
Qed.

(** The two checks on the bowtie, from empty results. *)
Lemma geometric_checks_agree_bowtie :
  alike sameReport
    (WithSteps.checkForSpikesWithSteps sampleHost bowtie 0 WithSteps.emptyResult)
    (Plain.checkForSpikes sampleHost bowtie 0 Plain.emptyResult)
  /\ alike sameReport
       (WithSteps.checkSelfIntersectionsWithSteps sampleHost bowtie 0 WithSteps.emptyResult)
       (Plain.checkSelfIntersections sampleHost bowtie 0 Plain.emptyResult).
Proof.
  apply (geometric_checks_agree sampleHost bowtie 0 WithSteps.emptyResult Plain.emptyResult).
  split; reflexivity.
Defined.

(** ** Positions that are not numbers *)
Module CoordinateFacts.

Lemma forEach_throws {A R : Type} (body : A -> nat -> R -> Exn R) (x : A) :
  (forall i r, body x i r = Throw) ->
  forall l from r, In x l -> forEach l from body r = Throw.
Proof.
  intros T. induction l as [|y l IH]; intros from r I; [contradiction|].
  cbn. destruct I as [->|I].
  - rewrite T. reflexivity.
  - destruct (body y from r); cbn; auto.
Qed.

Lemma validateCoordinate_null_longitude elems fi ri pi r :
  nth 0 elems JUndefined = JNull ->
  Plain.validateCoordinate (JArr elems) fi ri pi r
  = if (List.length elems <? 2)%nat || (3 <? List.length elems)%nat
    then Ok (Plain.addError r (Plain.pointLabel fi pi ++ ": Invalid coordinate format"))
    else Throw.
Proof.
  intros N. unfold Plain.validateCoordinate. rewrite N.
  destruct (_ || _); [reflexivity|]. cbn [ToString bind].
  match goal with
  | |- bind ?m _ = Throw => destruct m; reflexivity
  end.
Qed.

End CoordinateFacts.

(** X7: a ring of at least four entries one of which is a position of two
    or three entries with [null] for a longitude makes [validateRing] of
    the plain engine raise: its precision check calls [toString] on the
    [null].  The diagnostics-capable engine, which has no such check,
    reports the longitude as invalid. *)
Theorem null_longitude_throws (host : Host) (elems coord : list JsVal) :
  4 <= List.length elems ->
  In (JArr coord) elems ->
  2 <= List.length coord <= 3 ->
  nth 0 coord JUndefined = JNull ->
  (forall fi ri r, Plain.validateRing host (JArr elems) fi ri r = Throw)
  /\ (forall fi ri pi r r',
         WithSteps.validateCoordinateWithSteps (JArr coord) fi ri pi r = Ok r' ->
         WithSteps.isValid r' = false
         /\ In (WithSteps.pointLabel fi pi ++ ": Invalid longitude null")
               (WithSteps.errors r')).
Proof.
  intros L I C N.
  assert (F : (List.length coord <? 2)%nat || (3 <? List.length coord)%nat = false).
  { apply orb_false_iff. split; apply Nat.ltb_ge; lia. }
  split.
  - intros fi ri r. unfold Plain.validateRing.
    assert (B : (List.length elems <? 4)%nat = false) by (apply Nat.ltb_ge; exact L).
    rewrite B.
    destruct (Plain.pointsEqual _ _ _) as [closed|]; cbn [bind]; [|reflexivity].
    destruct (forLoop _ _ _ _) as [r1|]; cbn [bind]; [|reflexivity].
    destruct (forLoop _ _ _ _) as [r2|]; cbn [bind]; [|reflexivity].
    rewrite (CoordinateFacts.forEach_throws _ (JArr coord)); [reflexivity | | exact I].
    intros i q. rewrite (CoordinateFacts.validateCoordinate_null_longitude _ _ _ _ _ N), F.
    reflexivity.
  - intros fi ri pi r r'. unfold WithSteps.validateCoordinateWithSteps.
    rewrite F, N. cbn [ToString bind]. intros H.
    WithStepsFacts.run H; (split; [reflexivity|]);
      cbn [WithSteps.errors WithSteps.addError WithSteps.addStep];
      first [ apply in_or_app; right; left; reflexivity
            | apply in_or_app; left; apply in_or_app; right; left; reflexivity ].
Qed.

(** A square whose second position has no longitude. *)
Lemma null_longitude_throws_square :
  (forall fi ri r, Plain.validateRing sampleHost (JArr nullLongitudeSquare) fi ri r = Throw)
  /\ (forall fi ri pi r r',
         WithSteps.validateCoordinateWithSteps (JArr [JNull; JNum 1]) fi ri pi r = Ok r' ->
         WithSteps.isValid r' = false
         /\ In (WithSteps.pointLabel fi pi ++ ": Invalid longitude null")
               (WithSteps.errors r')).
Proof.
  apply (null_longitude_throws sampleHost nullLongitudeSquare [JNull; JNum 1]).
  - cbn. lia.
  - right. left. reflexivity.
  - cbn. lia.
  - reflexivity.
Defined.

(** ** Geometry types *)
Module GeometryFacts.

(** Every name in the list of geometry types is a non-empty string. *)
Lemma includes_validTypes type :
  includes WithSteps.validTypes type = true ->
  exists t, type = JStr t /\ ToBoolean type = true.
Proof.
  unfold includes, WithSteps.validTypes. intros H.
  destruct type as [| | | |t| |]; try discriminate H.
  exists t. split; [reflexivity|]. cbn [ToBoolean].
  destruct (String.eqb_spec t ""); [subst; discriminate H | reflexivity].
Qed.

Lemma StrictEquals_other type s :
  type <> JStr s -> StrictEquals false type (JStr s) = false.
Proof.
  intros N. destruct (StrictEquals false type (JStr s)) eqn:E; [|reflexivity].
  apply AcceptedFacts.StrictEquals_string in E. contradiction.
Qed.

End GeometryFacts.

(** X8: a geometry whose [type] is anything but the string "Polygon" is
    rejected by both engines with exactly one error, and nothing else of
    it is read: "Only Polygon geometries are supported" when the type is
    one of the seven GeoJSON geometry types, "Invalid geometry type"
    otherwise. *)
Theorem only_polygons_supported (host : Host) (geometry type : JsVal) (fi : nat) :
  Get geometry "type" = Ok type ->
  type <> JStr "Polygon" ->
  exists msg,
    msg = (if includes WithSteps.validTypes type
           then WithSteps.featureLabel fi ++ ": Only Polygon geometries are supported"
           else WithSteps.featureLabel fi ++ ": Invalid geometry type")
    /\ (forall q, Plain.validateGeometry host geometry fi q = Ok (Plain.addError q msg))
    /\ (forall r,
           exists r',
             WithSteps.validateGeometryWithSteps host geometry fi r = Ok r'
             /\ WithSteps.isValid r' = false
             /\ WithSteps.errors r' = (WithSteps.errors r ++ [msg])%list).
Proof.
  intros T N. eexists. split; [reflexivity|].
  unfold Plain.validateGeometry, WithSteps.validateGeometryWithSteps. rewrite T. cbn [bind].
  change Plain.validTypes with WithSteps.validTypes.
  rewrite (GeometryFacts.StrictEquals_other _ _ N).
  destruct (includes WithSteps.validTypes type) eqn:V.
  - destruct (GeometryFacts.includes_validTypes _ V) as (t & -> & B). rewrite B.
    cbn [negb orb ToString bind]. split; [reflexivity|].
    intros r. eexists. split; [reflexivity|]. split; reflexivity.
  - rewrite orb_true_r. split; [reflexivity|].
    intros r. eexists. split; [reflexivity|]. split; reflexivity.
Qed.

(** A Point geometry. *)
Lemma only_polygons_supported_point :
  exists msg,
    msg = "Feature 3: Only Polygon geometries are supported"
    /\ (forall q,
           Plain.validateGeometry sampleHost (JObj [("type", JStr "Point")]) 3 q
           = Ok (Plain.addError q msg))
    /\ (forall r,
           exists r',
             WithSteps.validateGeometryWithSteps sampleHost (JObj [("type", JStr "Point")]) 3 r
             = Ok r'
             /\ WithSteps.isValid r' = false
             /\ WithSteps.errors r' = (WithSteps.errors r ++ [msg])%list).
Proof.
  apply (only_polygons_supported sampleHost (JObj [("type", JStr "Point")]) (JStr "Point") 3).
  - reflexivity.
  - discriminate.
Defined.

(** X9: the identifier of a per-plot result is never falsy, and the farmer
    name is the empty string unless it is truthy: a feature whose
    properties hold a [plot_ID] is shown under that value when the value
    is truthy and under its positional label "Feature i" otherwise. *)
Theorem plot_labels (host : Host) (feature : JsVal) (index : nat)
  (p : WithSteps.PerPlotValidationResult) :
  WithSteps.validatePlot host feature index = Ok p ->
  ToBoolean (WithSteps.plotId p) = true
  /\ (ToBoolean (WithSteps.farmer p) = true \/ WithSteps.farmer p = JStr "")
  /\ (forall fields props plot_ID,
         feature = JObj fields ->
         lookup "properties" fields = Some (JObj props) ->
         lookup "plot_ID" props = Some plot_ID ->
         WithSteps.plotId p
         = if ToBoolean plot_ID then plot_ID else JStr (WithSteps.featureLabel index)).
Proof.
  unfold WithSteps.validatePlot. intros H.
  destruct (WithSteps.validateFeatureWithSteps host feature index WithSteps.emptyResult)
    as [d|]; cbn [bind] in H; [|discriminate].
  destruct (OptGet feature "properties") as [properties|] eqn:P; cbn [bind] in H; [|discriminate].
  destruct (OptGet properties "plot_ID") as [id|] eqn:I; cbn [bind] in H; [|discriminate].
  destruct (OptGet properties "farmer_name") as [name|] eqn:F; cbn [bind] in H; [|discriminate].
  inversion H; subst; clear H. cbn [WithSteps.plotId WithSteps.farmer]. split; [|split].
  - destruct (ToBoolean id) eqn:B; [exact B | reflexivity].
  - destruct (ToBoolean name) eqn:B; [left; exact B | right; reflexivity].
  - intros fields props plot_ID -> Hp Hi. cbn in P. rewrite Hp in P. inversion P; subst.
    cbn in I. rewrite Hi in I. inversion I; subst. reflexivity.
Qed.

(** A feature without names, at position 7. *)
Lemma plot_labels_unnamed :
  exists p,
    WithSteps.validatePlot sampleHost unnamedFeature 7 = Ok p
    /\ WithSteps.plotId p = JStr "Feature 7"
    /\ ToBoolean (WithSteps.plotId p) = true.
Proof.
  eexists. split; [vm_compute; reflexivity|]. split; [reflexivity|].
  apply (plot_labels sampleHost unnamedFeature 7). vm_compute. reflexivity.
Defined.

(** ** Every step names its feature *)
Module LabelFacts.
Import WithSteps Trace Labels WithStepsFacts.

Lemma prefix_app a b : String.prefix a (a ++ b) = true.
Proof.
  induction a as [|c a IH]; cbn; [destruct b; reflexivity|].
  destruct (ascii_dec c c); [exact IH | contradiction].
Qed.

Lemma append_assoc (a b c : string) : (a ++ b) ++ c = a ++ b ++ c.
Proof. induction a as [|x a IH]; cbn; [reflexivity | rewrite IH; reflexivity]. Qed.

Lemma labelled_feature index a b :
  labelled index {| rule := featureLabel index ++ a; passed := true;
                    message := featureLabel index ++ b |} = true.
Proof. unfold labelled. cbn [rule message]. rewrite !prefix_app. reflexivity. Qed.

Lemma grows_refl index r : grows index r r.
Proof.
  exists []. split; [|reflexivity].
  unfold extendsBy. cbn. rewrite !app_nil_r, andb_true_r. auto.
Qed.

Lemma grows_trans index r1 r2 r3 : grows index r1 r2 -> grows index r2 r3 -> grows index r1 r3.
Proof.
  intros [n1 ((S1 & E1 & V1) & F1)] [n2 ((S2 & E2 & V2) & F2)].
  exists (n1 ++ n2)%list. split.
  - unfold extendsBy.
    rewrite S2, S1, E2, E1, V2, V1, filter_app, map_app, forallb_app, !app_assoc, andb_assoc.
    auto.
  - rewrite forallb_app, F1, F2. reflexivity.
Qed.

Lemma grows_pass index r a b :
  grows index r (addStep r (featureLabel index ++ a) true (featureLabel index ++ b)).
Proof.
  exists [{| rule := featureLabel index ++ a; passed := true;
             message := featureLabel index ++ b |}].
  split.
  - unfold extendsBy. cbn. rewrite app_nil_r, andb_true_r. auto.
  - cbn [forallb]. rewrite labelled_feature. reflexivity.
Qed.

Lemma grows_fail index r a b :
  grows index r
    (addError (addStep r (featureLabel index ++ a) false (featureLabel index ++ b))
       (featureLabel index ++ b)).
Proof.
  exists [{| rule := featureLabel index ++ a; passed := false;
             message := featureLabel index ++ b |}].
  split.
  - unfold extendsBy. cbn. rewrite andb_false_r. auto.
  - cbn [forallb]. unfold labelled. cbn [rule message]. rewrite !prefix_app. reflexivity.
Qed.

Lemma grows_extends index r r' : grows index r r' -> extends r r'.
Proof. intros [new [E _]]. exists new. exact E. Qed.

Lemma grows_pass_point index pi r a b :
  grows index r (addStep r (pointLabel index pi ++ a) true (pointLabel index pi ++ b)).
Proof. unfold pointLabel. rewrite !append_assoc. apply grows_pass. Qed.

Lemma grows_fail_point index pi r a b :
  grows index r
    (addError (addStep r (pointLabel index pi ++ a) false (pointLabel index pi ++ b))
       (pointLabel index pi ++ b)).
Proof. unfold pointLabel. rewrite !append_assoc. apply grows_fail. Qed.

Lemma Ok_inj {A : Type} (a b : A) : Ok a = Ok b -> a = b.
Proof. intros H. injection H as E. exact E. Qed.

(** Case analysis along a run that returned, leaving the messages as they
    are written. *)
Ltac follow H :=
  repeat match type of H with
    | Ok _ = Ok _ => apply Ok_inj in H; subst
    | (_, _) = (_, _) => apply pair_equal_spec in H; destruct H; subst
    | Throw = Ok _ => discriminate H
    | context [bind ?m _] => destruct m eqn:?; cbn [bind] in H
    | context [if ?b then _ else _] => destruct b eqn:?
    | context [match ?x with _ => _ end] => destruct x eqn:?
    end.

Ltac follows := repeat match goal with H : _ = Ok _ |- _ => progress follow H end.

(** Follow a returned run step by step. *)
Ltac advance :=
  repeat match goal with
    | |- grows _ ?a ?a => apply grows_refl
    | H : grows ?i ?b ?c |- grows ?i ?a ?c => apply (grows_trans i a b c); [clear H | exact H]
    | |- grows ?i ?a (addStep ?b (pointLabel _ _ ++ _) true _) =>
        apply (grows_trans i a b); [| apply grows_pass_point]
    | |- grows ?i ?a (addStep ?b (featureLabel _ ++ _) true _) =>
        apply (grows_trans i a b); [| apply grows_pass]
    | |- grows ?i ?a (addError (addStep ?b (pointLabel _ _ ++ _) false _) _) =>
        apply (grows_trans i a b); [| apply grows_fail_point]
    | |- grows ?i ?a (addError (addStep ?b (featureLabel _ ++ _) false _) _) =>
        apply (grows_trans i a b); [| apply grows_fail]
    | |- grows _ ?a (if ?c then _ else _) => destruct c
    end.

Lemma forLoop_grows index
  (body : nat -> ValidationResultWithSteps -> Exn ValidationResultWithSteps) :
  (forall i r r', body i r = Ok r' -> grows index r r') ->
  forall count from r r', forLoop from count body r = Ok r' -> grows index r r'.
Proof.
  intros Hbody count from r r'.
  apply (forLoop_preserves (grows index)).
  - apply grows_refl.
  - apply grows_trans.
  - exact Hbody.
Qed.

Lemma forEach_grows {A : Type} index
  (body : A -> nat -> ValidationResultWithSteps -> Exn ValidationResultWithSteps) :
  (forall x i r r', body x i r = Ok r' -> grows index r r') ->
  forall l from r r', forEach l from body r = Ok r' -> grows index r r'.
Proof.
  intros Hbody. induction l as [|x l IH]; intros from r r' H; cbn in H.
  - inversion H. apply grows_refl.
  - destruct (body x from r) eqn:B; cbn in H; [|discriminate].
    eapply grows_trans; eauto.
Qed.

Section Engine.
Variable host : Host.

Lemma checkExcessiveStraightLinesWithSteps_grows ring fi r r' :
  checkExcessiveStraightLinesWithSteps ring fi r = Ok r' -> grows fi r r'.
Proof. unfold checkExcessiveStraightLinesWithSteps. intros H. follow H; advance. Qed.

Lemma checkSelfIntersectionsWithSteps_grows ring fi r r' :
  checkSelfIntersectionsWithSteps host ring fi r = Ok r' -> grows fi r r'.
Proof. unfold checkSelfIntersectionsWithSteps. intros H. follow H; advance. Qed.

Lemma checkForSpikesWithSteps_grows ring fi r r' :
  checkForSpikesWithSteps host ring fi r = Ok r' -> grows fi r r'.
Proof.
  unfold checkForSpikesWithSteps. intros H.
  destruct (forLoop _ _ _ _) as [[r1 found]|] eqn:L; cbn [bind] in H; [|discriminate].
  apply (forLoop_preserves (fun s s' => grows fi (fst s) (fst s'))) in L;
    [ | intros; apply grows_refl | intros ? ? ?; apply grows_trans
      | intros i [x fx] [y fy] Hb; follow Hb; cbn [fst]; advance ].
  cbn in L. follow H; advance.
Qed.

Lemma validateCoordinateWithSteps_grows coord fi ri pi r r' :
  validateCoordinateWithSteps coord fi ri pi r = Ok r' -> grows fi r r'.
Proof.
  unfold validateCoordinateWithSteps. intros H. follows; advance.
Qed.

Lemma validateRingWithSteps_grows ring fi ri r r' :
  validateRingWithSteps host ring fi ri r = Ok r' -> grows fi r r'.
Proof.
  unfold validateRingWithSteps. intros H. follow H; try solve [advance].
  all: repeat match goal with
         | L : forLoop _ _ _ _ = Ok _ |- _ =>
             apply forLoop_grows with (index := fi) in L;
             [ | let Hb := fresh in intros ? ? ? Hb; follow Hb; solve [advance] ]
         | L : forEach _ _ _ _ = Ok _ |- _ =>
             apply forEach_grows with (index := fi) in L;
             [ | intros ? ? ? ?; apply validateCoordinateWithSteps_grows ]
         | L : checkSelfIntersectionsWithSteps _ _ _ _ = Ok _ |- _ =>
             apply checkSelfIntersectionsWithSteps_grows in L
         | L : checkForSpikesWithSteps _ _ _ _ = Ok _ |- _ =>
             apply checkForSpikesWithSteps_grows in L
         | L : checkExcessiveStraightLinesWithSteps _ _ _ = Ok _ |- _ =>
             apply checkExcessiveStraightLinesWithSteps_grows in L
         end.
  all: advance.
Qed.

Lemma validatePolygonCoordinatesWithSteps_grows coordinates fi r r' :
  validatePolygonCoordinatesWithSteps host coordinates fi r = Ok r' -> grows fi r r'.
Proof.
  unfold validatePolygonCoordinatesWithSteps. intros H. follow H; try solve [advance].
  apply validateRingWithSteps_grows in H. advance.
Qed.

Lemma validateGeometryWithSteps_grows geometry fi r r' :
  validateGeometryWithSteps host geometry fi r = Ok r' -> grows fi r r'.
Proof.
  unfold validateGeometryWithSteps. intros H. follow H; try solve [advance].
  apply validatePolygonCoordinatesWithSteps_grows in H. advance.
Qed.

Lemma validateFeatureWithSteps_grows feature index r r' :
  validateFeatureWithSteps host feature index r = Ok r' -> grows index r r'.
Proof.
  unfold validateFeatureWithSteps. intros H. follow H; try solve [advance].
  all: repeat match goal with
         | L : forEach _ _ _ _ = Ok _ |- _ =>
             apply forEach_grows with (index := index) in L;
             [ | let Hb := fresh in intros ? ? ? ? Hb; follow Hb; solve [advance] ]
         | L : validateGeometryWithSteps _ _ _ _ = Ok _ |- _ =>
             apply validateGeometryWithSteps_grows in L
         end.
  all: follows; advance.
Qed.

End Engine.
End LabelFacts.

(** X4: every step [validateFeatureWithSteps] records for the feature at
    position [index] has a rule name and a message that start with
    "Feature index", and so does every error it appends. *)
Theorem messages_name_their_feature (host : Host) (feature : JsVal) (index : nat)
  (r r' : WithSteps.ValidationResultWithSteps) :
  WithSteps.validateFeatureWithSteps host feature index r = Ok r' ->
  exists new,
    Trace.extendsBy new r r'
    /\ forallb (Labels.labelled index) new = true
    /\ (forall e, In e (map WithSteps.message (filter Trace.failing new)) ->
                  String.prefix (WithSteps.featureLabel index) e = true).
Proof.
  intros H. destruct (LabelFacts.validateFeatureWithSteps_grows host _ _ _ _ H) as (new & E & L).
  exists new. split; [exact E|]. split; [exact L|].
  intros e I. apply in_map_iff in I. destruct I as (s & <- & I).
  apply filter_In in I. destruct I as [I _].
  rewrite forallb_forall in L. specialize (L s I).
  unfold Labels.labelled in L. apply andb_true_iff in L. exact (proj2 L).
Qed.

(** A feature without names, at position 4. *)
Lemma messages_name_their_feature_unnamed :
  exists r' new,
    WithSteps.validateFeatureWithSteps sampleHost unnamedFeature 4 WithSteps.emptyResult
    = Ok r'
    /\ Trace.extendsBy new WithSteps.emptyResult r'
    /\ forallb (Labels.labelled 4) new = true.
Proof.
  destruct (WithSteps.validateFeatureWithSteps sampleHost unnamedFeature 4
              WithSteps.emptyResult) as [r'|] eqn:H; [|vm_compute in H; discriminate H].
  destruct (messages_name_their_feature sampleHost unnamedFeature 4 WithSteps.emptyResult r' H)
    as (new & E & L & _).
  exists r', new. split; [reflexivity|]. split; [exact E | exact L].
Defined.

(** X13: when [segmentsIntersect] returns on every pair it is asked about,
    the self-intersection scan returns, and it reports an intersection
    exactly when segments [i] and [j] intersect for some [i] and [j] that
    are at least two apart, with the pair of the first and the last
    segment left out. *)
Theorem self_intersection_scan (host : Host) (ring : list JsVal) :
  (forall ij, In ij (examinedPairs (List.length ring)) ->
              exists b, intersectAt host ring ij = Ok b) ->
  exists found,
    scanSelfIntersections host ring = Ok found
    /\ (found = true <->
        exists i j,
          i + 2 <= j /\ j + 1 < List.length ring /\ ~ (i = 0 /\ j = List.length ring - 2)
          /\ segmentsIntersect host (nth i ring JUndefined) (nth (i + 1) ring JUndefined)
               (nth j ring JUndefined) (nth (j + 1) ring JUndefined) = Ok true).
Proof.
  intros A. eexists. split; [apply ScanFacts.scan_spec; exact A|].
  rewrite existsb_exists. split.
  - intros ([i j] & I & H). exists i, j.
    apply ScanFacts.in_examinedPairs in I. destruct I as (I1 & I2 & I3).
    repeat split; try assumption.
    unfold hit, intersectAt in H. cbn [fst snd] in H.
    destruct (segmentsIntersect host _ _ _ _) as [[|]|]; (reflexivity || discriminate H).
  - intros (i & j & I1 & I2 & I3 & H). exists (i, j). split.
    + apply ScanFacts.in_examinedPairs. auto.
    + unfold hit, intersectAt. cbn [fst snd]. rewrite H. reflexivity.
Qed.

(** The scan of the bowtie. *)
Lemma self_intersection_scan_bowtie :
  exists found,
    scanSelfIntersections sampleHost bowtie = Ok found
    /\ (found = true <->
        exists i j,
          i + 2 <= j /\ j + 1 < List.length bowtie /\ ~ (i = 0 /\ j = List.length bowtie - 2)
          /\ segmentsIntersect sampleHost (nth i bowtie JUndefined)
               (nth (i + 1) bowtie JUndefined) (nth j bowtie JUndefined)
               (nth (j + 1) bowtie JUndefined) = Ok true).
Proof.
  apply (self_intersection_scan sampleHost bowtie).
  intros ij I. vm_compute in I.
  repeat (destruct I as [<-|I]; [eexists; vm_compute; reflexivity|]). contradiction.
Defined.

(** X14: in the diagnostics-capable engine a ring that passes the closure
    check passes the straight-lines heuristic: whatever the other checks
    find, the last step recorded for the ring is a passing
    "straight lines" step. *)
Theorem closed_ring_passes_straight_lines (host : Host) (elems : list JsVal) (fi ri : nat)
  (r r' : WithSteps.ValidationResultWithSteps) :
  4 <= List.length elems ->
  WithSteps.pointsEqual (nth 0 elems JUndefined) (nth (List.length elems - 1) elems JUndefined)
  = Ok true ->
  WithSteps.validateRingWithSteps host (JArr elems) fi ri r = Ok r' ->
  exists before msg,
    r' = WithSteps.addStep before (WithSteps.featureLabel fi ++ " straight lines") true msg.
Proof.
  intros L C H. unfold WithSteps.validateRingWithSteps in H.
  assert (B : (List.length elems <? 4)%nat = false) by (apply Nat.ltb_ge; exact L).
  rewrite B, C in H. cbn [bind] in H.
  destruct (forLoop _ _ _ _) as [r1|] in H; cbn [bind] in H; [|discriminate].
  destruct (forLoop _ _ _ _) as [r2|] in H; cbn [bind] in H; [|discriminate].
  destruct (forEach _ _ _ _) as [r3|] in H; cbn [bind] in H; [|discriminate].
  destruct (WithSteps.checkSelfIntersectionsWithSteps _ _ _ _) as [r4|] in H;
    cbn [bind] in H; [|discriminate].
  destruct (WithSteps.checkForSpikesWithSteps _ _ _ _) as [r5|] in H;
    cbn [bind] in H; [|discriminate].
  destruct (AcceptedFacts.checkExcessiveStraightLinesWithSteps_closed elems fi r5 L C)
    as [msg E].
  rewrite E in H. exists r5, msg. congruence.
Qed.

(** The closed triangle. *)
Lemma closed_ring_passes_straight_lines_triangle :
  exists r',
    WithSteps.validateRingWithSteps sampleHost (JArr closedTriangle) 0 0 WithSteps.emptyResult
    = Ok r'
    /\ exists before msg,
         r' = WithSteps.addStep before "Feature 0 straight lines" true msg.
Proof.
  destruct (WithSteps.validateRingWithSteps sampleHost (JArr closedTriangle) 0 0
              WithSteps.emptyResult) as [r'|] eqn:H; [|vm_compute in H; discriminate H].
  exists r'. split; [reflexivity|].
  apply (closed_ring_passes_straight_lines sampleHost closedTriangle 0 0
           WithSteps.emptyResult r').
  - cbn. lia.
  - vm_compute. reflexivity.
  - exact H.
Defined.

(** An array in the place of the root. *)
Lemma malformed_root_is_reported_array :
  (exists r,
      WithSteps.validateGeoJSONWithSteps sampleHost (JArr [polygonFeature unitSquare]) = Ok r
      /\ WithSteps.isValid r = false
      /\ List.length (WithSteps.errors r) = 1)
  /\ (exists r,
         Plain.validateGeoJSON sampleHost (JArr [polygonFeature unitSquare]) = Ok r
         /\ Plain.isValid r = false
         /\ List.length (Plain.errors r) = 1).
Proof.
  apply (malformed_root_is_reported sampleHost (JArr [polygonFeature unitSquare])).
  reflexivity.
Defined.

(** A ring of three positions. *)
Lemma short_ring_rejected_three :
  (forall r,
      exists r',
        WithSteps.validateRingWithSteps sampleHost
          (JArr [position 0 0; position 0 1; position 0 0]) 0 0 r = Ok r'
        /\ WithSteps.isValid r' = false
        /\ (forall s, In s (WithSteps.steps r') ->
                      In s (WithSteps.steps r)
                      \/ (WithSteps.rule s <> WithSteps.featureLabel 0 ++ " self-intersection"
                          /\ WithSteps.rule s <> WithSteps.featureLabel 0 ++ " spike vertex"))
        /\ WithSteps.errors r'
           = (WithSteps.errors r
              ++ [(WithSteps.featureLabel 0 ++ ": Ring must have at least 4 points")%string])%list)
  /\ (forall r r',
         Plain.validateRing sampleHost (JArr [position 0 0; position 0 1; position 0 0]) 0 0 r
         = Ok r' ->
         Plain.isValid r' = false
         /\ (forall e, In e (Plain.errors r') ->
                       In e (Plain.errors r)
                       \/ e = Plain.featureLabel 0
                              ++ ": Ring must be closed (first/last points identical)"
                       \/ e = Plain.featureLabel 0 ++ ": Ring must have at least 4 points")).
Proof.
  apply (short_ring_rejected sampleHost [position 0 0; position 0 1; position 0 0] 0 0).
  cbn. lia.
Defined.

(** The precision check at 0.1234567. *)
Lemma precision_check_positional_sample :
  Plain.hasExcessivePrecision (JNum 0.1234567) = Ok (6 <? fractionalDigits 0.1234567)%nat.
Proof.
  eapply (PrecisionFacts.precision_check_positional 0.1234567).
  - vm_compute. reflexivity.
  - vm_compute. reflexivity.
  - lia.
Defined.

(** ** What a valid verdict of the plain engine means *)
Module PlainAcceptedFacts.
Import Plain PlainTrace PlainFacts PlainAccepted.

Lemma appends_valid r r' : appends r r' -> isValid r' = true -> isValid r = true.
Proof.
  intros (new & _ & V) H. rewrite V in H. apply andb_true_iff in H. exact (proj1 H).
Qed.

Section Engine.
Variable host : Host.

Lemma validateCoordinate_sound coord fi ri pi r r' :
  validateCoordinate coord fi ri pi r = Ok r' ->
  isValid r' = true -> isValid r = true /\ precisePosition coord.
Proof.
  unfold validateCoordinate. intros H V. runs; cbn in V; try discriminate V.
  all: try match goal with E : ToString (JNum _) = Throw |- _ => discriminate E end.
  all: repeat match goal with
         | E : _ || _ = false |- _ => apply orb_false_iff in E; destruct E
         end.
  all: repeat match goal with E : (_ <? _)%nat = false |- _ => apply Nat.ltb_ge in E end.
  all: split; [exact V|].
  all: split;
    [ eexists; split; [reflexivity|]; split; [lia|];
      split; eexists; (split; [eassumption|]); auto
    | eexists; split; [reflexivity|];
      repeat match goal with E : nth _ _ _ = _ |- _ => rewrite E; clear E end; auto ].
Qed.

Lemma validateCoordinate_complete coord fi ri pi r :
  precisePosition coord -> validateCoordinate coord fi ri pi r = Ok r.
Proof.
  intros [(elems & -> & L & (x & X & X1 & X2) & (y & Y & Y1 & Y2)) (elems' & E & P1 & P2)].
  inversion E; subst elems'; clear E.
  unfold validateCoordinate.
  assert (B : (List.length elems <? 2)%nat || (3 <? List.length elems)%nat = false).
  { apply orb_false_iff. split; apply Nat.ltb_ge; lia. }
  rewrite B, P1, P2, X, Y, X1, X2. cbn [bind orb]. rewrite Y1, Y2. reflexivity.
Qed.

Lemma checkForSpikes_sound ring fi r r' :
  checkForSpikes host ring fi r = Ok r' ->
  isValid r' = true ->
  isValid r = true
  /\ (forall i, 1 <= i < List.length ring - 1 ->
                exists angle,
                  calculateAngle host (nth (i - 1) ring JUndefined) (nth i ring JUndefined)
                    (nth (i + 1) ring JUndefined) = Ok angle
                  /\ PrimFloat.ltb angle 5 = false).
Proof.
  unfold checkForSpikes. intros H V.
  apply (AcceptedFacts.forLoop_sound isValid
           (fun i => exists angle,
                       calculateAngle host (nth (i - 1) ring JUndefined) (nth i ring JUndefined)
                         (nth (i + 1) ring JUndefined) = Ok angle
                       /\ PrimFloat.ltb angle 5 = false)) in H; [ | | exact V].
  - destruct H as [V0 Q]. split; [exact V0|]. intros i Hi. apply Q. lia.
  - intros i q q' Hb Vq. run Hb; cbn in Vq; try discriminate Vq. split; [exact Vq | eauto].
Qed.

Lemma checkSelfIntersections_sound ring fi r r' :
  checkSelfIntersections host ring fi r = Ok r' ->
  isValid r' = true ->
  isValid r = true /\ scanSelfIntersections host ring = Ok false.
Proof.
  unfold checkSelfIntersections. intros H V.
  run H; cbn in V; try discriminate V. auto.
Qed.

Lemma validateRing_sound ring fi ri r r' :
  validateRing host ring fi ri r = Ok r' ->
  isValid r' = true ->
  isValid r = true /\ exists elems, ring = JArr elems /\ goodRing host elems.
Proof.
  unfold validateRing. intros H V.
  destruct ring as [| | | | |elems|].
  1-5, 7: exfalso;
    repeat match type of H with
      | bind ?m _ = _ => destruct m; cbn [bind] in H; [|discriminate H]
      end;
    destruct (PrimFloat.ltb _ 4); [inversion H; subst; discriminate V | discriminate H].
  destruct (Plain.pointsEqual _ _ _) as [closed|] eqn:C; cbn [bind] in H; [|discriminate].
  destruct (List.length elems <? 4)%nat eqn:B; [inversion H; subst; discriminate V|].
  apply Nat.ltb_ge in B.
  destruct (forLoop _ _ _ _) as [r1|] eqn:L1 in H; cbn [bind] in H; [|discriminate].
  destruct (forLoop _ _ _ _) as [r2|] eqn:L2 in H; cbn [bind] in H; [|discriminate].
  destruct (forEach _ _ _ _) as [r3|] eqn:L3 in H; cbn [bind] in H; [|discriminate].
  destruct (checkSelfIntersections _ _ _ _) as [r4|] eqn:L4 in H;
    cbn [bind] in H; [|discriminate].
  destruct (checkForSpikes _ _ _ _) as [r5|] eqn:L5 in H;
    cbn [bind] in H; [|discriminate].
  unfold checkExcessiveStraightLines in H.
  destruct (List.length elems <=? 4)%nat eqn:B4; [inversion H; subst; discriminate V|].
  apply Nat.leb_gt in B4. inversion H; subst r5; clear H.
  destruct (checkForSpikes_sound _ _ _ _ L5 V) as [V4 Angles].
  destruct (checkSelfIntersections_sound _ _ _ _ L4 V4) as [V3 Scan].
  destruct (AcceptedFacts.forEach_sound isValid precisePosition _
              (fun x i q q' => validateCoordinate_sound x fi ri i q q')
              _ _ _ _ L3 V3) as [V2 Positions].
  assert (Dup : forall i q q',
             (dup <- pointsEqual false (nth i elems JUndefined) (nth (i - 1) elems JUndefined) ;;
              if dup then
                Ok (addError q
                      (featureLabel fi ++ ": Zero-length edge at points "
                       ++ nat_toString (i - 1) ++ " and " ++ nat_toString i))
              else Ok q) = Ok q' ->
             isValid q' = true ->
             isValid q = true
             /\ pointsEqual false (nth i elems JUndefined) (nth (i - 1) elems JUndefined)
                = Ok false).
  { intros i q q' Hb Vq. run Hb; cbn in Vq; try discriminate Vq. auto. }
  destruct (AcceptedFacts.forLoop_sound isValid _ _ Dup _ _ _ _ L2 V2) as [V1 Distinct].
  apply forLoop_appends in L1; [ | let Hb := fresh in intros ? ? ? Hb; run Hb; chain ].
  apply (appends_valid _ _ L1) in V1.
  assert (N1 : (List.length elems =? 1)%nat = false) by (apply Nat.eqb_neq; lia).
  rewrite N1 in C.
  destruct closed; cbn in V1; [|discriminate V1].
  split; [exact V1|]. exists elems. split; [reflexivity|].
  repeat split; auto.
  intros i Hi. apply Distinct. lia.
Qed.

Lemma validateRing_complete elems fi ri r :
  goodRing host elems -> validateRing host (JArr elems) fi ri r = Ok r.
Proof.
  intros (L & C & D & P & S & A). unfold validateRing.
  assert (N1 : (List.length elems =? 1)%nat = false) by (apply Nat.eqb_neq; lia).
  assert (B : (List.length elems <? 4)%nat = false) by (apply Nat.ltb_ge; lia).
  rewrite N1, C, B. cbn [bind negb].
  rewrite WithStepsFacts.forLoop_fixed by (intros i Hi; rewrite D by lia; reflexivity).
  cbn [bind].
  rewrite WithStepsFacts.forLoop_fixed by (intros i Hi; rewrite D by lia; reflexivity).
  cbn [bind].
  assert (F : forall l from,
             Forall precisePosition l ->
             forEach l from
               (fun coord pointIndex results =>
                  validateCoordinate coord fi ri pointIndex results) r = Ok r).
  { induction l as [|x l IH]; intros from Hl; [reflexivity|].
    inversion Hl; subst. cbn [forEach].
    rewrite validateCoordinate_complete by assumption. cbn [bind]. auto. }
  rewrite F by exact P. cbn [bind].
  unfold checkSelfIntersections. rewrite S. cbn [bind].
  rewrite (checkForSpikes_none host elems fi r A). cbn [bind].
  unfold checkExcessiveStraightLines.
  assert (B4 : (List.length elems <=? 4)%nat = false) by (apply Nat.leb_gt; lia).
  rewrite B4. reflexivity.
Qed.

Lemma validatePolygonCoordinates_sound coordinates fi r r' :
  validatePolygonCoordinates host coordinates fi r = Ok r' ->
  isValid r' = true ->
  isValid r = true /\ exists ring, coordinates = [JArr ring] /\ goodRing host ring.
Proof.
  unfold validatePolygonCoordinates. intros H V.
  destruct coordinates as [|first [|second rest]]; cbn in H;
    try (inversion H; subst; discriminate V).
  destruct (validateRing_sound _ _ _ _ _ H V) as (V0 & elems & -> & G).
  split; [exact V0 | eauto].
Qed.

Lemma validateGeometry_sound geometry fi r r' :
  validateGeometry host geometry fi r = Ok r' ->
  isValid r' = true ->
  isValid r = true
  /\ exists fields ring,
       geometry = JObj fields
       /\ lookup "type" fields = Some (JStr "Polygon")
       /\ lookup "coordinates" fields = Some (JArr [JArr ring])
       /\ goodRing host ring.
Proof.
  unfold validateGeometry. intros H V.
  destruct (Get geometry "type") as [type|] eqn:T; cbn [bind] in H; [|discriminate].
  destruct (_ || _); [inversion H; subst; discriminate V|].
  destruct (StrictEquals false type (JStr "Polygon")) eqn:E; cbn [negb] in H;
    [|inversion H; subst; discriminate V].
  apply AcceptedFacts.StrictEquals_string in E. subst type.
  apply AcceptedFacts.Get_string in T. destruct T as (fields & -> & T).
  cbn [Get bind] in H.
  destruct (lookup "coordinates" fields) as [[| | | | |coordinates|]|] eqn:C;
    try (inversion H; subst; discriminate V).
  destruct (validatePolygonCoordinates_sound _ _ _ _ H V) as (V0 & ring & -> & G).
  split; [exact V0|]. exists fields, ring. auto.
Qed.

Lemma validateGeometry_complete fields ring fi r :
  lookup "type" fields = Some (JStr "Polygon") ->
  lookup "coordinates" fields = Some (JArr [JArr ring]) ->
  goodRing host ring ->
  validateGeometry host (JObj fields) fi r = Ok r.
Proof.
  intros T C G. unfold validateGeometry. cbn [Get bind]. rewrite T, C.
  change (negb (ToBoolean (JStr "Polygon")) || negb (includes validTypes (JStr "Polygon")))
    with false.
  change (negb (StrictEquals false (JStr "Polygon") (JStr "Polygon"))) with false.
  cbn [bind]. unfold validatePolygonCoordinates.
  cbn [List.length Nat.ltb Nat.leb Nat.eqb nth].
  apply validateRing_complete. exact G.
Qed.

Lemma requiredProps_present properties fi r r' :
  forEach requiredProps 0
    (fun prop (_ : nat) results =>
       missing <-
         (if negb (ToBoolean properties) then Ok true
          else has <- HasProperty prop properties ;; Ok (negb has)) ;;
       if missing then
         Ok (addError results
               (featureLabel fi ++ ": Missing required property '" ++ prop ++ "'"))
       else Ok results)
    r = Ok r' ->
  isValid r' = true ->
  isValid r = true
  /\ exists fields,
       properties = JObj fields
       /\ hasKey "plot_ID" fields = true /\ hasKey "farmer_name" fields = true.
Proof.
  intros H V.
  apply (AcceptedFacts.forEach_sound isValid
           (fun prop => HasProperty prop properties = Ok true)) in H; [ | | exact V].
  - destruct H as [V0 Q]. split; [exact V0|].
    inversion Q as [|? ? Q1 Q']; subst. inversion Q' as [|? ? Q2 ?]; subst.
    destruct properties; try discriminate Q1.
    cbn in Q1, Q2. exists fields. split; [reflexivity|]. split; congruence.
  - intros prop i q q' Hb Vq. run Hb; cbn in Vq; try discriminate Vq.
    match goal with E : _ = Ok false |- _ => rename E into M end.
    destruct (negb (ToBoolean properties)); [discriminate M|].
    destruct (HasProperty prop properties) as [[|]|]; cbn in M; try discriminate M.
    split; [exact Vq | reflexivity].
Qed.

Lemma validateFeature_sound feature index r r' :
  validateFeature host feature index r = Ok r' ->
  isValid r' = true ->
  isValid r = true /\ goodFeature host feature.
Proof.
  unfold validateFeature. intros H V.
  destruct (Get feature "type") as [type|] eqn:T; cbn [bind] in H; [|discriminate].
  destruct (StrictEquals false type (JStr "Feature")) eqn:E; cbn [negb] in H;
    [|inversion H; subst; discriminate V].
  apply AcceptedFacts.StrictEquals_string in E. subst type.
  apply AcceptedFacts.Get_string in T. destruct T as (fields & -> & T).
  cbn [HasProperty Get bind] in H.
  destruct (_ || _) eqn:O; [inversion H; subst; discriminate V|].
  destruct (forEach _ _ _ _) as [r1|] eqn:L1 in H; cbn [bind] in H; [|discriminate].
  destruct (HasProperty "area" _) as [hasArea|] eqn:A in H; cbn [bind] in H; [|discriminate].
  match type of H with
  | bind ?m _ = _ => destruct m as [r2|] eqn:L2; cbn [bind] in H; [|discriminate]
  end.
  unfold hasKey in O.
  destruct (lookup "properties" fields) as [properties|] eqn:P; [|discriminate O].
  assert (V2 : isValid r2 = true
               /\ exists geometry,
                    lookup "geometry" fields = Some geometry /\ goodGeometry host geometry).
  { destruct (lookup "geometry" fields) as [geometry|] eqn:G;
      [|inversion H; subst; discriminate V].
    destruct (negb (ToBoolean geometry) && negb (StrictEquals false geometry JNull));
      [inversion H; subst; discriminate V|].
    destruct (StrictEquals false geometry JNull) eqn:N.
    - apply AcceptedFacts.StrictEquals_null in N. inversion H; subst.
      split; [exact V | exists JNull; split; [reflexivity | left; reflexivity]].
    - destruct (validateGeometry_sound _ _ _ _ H V) as (V2 & gf & ring & Hg).
      split; [exact V2 | exists geometry; split; [reflexivity | right; eauto]]. }
  destruct V2 as (V2 & geometry & G & Geometry).
  assert (V1 : isValid r1 = true).
  { destruct hasArea; [|inversion L2; subst; exact V2].
    destruct (Get properties "area") as [area|]; cbn [bind] in L2; [|discriminate].
    destruct (negb (typeof area =? "number")); inversion L2; subst;
      [discriminate V2 | exact V2]. }
  destruct (requiredProps_present _ _ _ _ L1 V1) as (V0 & pf & -> & K1 & K2).
  split; [exact V0|].
  exists fields, (JObj pf), geometry. repeat split; auto.
  exists pf. repeat split; auto.
  intros area Ha. cbn in A, L2. unfold hasKey in A. rewrite Ha in A, L2.
  inversion A; subst. cbn [bind] in L2.
  destruct area; cbn in L2; inversion L2; subst; try discriminate V2. eauto.
Qed.

Lemma validateFeature_complete feature index r :
  goodFeature host feature -> validateFeature host feature index r = Ok r.
Proof.
  intros (fields & properties & geometry & -> & T & P & (pf & -> & K1 & K2 & A) & G & Geo).
  unfold validateFeature, requiredProps.
  assert (HP : hasKey "properties" fields = true) by (unfold hasKey; rewrite P; reflexivity).
  cbn [Get HasProperty bind forEach]. rewrite T, P, G, HP.
  cbn [HasProperty bind]. rewrite K1, K2.
  change (negb (StrictEquals false (JStr "Feature") (JStr "Feature"))) with false.
  change (typeof (JObj pf) =? "object") with true.
  cbn [negb orb andb StrictEquals ToBoolean bind].
  match goal with
  | |- bind ?m ?k = Ok r => assert (M : m = Ok r)
  end.
  { unfold hasKey. cbn [Get]. destruct (lookup "area" pf) as [area|] eqn:Ha.
    - destruct (A area eq_refl) as [x ->]. cbn [bind].
      change (negb (typeof (JNum x) =? "number")) with false. reflexivity.
    - reflexivity. }
  rewrite M. cbn [bind].
  destruct Geo as [-> | (gf & ring & -> & GT & GC & GR)];
    cbn [StrictEquals ToBoolean negb andb].
  - reflexivity.
  - apply (validateGeometry_complete gf ring); assumption.
Qed.

(** A root that is not a collection with at least one feature is
    reported as invalid. *)
Lemma validateGeoJSON_root geojson :
  hasFeatures geojson = false ->
  exists r, validateGeoJSON host geojson = Ok r /\ isValid r = false.
Proof.
  unfold hasFeatures, collectionFeatures, validateGeoJSON.
  destruct geojson as [| |[]|x|str|elems|fields]; intros H.
  1-4, 7: eexists; (split; reflexivity).
  1-2: unfold typeof;
       change ("number" =? "object") with false; change ("string" =? "object") with false;
       cbn [negb]; rewrite orb_true_r; eexists; (split; reflexivity).
  unfold typeof, ToBoolean. change ("object" =? "object") with true.
  cbn [negb orb Get bind].
  destruct (lookup "type" fields) as [[| | | |type| |]|];
    try (eexists; (split; reflexivity)).
  cbn [StrictEquals].
  destruct (type =? "FeatureCollection"); cbn [negb];
    [| eexists; (split; reflexivity) ].
  destruct (lookup "features" fields) as [[| | | | |[|f fs]|]|];
    try discriminate H; eexists; (split; reflexivity).
Qed.

(** On a collection with features, [validateGeoJSON] is the loop over the
    features. *)
Lemma validateGeoJSON_features geojson features :
  collectionFeatures geojson = Some features ->
  features <> [] ->
  validateGeoJSON host geojson
  = forEach features 0
      (fun feature index results => validateFeature host feature index results)
      emptyResult.
Proof.
  unfold collectionFeatures, validateGeoJSON.
  destruct geojson as [| |[]|x|str|elems|fields]; try discriminate.
  destruct (lookup "type" fields) as [[| | | |type| |]|] eqn:T; try discriminate.
  destruct (lookup "features" fields) as [[| | | | |fs|]|] eqn:F; try discriminate.
  destruct (type =? "FeatureCollection") eqn:E; [|discriminate].
  intros H N. inversion H; subst; clear H.
  unfold typeof, ToBoolean. change ("object" =? "object") with true.
  cbn [negb orb Get bind]. rewrite T, F. cbn [StrictEquals]. rewrite E. cbn [negb].
  destruct features as [|f fs]; [contradiction|]. reflexivity.
Qed.

End Engine.
End PlainAcceptedFacts.

(** X15: the plain [validateGeoJSON] returns a valid result exactly on the
    collections of at least one feature in which every feature is an
    object of type "Feature" whose properties are an object with the keys
    [plot_ID] and [farmer_name] (and a numeric [area], if any) and whose
    geometry is [null] or a Polygon of one ring: five or more positions of
    two or three entries, longitude and latitude numbers in range and
    written with at most six decimals, the last position identical to the
    first and no other neighbours identical, no examined pair of segments
    intersecting and no angle below five degrees. *)
Theorem plain_accepted_documents (host : Host) (geojson : JsVal) :
  (exists r, Plain.validateGeoJSON host geojson = Ok r /\ Plain.isValid r = true)
  <-> PlainAccepted.goodDocument host geojson.
Proof.
  split.
  - intros (r & H & V). unfold PlainAccepted.goodDocument.
    destruct (hasFeatures geojson) eqn:F.
    + unfold hasFeatures in F.
      destruct (collectionFeatures geojson) as [[|f fs]|] eqn:C; try discriminate F.
      exists (f :: fs). split; [reflexivity|]. split; [discriminate|].
      rewrite (PlainAcceptedFacts.validateGeoJSON_features host geojson (f :: fs) C) in H
        by discriminate.
      apply (AcceptedFacts.forEach_sound Plain.isValid (PlainAccepted.goodFeature host)) in H;
        [ exact (proj2 H) | | exact V ].
      intros x i q q'. apply PlainAcceptedFacts.validateFeature_sound.
    + destruct (PlainAcceptedFacts.validateGeoJSON_root host geojson F) as (r0 & H0 & V0).
      congruence.
  - intros (features & C & N & G).
    rewrite (PlainAcceptedFacts.validateGeoJSON_features host geojson features C N).
    exists Plain.emptyResult. split; [|reflexivity].
    generalize 0. clear C N. induction G as [|f fs Gf Gfs IH]; intros from; [reflexivity|].
    cbn [forEach]. rewrite PlainAcceptedFacts.validateFeature_complete by exact Gf.
    cbn [bind]. apply IH.
Qed.

(** The plain engine accepts the unit-square document. *)
Lemma plain_accepted_documents_square : PlainAccepted.goodDocument sampleHost squareDocument.
Proof.
  apply (proj1 (plain_accepted_documents sampleHost squareDocument)).
  eexists. split; [vm_compute; reflexivity | reflexivity].
Defined.

(** ** Facts about the plot preview *)
Module PreviewFacts.
Import Preview.

Lemma mapIndexed_map {A B : Type} (f : A -> B) (l : list A) :
  forall from, mapIndexed l from (fun x _ => Ok (f x)) = Ok (map f l).
Proof.
  induction l as [|x l IH]; intros from; cbn; [reflexivity|].
  rewrite IH. reflexivity.
Qed.

Lemma mapIndexed_ext {A B : Type} (f g : A -> nat -> Exn B) (l : list A) :
  (forall x i, In x l -> f x i = g x i) ->
  forall from, mapIndexed l from f = mapIndexed l from g.
Proof.
  induction l as [|x l IH]; intros E from; cbn; [reflexivity|].
  rewrite E by (left; reflexivity). rewrite IH; [reflexivity|].
  intros y i I. apply E. right. exact I.
Qed.

Lemma convertToLatLng_polygon rings :
  convertToLatLng (polygon rings)
  = Ok (polygon (map (map (fun position =>
                             [nth 1 position JUndefined; nth 0 position JUndefined]))
                   rings)).
Proof.
  unfold convertToLatLng, polygon, mapArray.
  rewrite (mapIndexed_ext _
             (fun ring _ =>
                Ok (match ring with
                    | JArr positions =>
                        JArr (map (fun position =>
                                     match position with
                                     | JArr elems =>
                                         JArr [nth 1 elems JUndefined; nth 0 elems JUndefined]
                                     | _ => JUndefined
                                     end) positions)
                    | _ => JUndefined
                    end))).
  - rewrite mapIndexed_map. cbn [bind]. rewrite !map_map. do 2 f_equal.
    apply map_ext. intros ring. rewrite !map_map. reflexivity.
  - intros ring i I. apply in_map_iff in I. destruct I as (positions & <- & _).
    rewrite (mapIndexed_ext _
               (fun position _ =>
                  Ok (match position with
                      | JArr elems => JArr [nth 1 elems JUndefined; nth 0 elems JUndefined]
                      | _ => JUndefined
                      end))).
    + rewrite mapIndexed_map. reflexivity.
    + intros position j J. apply in_map_iff in J. destruct J as (elems & <- & _).
      reflexivity.
Qed.

Lemma swap_good position :
  Accepted.goodPosition position ->
  exists lng lat,
    swap position = Ok (JArr [JNum lat; JNum lng])
    /\ Accepted.within (-180) 180 (JNum lng) /\ Accepted.within (-90) 90 (JNum lat).
Proof.
  intros (elems & -> & L & (x & X & X1 & X2) & (y & Y & Y1 & Y2)).
  exists x, y. unfold swap. cbn [GetAt bind]. rewrite X, Y.
  split; [reflexivity|]. split; [exists x | exists y]; auto.
Qed.

Lemma mapIndexed_good ring :
  Forall Accepted.goodPosition ring ->
  forall from,
    exists positions,
      mapIndexed ring from (fun x _ => swap x) = Ok positions
      /\ List.length positions = List.length ring
      /\ Forall (fun position =>
                   exists lng lat,
                     position = JArr [JNum lat; JNum lng]
                     /\ Accepted.within (-180) 180 (JNum lng)
                     /\ Accepted.within (-90) 90 (JNum lat)) positions.
Proof.
  induction 1 as [|p ring Hp Hring IH]; intros from; cbn [mapIndexed].
  - exists []. split; [reflexivity|]. split; [reflexivity | constructor].
  - destruct (swap_good p Hp) as (lng & lat & Sw & W).
    destruct (IH (S from)) as (positions & M & L & F).
    rewrite Sw, M. cbn [bind]. eexists. split; [reflexivity|].
    split; [cbn; congruence|]. constructor; [eauto | exact F].
Qed.

End PreviewFacts.

(** X16: on a polygon all of whose positions have exactly two entries,
    [convertToLatLng] returns the same rings and positions in the same
    order with the two entries of every position swapped; so converting
    twice gives the polygon back. *)
Theorem convertToLatLng_round_trip (rings : list (list (list JsVal))) :
  (forall ring position, In ring rings -> In position ring -> List.length position = 2) ->
  Preview.convertToLatLng (Preview.polygon rings)
  = Ok (Preview.polygon (map (map (@rev JsVal)) rings))
  /\ (swapped <- Preview.convertToLatLng (Preview.polygon rings) ;;
      Preview.convertToLatLng swapped)
     = Ok (Preview.polygon rings).
Proof.
  intros H. rewrite PreviewFacts.convertToLatLng_polygon. split.
  - do 2 f_equal. apply map_ext_in. intros ring I. apply map_ext_in. intros position J.
    specialize (H ring position I J).
    destruct position as [|a [|b [|c rest]]]; try discriminate H. reflexivity.
  - cbn [bind]. rewrite PreviewFacts.convertToLatLng_polygon. do 2 f_equal.
    rewrite map_map. rewrite <- (map_id rings) at 2. apply map_ext_in. intros ring I.
    rewrite map_map. rewrite <- (map_id ring) at 2. apply map_ext_in. intros position J.
    specialize (H ring position I J).
    destruct position as [|a [|b [|c rest]]]; try discriminate H. reflexivity.
Qed.


(** The conversion of a ring of two positions, and back. *)
Lemma convertToLatLng_round_trip_pair :
  Preview.convertToLatLng (Preview.polygon [[[JNum 0; JNum 1]; [JNum 2; JNum 3]]])
  = Ok (Preview.polygon [[[JNum 1; JNum 0]; [JNum 3; JNum 2]]])
  /\ (swapped <- Preview.convertToLatLng
                   (Preview.polygon [[[JNum 0; JNum 1]; [JNum 2; JNum 3]]]) ;;
      Preview.convertToLatLng swapped)
     = Ok (Preview.polygon [[[JNum 0; JNum 1]; [JNum 2; JNum 3]]]).
Proof.
  apply (convertToLatLng_round_trip [[[JNum 0; JNum 1]; [JNum 2; JNum 3]]]).
  intros ring position [<-|[]] [<-|[<-|[]]]; reflexivity.
Defined.

(** X17: the preview of a feature that the diagnostics-capable engine
    accepts.  When its geometry is [null] the conversion of its
    coordinates raises; otherwise it returns one ring of at least four
    positions, each a pair of a latitude in range followed by a longitude
    in range. *)
Theorem accepted_feature_preview (host : Host) (feature : JsVal) :
  Accepted.goodFeature host feature ->
  (Get feature "geometry" = Ok JNull /\ Preview.polygonPositions feature = Throw)
  \/ (exists positions,
         Preview.polygonPositions feature = Ok (JArr [JArr positions])
         /\ 4 <= List.length positions
         /\ Forall (fun position =>
                      exists lng lat,
                        position = JArr [JNum lat; JNum lng]
                        /\ Accepted.within (-180) 180 (JNum lng)
                        /\ Accepted.within (-90) 90 (JNum lat)) positions).
Proof.
  intros (fields & properties & geometry & -> & T & P & GP & G & Geo).
  unfold Preview.polygonPositions. cbn [Get bind]. rewrite G.
  destruct Geo as [-> | (gf & ring & -> & GT & GC & (L & _ & _ & Positions & _))].
  - left. split; reflexivity.
  - right. cbn [Get bind]. rewrite GC.
    unfold Preview.convertToLatLng, Preview.mapArray. cbn [mapIndexed bind].
    destruct (PreviewFacts.mapIndexed_good ring Positions 0) as (positions & M & N & F).
    rewrite M. cbn [bind]. exists positions. split; [reflexivity|]. split; [lia | exact F].
Qed.


(** The preview of the unit-square feature. *)
Lemma accepted_feature_preview_square :
  (Get (polygonFeature unitSquare) "geometry" = Ok JNull
   /\ Preview.polygonPositions (polygonFeature unitSquare) = Throw)
  \/ (exists positions,
         Preview.polygonPositions (polygonFeature unitSquare) = Ok (JArr [JArr positions])
         /\ 4 <= List.length positions
         /\ Forall (fun position =>
                      exists lng lat,
                        position = JArr [JNum lat; JNum lng]
                        /\ Accepted.within (-180) 180 (JNum lng)
                        /\ Accepted.within (-90) 90 (JNum lat)) positions).
Proof.
  apply (accepted_feature_preview sampleHost (polygonFeature unitSquare)).
  eapply (AcceptedFacts.validateFeatureWithSteps_sound sampleHost
            (polygonFeature unitSquare) 0 WithSteps.emptyResult);
    [vm_compute; reflexivity | reflexivity].
Defined.

(** X18: marking the selected plot as validated keeps the list of
    validated identifiers free of repetitions, and the features that
    [handleComplete] then hands over are exactly the features whose
    identifier was validated before or is the selected one. *)
Theorem validated_plots (features : list Preview.GeoJSONFeature) (selectedPlotId : string)
  (validatedPlots : list string) :
  NoDup validatedPlots ->
  NoDup (Preview.handleValidate features selectedPlotId validatedPlots)
  /\ (forall feature,
         In feature
           (Preview.handleComplete features
              (Preview.handleValidate features selectedPlotId validatedPlots))
         <-> In feature features
             /\ (In (Preview.plot_ID (Preview.properties feature)) validatedPlots
                 \/ Preview.plot_ID (Preview.properties feature) = selectedPlotId)).
Proof.
  intros N.
  assert (V : forall l id, Preview.isPlotValidated l id = true <-> In id l).
  { intros l id. unfold Preview.isPlotValidated. rewrite existsb_exists. split.
    - intros (x & I & E). apply String.eqb_eq in E. subst. exact I.
    - intros I. exists id. split; [exact I | apply String.eqb_refl]. }
  unfold Preview.handleValidate, Preview.handleComplete, Preview.selectedPlot.
  destruct (find _ features) as [plot|] eqn:F.
  - apply find_some in F. destruct F as [Fin Fid]. apply String.eqb_eq in Fid.
    rewrite Fid. destruct (Preview.isPlotValidated validatedPlots selectedPlotId) eqn:B.
    + split; [exact N|]. intros feature. rewrite filter_In, V. apply V in B.
      split; [tauto|]. intros [I [J| ->]]; auto.
    + split.
      * apply NoDup_app; [exact N | repeat constructor; intros [] | ].
        intros x I [<-|[]]. apply V in I. congruence.
      * intros feature. rewrite filter_In, V, in_app_iff. cbn [In].
        split; [intros [I [J|[J|[]]]]; auto | intros [I [J| J]]; auto].
  - split; [exact N|]. intros feature. rewrite filter_In, V.
    split; [tauto|]. intros [I [J|J]]; [auto|].
    exfalso. apply (find_none _ _ F) in I. rewrite J, String.eqb_refl in I. discriminate I.
Qed.

(** Selecting and validating the first of two plots. *)
Lemma validated_plots_first :
  NoDup (Preview.handleValidate Preview.samplePlots "A1" [])
  /\ (forall feature,
         In feature
           (Preview.handleComplete Preview.samplePlots
              (Preview.handleValidate Preview.samplePlots "A1" []))
         <-> In feature Preview.samplePlots
             /\ (In (Preview.plot_ID (Preview.properties feature)) []
                 \/ Preview.plot_ID (Preview.properties feature) = "A1")).
Proof.
  apply (validated_plots Preview.samplePlots "A1" []). constructor.
Defined.

(** ** Facts about the summary of common issues *)
Module SummaryFacts.
Import WithSteps Summary.

Lemma tally_count key error counts :
  tally key (count error counts)
  = tally key counts + (if String.eqb error key then 1 else 0).
Proof.
  induction counts as [|[k n] rest IH]; cbn.
  - reflexivity.
  - destruct (String.eqb_spec k error) as [->|N]; cbn.
    + destruct (String.eqb_spec error key); lia.
    + destruct (String.eqb_spec k key) as [->|M].
      * destruct (String.eqb_spec error key); [congruence | lia].
      * exact IH.
Qed.

Lemma count_keys error counts key :
  In key (map fst (count error counts)) <-> key = error \/ In key (map fst counts).
Proof.
  induction counts as [|[k n] rest IH]; cbn.
  - split; [intros [E|[]]; auto | intros [E|[]]; auto].
  - destruct (String.eqb_spec k error) as [->|N]; cbn.
    + split; [intros [E|I]; auto | intros [E|[E|I]]; auto].
    + rewrite IH. split; [intros [E|[E|I]]; auto | intros [E|[E|I]]; auto].
Qed.

Lemma count_NoDup error counts :
  NoDup (map fst counts) -> NoDup (map fst (count error counts)).
Proof.
  induction counts as [|[k n] rest IH]; cbn; intros D.
  - repeat constructor. intros [].
  - inversion D as [|? ? Dk Drest]; subst.
    destruct (String.eqb_spec k error) as [->|N]; cbn.
    + constructor; assumption.
    + constructor; [|auto]. rewrite count_keys. intros [E|I]; [congruence | contradiction].
Qed.

Lemma tally_entry key n counts :
  NoDup (map fst counts) -> In (key, n) counts -> tally key counts = n.
Proof.
  induction counts as [|[k m] rest IH]; cbn; intros D I; [contradiction|].
  inversion D as [|? ? Dk Drest]; subst.
  destruct I as [E|I].
  - inversion E; subst. rewrite String.eqb_refl. reflexivity.
  - destruct (String.eqb_spec k key) as [->|N]; [|auto].
    exfalso. apply Dk. apply (in_map fst) in I. exact I.
Qed.

Lemma fold_count errors :
  forall counts,
    NoDup (map fst counts) ->
    let counts' := fold_left (fun counts error => count error counts) errors counts in
    NoDup (map fst counts')
    /\ (forall key, tally key counts' = tally key counts + count_occ string_dec errors key)
    /\ (forall key, In key (map fst counts') <-> In key errors \/ In key (map fst counts)).
Proof.
  induction errors as [|e errors IH]; intros counts D; cbn.
  - split; [exact D|]. split; [intros; lia | tauto].
  - destruct (IH (count e counts) (count_NoDup e counts D)) as (D' & T & K).
    split; [exact D'|]. split.
    + intros key. rewrite T, tally_count.
      destruct (string_dec e key) as [->|N].
      * rewrite String.eqb_refl. lia.
      * destruct (String.eqb_spec e key); [contradiction | lia].
    + intros key. rewrite K, count_keys. split; [intros [I|[E|I]]; auto | intros [[E|I]|I]; auto].
Qed.

Lemma errorCounts_spec results :
  NoDup (map fst (errorCounts results))
  /\ (forall key, tally key (errorCounts results) = count_occ string_dec (allErrors results) key)
  /\ (forall key, In key (map fst (errorCounts results)) <-> In key (allErrors results)).
Proof.
  unfold errorCounts, allErrors.
  assert (G : forall counts,
             NoDup (map fst counts) ->
             let counts' :=
               fold_left
                 (fun counts plot =>
                    fold_left (fun counts error => count error counts) (plotErrors plot) counts)
                 results counts in
             NoDup (map fst counts')
             /\ (forall key,
                    tally key counts'
                    = tally key counts
                      + count_occ string_dec (List.concat (map plotErrors results)) key)
             /\ (forall key,
                    In key (map fst counts')
                    <-> In key (List.concat (map plotErrors results))
                        \/ In key (map fst counts))).
  { induction results as [|p results IH]; intros counts D; cbn.
    - split; [exact D|]. split; [intros; lia | tauto].
    - destruct (fold_count (plotErrors p) counts D) as (D1 & T1 & K1).
      destruct (IH _ D1) as (D2 & T2 & K2).
      split; [exact D2|]. split.
      + intros key. rewrite T2, T1, count_occ_app. lia.
      + intros key. rewrite K2, K1, in_app_iff. tauto. }
  destruct (G [] (NoDup_nil _)) as (D & T & K).
  split; [exact D|]. split.
  - intros key. rewrite T. reflexivity.
  - intros key. rewrite K. cbn. tauto.
Qed.

Lemma insert_In entry sorted x : In x (insert entry sorted) <-> x = entry \/ In x sorted.
Proof.
  induction sorted as [|y rest IH]; cbn [insert].
  - cbn. split; [intros [E|[]]; auto | intros [E|[]]; auto].
  - destruct (snd entry <? snd y)%nat; cbn [In].
    + rewrite IH. split; [intros [E|[E|I]]; auto | intros [E|[E|I]]; auto].
    + split; [intros [E|[E|I]]; auto | intros [E|[E|I]]; auto].
Qed.

Lemma sortByCount_In entries x : In x (sortByCount entries) <-> In x entries.
Proof.
  induction entries as [|e entries IH]; cbn [sortByCount fold_right In]; [tauto|].
  fold (sortByCount entries). rewrite insert_In, IH. split; [intros [E|I]; auto | intros [E|I]; auto].
Qed.

(** The first entry after sorting holds a largest count. *)
Lemma sortByCount_head entries first rest :
  sortByCount entries = first :: rest ->
  forall x, In x entries -> snd x <= snd first.
Proof.
  revert first rest. induction entries as [|e entries IH]; intros first rest H x I;
    [contradiction|].
  change (sortByCount (e :: entries)) with (insert e (sortByCount entries)) in H.
  cbn [In] in I.
  destruct (sortByCount entries) as [|y sorted] eqn:S.
  - cbn [insert] in H. inversion H; subst. destruct I as [<-|I]; [lia|].
    apply sortByCount_In in I. rewrite S in I. contradiction.
  - cbn [insert] in H. specialize (IH y sorted eq_refl).
    destruct (snd e <? snd y)%nat eqn:B.
    + apply Nat.ltb_lt in B. inversion H; subst. destruct I as [<-|I]; [lia | auto].
    + apply Nat.ltb_ge in B. inversion H; subst.
      destruct I as [<-|I]; [lia|]. specialize (IH x I). lia.
Qed.

(** The summary starts with the error counted most often. *)
Lemma getCommonIssues_first results :
  allErrors results <> [] ->
  ~ In "" (allErrors results) ->
  exists error,
    In error (allErrors results)
    /\ String.prefix error (getCommonIssues results) = true
    /\ (forall other,
           count_occ string_dec (allErrors results) other
           <= count_occ string_dec (allErrors results) error).
Proof.
  intros N E. destruct (errorCounts_spec results) as (D & T & K).
  unfold getCommonIssues.
  destruct (sortByCount (errorCounts results)) as [|[error n] rest] eqn:S.
  - exfalso. destruct (allErrors results) as [|e l] eqn:A; [contradiction|].
    assert (I : In e (map fst (errorCounts results))) by (apply K; left; reflexivity).
    apply in_map_iff in I. destruct I as (x & _ & I).
    apply sortByCount_In in I. rewrite S in I. contradiction.
  - assert (I : In (error, n) (errorCounts results))
      by (apply sortByCount_In; rewrite S; left; reflexivity).
    assert (Ie : In error (allErrors results)) by (apply K; apply (in_map fst) in I; exact I).
    exists error. split; [exact Ie|]. split.
    + assert (J : exists tail,
                 String.concat ", " (map fst (firstn 2 ((error, n) :: rest))) = error ++ tail).
      { destruct rest as [|[e2 n2] rest]; cbn.
        - exists "". clear. induction error; cbn; congruence.
        - eexists. reflexivity. }
      destruct J as [tail ->].
      destruct (String.eqb_spec (error ++ tail) "") as [Z|Z].
      * exfalso. destruct error; [contradiction | discriminate Z].
      * apply LabelFacts.prefix_app.
    + intros other. rewrite <- !T.
      rewrite (tally_entry error n _ D I).
      destruct (in_dec string_dec other (map fst (errorCounts results))) as [O|O].
      * apply in_map_iff in O. destruct O as ([k m] & <- & O). cbn [fst].
        rewrite (tally_entry k m _ D O).
        exact (sortByCount_head _ _ _ S (k, m) O).
      * assert (Z : tally other (errorCounts results) = 0).
        { rewrite T. apply count_occ_not_In. rewrite <- K. exact O. }
        lia.
Qed.

Lemma getCommonIssues_none results :
  allErrors results = [] -> getCommonIssues results = "No common issues found".
Proof.
  intros A. destruct (errorCounts_spec results) as (_ & _ & K).
  unfold getCommonIssues.
  destruct (errorCounts results) as [|[key n] rest]; [reflexivity|].
  exfalso. specialize (K key). rewrite A in K. apply K. left. reflexivity.
Qed.

(** What the validator leaves in a per-plot result. *)
Lemma validatePlot_errors host feature index p :
  validatePlot host feature index = Ok p ->
  (plotIsValid p = true <-> plotErrors p = [])
  /\ ~ In "" (plotErrors p).
Proof.
  intros H. assert (R := FrameFacts.validatePlot_result host feature index).
  rewrite H in R.
  destruct (validateFeatureWithSteps host feature index emptyResult) as [d|] eqn:V;
    [|contradiction].
  cbn [alike] in R. subst d.
  destruct (LabelFacts.validateFeatureWithSteps_grows host _ _ _ _ V) as (new & (S & E & B) & L).
  cbn in S, E, B. split.
  - rewrite B, E. clear. induction new as [|s new IH]; cbn; [tauto|].
    unfold Trace.failing at 1. destruct (passed s); cbn; [exact IH | split; discriminate].
  - rewrite E. intros I. apply in_map_iff in I. destruct I as (s & M & I).
    apply filter_In in I. destruct I as [I _].
    rewrite forallb_forall in L. specialize (L s I).
    unfold Labels.labelled in L. apply andb_true_iff in L. destruct L as [_ L].
    rewrite M in L. discriminate L.
Qed.

Lemma mapIndexed_each {A B : Type} (body : A -> nat -> Exn B) (l : list A) :
  forall from out,
    mapIndexed l from body = Ok out ->
    Forall (fun y => exists x i, body x i = Ok y) out.
Proof.
  induction l as [|a l IH]; intros from out H; cbn in H.
  - inversion H. constructor.
  - destruct (body a from) as [y|] eqn:Hy; cbn in H; [|discriminate].
    destruct (mapIndexed l (S from) body) as [ys|] eqn:M; cbn in H; [|discriminate].
    inversion H; subst. constructor; [eauto | eapply IH; eassumption].
Qed.

Lemma validateAllPlotsWithSteps_each host geojson out :
  validateAllPlotsWithSteps host geojson = Ok out ->
  Forall (fun p => exists feature index, validatePlot host feature index = Ok p) out.
Proof.
  rewrite WithStepsFacts.validateAllPlotsWithSteps_spec.
  destruct (collectionFeatures geojson) as [features|].
  - apply mapIndexed_each.
  - intros H. inversion H. constructor.
Qed.

End SummaryFacts.

(** X19: the summary of the per-plot results of [validateAllPlotsWithSteps].
    When every plot is valid it is the fixed text; otherwise it begins
    with an error that some plot holds and that no other error outnumbers
    over all the plots. *)
Theorem common_issues (host : Host) (geojson : JsVal)
  (out : list WithSteps.PerPlotValidationResult) :
  WithSteps.validateAllPlotsWithSteps host geojson = Ok out ->
  (forallb WithSteps.plotIsValid out = true ->
   Summary.getCommonIssues out = "No common issues found")
  /\ (forallb WithSteps.plotIsValid out = false ->
      exists error,
        In error (Summary.allErrors out)
        /\ String.prefix error (Summary.getCommonIssues out) = true
        /\ (forall other,
               count_occ string_dec (Summary.allErrors out) other
               <= count_occ string_dec (Summary.allErrors out) error)).
Proof.
  intros H. apply SummaryFacts.validateAllPlotsWithSteps_each in H.
  assert (E : Forall (fun p =>
                        (WithSteps.plotIsValid p = true <-> WithSteps.plotErrors p = [])
                        /\ ~ In "" (WithSteps.plotErrors p)) out).
  { eapply Forall_impl; [|exact H]. intros p (feature & index & V).
    exact (SummaryFacts.validatePlot_errors host feature index p V). }
  clear H. split.
  - intros V. apply SummaryFacts.getCommonIssues_none. unfold Summary.allErrors.
    induction E as [|p out [Ep _] _ IH]; [reflexivity|].
    cbn in V |- *. apply andb_true_iff in V. destruct V as [Vp V].
    rewrite (proj1 Ep Vp), IH by exact V. reflexivity.
  - intros V. apply SummaryFacts.getCommonIssues_first.
    + unfold Summary.allErrors. induction E as [|p out [Ep _] _ IH]; [discriminate V|].
      cbn in V |- *. destruct (WithSteps.plotIsValid p) eqn:Vp.
      * rewrite (proj1 Ep eq_refl). cbn. apply IH. exact V.
      * destruct (WithSteps.plotErrors p) as [|e l]; [|discriminate].
        exfalso. assert (T := proj2 Ep eq_refl). discriminate T.
    + unfold Summary.allErrors. clear V. induction E as [|p out [_ Ep] _ IH]; [intros []|].
      cbn. rewrite in_app_iff. tauto.
Qed.

(** The summary of two unnamed plots. *)
Lemma common_issues_unnamed :
  exists out,
    WithSteps.validateAllPlotsWithSteps sampleHost
      (collection [unnamedFeature; unnamedFeature]) = Ok out
    /\ exists error,
         In error (Summary.allErrors out)
         /\ String.prefix error (Summary.getCommonIssues out) = true
         /\ (forall other,
                count_occ string_dec (Summary.allErrors out) other
                <= count_occ string_dec (Summary.allErrors out) error).
Proof.
  eexists. split; [vm_compute; reflexivity|].
  apply (proj2 (common_issues sampleHost (collection [unnamedFeature; unnamedFeature]) _
                  ltac:(vm_compute; reflexivity))).
  vm_compute. reflexivity.
Defined.

(** ** Facts about the lookup of a per-plot result *)
Module LookupFacts.
Import WithSteps Lookup.

Lemma find_first {A : Type} (test : A -> bool) (l : list A) :
  forall i x,
    nth_error l i = Some x ->
    test x = true ->
    (forall j y, j < i -> nth_error l j = Some y -> test y = false) ->
    find test l = Some x.
Proof.
  induction l as [|a l IH]; intros [|i] x N T E; cbn in N; try discriminate.
  - inversion N; subst. cbn. rewrite T. reflexivity.
  - cbn. rewrite (E 0 a) by (cbn; (lia || reflexivity)).
    apply (IH i); [exact N | exact T|].
    intros j y J Y. apply (E (S j)); [lia | exact Y].
Qed.

Lemma validatePlot_id host fields props id index p :
  lookup "properties" fields = Some (JObj props) ->
  lookup "plot_ID" props = Some (JStr id) ->
  id <> "" ->
  validatePlot host (JObj fields) index = Ok p ->
  plotId p = JStr id.
Proof.
  intros P I N H. unfold validatePlot in H.
  destruct (validateFeatureWithSteps host (JObj fields) index emptyResult) as [d|];
    cbn [bind] in H; [|discriminate].
  cbn [OptGet Get bind] in H. rewrite P in H. cbn [OptGet Get bind] in H. rewrite I in H.
  destruct (lookup "farmer_name" props); cbn [bind] in H; inversion H; cbn [plotId];
    cbn [ToBoolean]; destruct (String.eqb_spec id ""); (contradiction || reflexivity).
Qed.

End LookupFacts.

(** X20: the per-plot result of a feature is found by the identifier of
    the feature.  When the [plot_ID] of feature [i] is a non-empty string
    that no earlier per-plot result carries, [getPlotValidation] of that
    string returns the result at position [i], the result of validating
    feature [i]. *)
Theorem results_found_by_id (host : Host) (geojson : JsVal) (features : list JsVal)
  (out : list WithSteps.PerPlotValidationResult) (i : nat)
  (fields props : list (string * JsVal)) (id : string) :
  collectionFeatures geojson = Some features ->
  WithSteps.validateAllPlotsWithSteps host geojson = Ok out ->
  nth_error features i = Some (JObj fields) ->
  lookup "properties" fields = Some (JObj props) ->
  lookup "plot_ID" props = Some (JStr id) ->
  id <> "" ->
  (forall j q, j < i -> nth_error out j = Some q -> WithSteps.plotId q <> JStr id) ->
  exists p,
    Lookup.getPlotValidation (Some out) id = Some p
    /\ nth_error out i = Some p
    /\ WithSteps.validatePlot host (JObj fields) i = Ok p.
Proof.
  intros C H F P I N E.
  rewrite WithStepsFacts.validateAllPlotsWithSteps_spec, C in H.
  destruct (WithStepsFacts.mapIndexed_spec _ _ _ _ H) as [_ M].
  destruct (M i (JObj fields) F) as (p & V & O). cbn [Nat.add] in V.
  exists p. split; [|split; [exact O | exact V]].
  unfold Lookup.getPlotValidation.
  apply (LookupFacts.find_first _ out i p O).
  - rewrite (LookupFacts.validatePlot_id host fields props id i p P I N V).
    cbn. apply String.eqb_refl.
  - intros j q J Q. specialize (E j q J Q).
    destruct (StrictEquals false (WithSteps.plotId q) (JStr id)) eqn:S; [|reflexivity].
    apply AcceptedFacts.StrictEquals_string in S. contradiction.
Qed.

(** The result of the unit-square plot is found under its identifier. *)
Lemma results_found_by_id_square :
  exists out,
    WithSteps.validateAllPlotsWithSteps sampleHost squareDocument = Ok out
    /\ exists p,
         Lookup.getPlotValidation (Some out) "A1" = Some p
         /\ nth_error out 0 = Some p
         /\ WithSteps.validatePlot sampleHost (polygonFeature unitSquare) 0 = Ok p.
Proof.
  eexists. split; [vm_compute; reflexivity|].
  apply (results_found_by_id sampleHost squareDocument [polygonFeature unitSquare] _ 0
           _ [("plot_ID", JStr "A1"); ("farmer_name", JStr "J. Doe"); ("area", JNum 1.5)]
           "A1"); try reflexivity; try discriminate.
  intros j q J. inversion J.
Defined.

(** ** Facts about binary64 arithmetic *)
Module FloatFacts.

Lemma finite_cases x :
  PrimFloat.is_finite x = true ->
  (exists s, Prim2SF x = S754_zero s) \/ (exists s m e, Prim2SF x = S754_finite s m e).
Proof.
  unfold PrimFloat.is_finite, PrimFloat.is_nan, PrimFloat.is_infinity. intros H.
  apply negb_true_iff, orb_false_iff in H. destruct H as [N I].
  rewrite FloatAxioms.eqb_spec in N, I. rewrite FloatAxioms.abs_spec in I.
  destruct (Prim2SF x) as [s|s| |s m e]; eauto.
  - destruct s; vm_compute in I; discriminate I.
  - vm_compute in N. discriminate N.
Qed.

Lemma sub_diag x : PrimFloat.is_finite x = true -> (x - x)%float = 0%float.
Proof.
  intros H. apply FloatAxioms.Prim2SF_inj. rewrite FloatAxioms.sub_spec.
  destruct (finite_cases x H) as [[s ->] | (s & m & e & ->)].
  - destruct s; reflexivity.
  - unfold FloatAxioms.SF64sub, SFsub. rewrite Z.sub_diag. reflexivity.
Qed.

Lemma mul_zero_l d : faint (0 * d)%float.
Proof.
  unfold faint. rewrite FloatAxioms.mul_spec.
  change (Prim2SF 0) with (S754_zero false).
  destruct (Prim2SF d) as [s|s| |s m e]; cbn; eauto.
Qed.

Lemma mul_zero_r d : faint (d * 0)%float.
Proof.
  unfold faint. rewrite FloatAxioms.mul_spec.
  change (Prim2SF 0) with (S754_zero false).
  destruct (Prim2SF d) as [s|s| |s m e]; cbn; eauto.
Qed.

Lemma ltb_faint a b : faint a -> faint b -> PrimFloat.ltb a b = false.
Proof.
  intros [[s A]|A] [[t B]|B]; rewrite FloatAxioms.ltb_spec, A, B; reflexivity.
Qed.

Lemma ltb_irrefl x : PrimFloat.ltb x x = false.
Proof.
  rewrite FloatAxioms.ltb_spec. unfold SFltb, SFcompare.
  destruct (Prim2SF x) as [s|s| |s m e]; try (destruct s; reflexivity); try reflexivity.
  rewrite Z.compare_refl, Pos.compare_cont_refl. destruct s; reflexivity.
Qed.

End FloatFacts.

(** ** Facts about the geometry helpers *)
Module HelperFacts.
Section Helpers.
Variable host : Host.

Lemma ccw_numbers a0 a1 ra b0 b1 rb c0 c1 rc :
  ccw host (positionWith a0 a1 ra) (positionWith b0 b1 rb) (positionWith c0 c1 rc)
  = Ok (PrimFloat.ltb ((b1 - a1) * (c0 - a0)) ((c1 - a1) * (b0 - a0)))%float.
Proof. reflexivity. Qed.

(** Nothing is counter-clockwise of a segment that ends where it starts. *)
Lemma ccw_from_itself a0 a1 ra rb c0 c1 rc :
  PrimFloat.is_finite a0 = true ->
  PrimFloat.is_finite a1 = true ->
  ccw host (positionWith a0 a1 ra) (positionWith a0 a1 rb) (positionWith c0 c1 rc) = Ok false.
Proof.
  intros F0 F1. rewrite ccw_numbers, (FloatFacts.sub_diag a0 F0), (FloatFacts.sub_diag a1 F1).
  rewrite FloatFacts.ltb_faint;
    [reflexivity | apply FloatFacts.mul_zero_l | apply FloatFacts.mul_zero_r].
Qed.

(** The end of a segment is not counter-clockwise of it. *)
Lemma ccw_of_its_end a0 a1 ra b0 b1 rb rc :
  ccw host (positionWith a0 a1 ra) (positionWith b0 b1 rb) (positionWith b0 b1 rc) = Ok false.
Proof. rewrite ccw_numbers, FloatFacts.ltb_irrefl. reflexivity. Qed.

End Helpers.
End HelperFacts.

(** X21: the angle at a repeated position.  When two of the three
    positions handed to [calculateAngle] are the same position with
    finite coordinates, and the second argument is one of them, the
    result is 180, whatever the third position: one of the two vectors
    has length zero. *)
Theorem repeated_position_angle (host : Host) (x y a b : float) (m1 m2 m3 : list JsVal) :
  PrimFloat.is_finite x = true ->
  PrimFloat.is_finite y = true ->
  calculateAngle host (positionWith x y m1) (positionWith x y m2) (positionWith a b m3)
  = Ok 180%float
  /\ calculateAngle host (positionWith a b m3) (positionWith x y m1) (positionWith x y m2)
     = Ok 180%float.
Proof.
  intros Fx Fy. unfold calculateAngle, positionWith, js_sub.
  cbn [GetAt nth ToNumber bind].
  rewrite (FloatFacts.sub_diag x Fx), (FloatFacts.sub_diag y Fy).
  change (PrimFloat.eqb (Math_sqrt (0 * 0 + 0 * 0)) 0) with true.
  rewrite orb_true_r. split; reflexivity.
Qed.


(** The angle at a repeated corner of the unit square. *)
Lemma repeated_position_angle_corner :
  calculateAngle sampleHost (positionWith 0 1 []) (positionWith 0 1 []) (positionWith 1 1 [])
  = Ok 180%float
  /\ calculateAngle sampleHost (positionWith 1 1 []) (positionWith 0 1 [])
       (positionWith 0 1 [])
     = Ok 180%float.
Proof.
  apply (repeated_position_angle sampleHost 0 1 1 1 [] [] []); reflexivity.
Defined.

(** X22: a segment that ends where it starts is never found to intersect
    another segment, whichever of the two segments handed to
    [segmentsIntersect] it is and whatever numbers the positions hold. *)
Theorem zero_length_segment (host : Host) (x y a0 a1 b0 b1 : float)
  (m1 m2 ma mb : list JsVal) :
  segmentsIntersect host (positionWith x y m1) (positionWith x y m2)
    (positionWith a0 a1 ma) (positionWith b0 b1 mb) = Ok false
  /\ segmentsIntersect host (positionWith a0 a1 ma) (positionWith b0 b1 mb)
       (positionWith x y m1) (positionWith x y m2) = Ok false.
Proof.
  unfold segmentsIntersect. split.
  - rewrite !HelperFacts.ccw_numbers. cbn [bind]. rewrite Bool.eqb_reflx. reflexivity.
  - rewrite !HelperFacts.ccw_of_its_end. reflexivity.
Qed.

(** X23: on two segments that share an end, the second starting at the
    finite position where the first ends, [segmentsIntersect] answers
    whether the far end of the second segment is counter-clockwise of the
    first segment. *)
Theorem adjacent_segments (host : Host) (p0 p1 q0 q1 r0 r1 : float)
  (mp mq mq' mr : list JsVal) :
  PrimFloat.is_finite q0 = true ->
  PrimFloat.is_finite q1 = true ->
  segmentsIntersect host (positionWith p0 p1 mp) (positionWith q0 q1 mq)
    (positionWith q0 q1 mq') (positionWith r0 r1 mr)
  = ccw host (positionWith p0 p1 mp) (positionWith q0 q1 mq) (positionWith r0 r1 mr).
Proof.
  intros F0 F1. unfold segmentsIntersect.
  rewrite (HelperFacts.ccw_from_itself host q0 q1 mq mq' r0 r1 mr F0 F1).
  rewrite HelperFacts.ccw_of_its_end.
  rewrite !HelperFacts.ccw_numbers. cbn [bind].
  destruct (PrimFloat.ltb _ _); reflexivity.
Qed.

(** Two sides of the unit square that meet in a corner. *)
Lemma adjacent_segments_corner :
  segmentsIntersect sampleHost (positionWith 0 0 []) (positionWith 0 1 [])
    (positionWith 0 1 []) (positionWith 1 1 [])
  = ccw sampleHost (positionWith 0 0 []) (positionWith 0 1 []) (positionWith 1 1 []).
Proof.
  apply (adjacent_segments sampleHost 0 0 0 1 1 1 [] [] [] []); reflexivity.
Defined.

(** ** A geometry that converts to false *)
Module FalsyFacts.

Lemma falsy_cases v :
  falsy v ->
  Get v "type" = Ok JUndefined /\ StrictEquals false v JNull = false.
Proof.
  intros (B & N & U). destruct v; try discriminate B; try contradiction; split; reflexivity.
Qed.

Section Engine.
Variable host : Host.

(** With properties that are an object, the plain engine reaches the
    geometry. *)
Lemma plain_reaches_geometry fields props index r :
  lookup "type" fields = Some (JStr "Feature") ->
  lookup "properties" fields = Some (JObj props) ->
  exists r1,
    Plain.validateFeature host (JObj fields) index r
    = (geometry <- Get (JObj fields) "geometry" ;;
       if negb (ToBoolean geometry) && negb (StrictEquals false geometry JNull) then
         Ok (Plain.addError r1 (Plain.featureLabel index ++ ": Missing 'geometry' property"))
       else if StrictEquals false geometry JNull then Ok r1
       else Plain.validateGeometry host geometry index r1).
Proof.
  intros T P. unfold Plain.validateFeature, Plain.requiredProps.
  cbn [Get HasProperty bind forEach]. unfold hasKey at 1. rewrite T, P.
  change (negb (StrictEquals false (JStr "Feature") (JStr "Feature"))) with false.
  change (typeof (JObj props) =? "object") with true.
  cbn [negb orb andb StrictEquals ToBoolean bind HasProperty].
  destruct (hasKey "plot_ID" props); destruct (hasKey "farmer_name" props);
    cbn [negb bind Get]; unfold hasKey;
    (destruct (lookup "area" props) as [area|]; cbn [bind];
     [ destruct (negb (typeof area =? "number")) | ]);
    cbn [bind]; eexists; reflexivity.
Qed.

Lemma steps_reach_geometry fields props index d :
  lookup "type" fields = Some (JStr "Feature") ->
  lookup "properties" fields = Some (JObj props) ->
  exists d1,
    WithSteps.validateFeatureWithSteps host (JObj fields) index d
    = (hasGeometry <- HasProperty "geometry" (JObj fields) ;;
       geometry <- Get (JObj fields) "geometry" ;;
       if negb hasGeometry && negb (StrictEquals false geometry JNull) then
         let msg := WithSteps.featureLabel index ++ ": Missing 'geometry' property" in
         Ok (WithSteps.addError
               (WithSteps.addStep d1 (WithSteps.featureLabel index ++ " geometry") false msg)
               msg)
       else if StrictEquals false geometry JNull then
         Ok (WithSteps.addStep d1 (WithSteps.featureLabel index ++ " geometry") true
               (WithSteps.featureLabel index ++ ": geometry is null (allowed)"))
       else WithSteps.validateGeometryWithSteps host geometry index d1).
Proof.
  intros T P. unfold WithSteps.validateFeatureWithSteps, WithSteps.requiredProps.
  cbn [Get HasProperty bind forEach]. unfold hasKey at 1. rewrite T, P.
  change (negb (StrictEquals false (JStr "Feature") (JStr "Feature"))) with false.
  change (typeof (JObj props) =? "object") with true.
  cbn [negb orb andb StrictEquals ToBoolean bind HasProperty].
  destruct (hasKey "plot_ID" props); destruct (hasKey "farmer_name" props);
    cbn [negb bind Get]; unfold hasKey at 1;
    (destruct (lookup "area" props) as [area|]; cbn [bind];
     [ destruct (negb (typeof area =? "number")) | ]);
    cbn [bind]; eexists; reflexivity.
Qed.

End Engine.
End FalsyFacts.

(** X24: a feature of type "Feature" whose properties are an object and
    whose [geometry] is absent, or is [false], zero, not a number or the
    empty string.  Both engines return on it, and the last error of the
    plain engine is the missing-geometry error in each case; the last
    error of the diagnostics-capable engine is that error only when the
    key is absent, and the invalid-geometry-type error otherwise. *)
Theorem geometry_presence (host : Host) (fields props : list (string * JsVal))
  (geometry : option JsVal) (index : nat) (r : Plain.ValidationResult)
  (d : WithSteps.ValidationResultWithSteps) :
  lookup "type" fields = Some (JStr "Feature") ->
  lookup "properties" fields = Some (JObj props) ->
  lookup "geometry" fields = geometry ->
  (forall value, geometry = Some value -> falsy value) ->
  exists r' d',
    Plain.validateFeature host (JObj fields) index r = Ok r'
    /\ WithSteps.validateFeatureWithSteps host (JObj fields) index d = Ok d'
    /\ last (Plain.errors r') "" = Plain.featureLabel index ++ ": Missing 'geometry' property"
    /\ last (WithSteps.errors d') ""
       = WithSteps.featureLabel index
         ++ match geometry with
            | None => ": Missing 'geometry' property"
            | Some _ => ": Invalid geometry type"
            end.
Proof.
  intros T P G F.
  destruct (FalsyFacts.plain_reaches_geometry host fields props index r T P) as [r1 ->].
  destruct (FalsyFacts.steps_reach_geometry host fields props index d T P) as [d1 ->].
  cbn [Get HasProperty bind]. unfold hasKey. rewrite G.
  destruct geometry as [value|].
  - specialize (F value eq_refl).
    destruct (FalsyFacts.falsy_cases value F) as [Ty N]. destruct F as [B _].
    rewrite B, N. cbn [negb andb].
    unfold WithSteps.validateGeometryWithSteps. rewrite Ty. cbn [bind ToBoolean negb orb].
    do 2 eexists. split; [reflexivity|]. split; [reflexivity|].
    cbn [Plain.errors Plain.addError WithSteps.errors WithSteps.addError WithSteps.addStep].
    rewrite !last_last. split; reflexivity.
  - cbn [negb andb ToBoolean StrictEquals].
    do 2 eexists. split; [reflexivity|]. split; [reflexivity|].
    cbn [Plain.errors Plain.addError WithSteps.errors WithSteps.addError WithSteps.addStep].
    rewrite !last_last. split; reflexivity.
Qed.

(** A feature whose geometry is the empty string. *)
Lemma geometry_presence_empty_string :
  exists r' d',
    Plain.validateFeature sampleHost
      (JObj [("type", JStr "Feature"); ("properties", JObj []); ("geometry", JStr "")])
      0 Plain.emptyResult = Ok r'
    /\ WithSteps.validateFeatureWithSteps sampleHost
         (JObj [("type", JStr "Feature"); ("properties", JObj []); ("geometry", JStr "")])
         0 WithSteps.emptyResult = Ok d'
    /\ last (Plain.errors r') "" = "Feature 0: Missing 'geometry' property"
    /\ last (WithSteps.errors d') "" = "Feature 0: Invalid geometry type".
Proof.
  apply (geometry_presence sampleHost
           [("type", JStr "Feature"); ("properties", JObj []); ("geometry", JStr "")]
           [] (Some (JStr "")) 0 Plain.emptyResult WithSteps.emptyResult);
    try reflexivity.
  intros value E. inversion E. repeat split; discriminate.
Defined.

(** ** Integer arithmetic in binary64 is exact below [2^53] *)
Module ExactFacts.
Local Open Scope Z_scope.

Lemma digits_bounds p : 2 ^ (Zpos (digits2_pos p) - 1) <= Zpos p < 2 ^ Zpos (digits2_pos p).
Proof.
  induction p as [p IH|p IH|]; cbn [digits2_pos].
  - rewrite Pos2Z.inj_succ.
    replace (Z.succ (Zpos (digits2_pos p)) - 1) with (Z.succ (Zpos (digits2_pos p) - 1)) by lia.
    rewrite !Z.pow_succ_r by lia. lia.
  - rewrite Pos2Z.inj_succ.
    replace (Z.succ (Zpos (digits2_pos p)) - 1) with (Z.succ (Zpos (digits2_pos p) - 1)) by lia.
    rewrite !Z.pow_succ_r by lia. lia.
  - cbn. lia.
Qed.

(** The number of digits is fixed by the bounds. *)
Lemma digits_unique p d : 2 ^ (d - 1) <= Zpos p < 2 ^ d -> Zpos (digits2_pos p) = d.
Proof.
  intros [L U]. destruct (digits_bounds p) as [L' U'].
  assert (0 < d).
  { destruct (Z.lt_ge_cases 0 d) as [|N]; [assumption|].
    assert (2 ^ d <= 2 ^ 0) by (apply Z.pow_le_mono_r; lia). cbn in *. lia. }
  destruct (Z.lt_trichotomy (Zpos (digits2_pos p)) d) as [C|[C|C]]; [|exact C|].
  - assert (2 ^ Zpos (digits2_pos p) <= 2 ^ (d - 1)) by (apply Z.pow_le_mono_r; lia). lia.
  - assert (2 ^ d <= 2 ^ (Zpos (digits2_pos p) - 1)) by (apply Z.pow_le_mono_r; lia). lia.
Qed.

Lemma digits_shift p j m :
  0 <= j -> Zpos m = Zpos p * 2 ^ j -> Zpos (digits2_pos m) = Zpos (digits2_pos p) + j.
Proof.
  intros J E. apply digits_unique. rewrite E. destruct (digits_bounds p) as [L U].
  replace (Zpos (digits2_pos p) + j - 1) with (Zpos (digits2_pos p) - 1 + j) by lia.
  assert (0 <= Zpos (digits2_pos p) - 1) by lia.
  rewrite !Z.pow_add_r by lia.
  assert (0 < 2 ^ j) by (apply Z.pow_pos_nonneg; lia). nia.
Qed.

Lemma digits_small p : Zpos p < 2 ^ 53 -> Zpos (digits2_pos p) <= 53.
Proof.
  intros U. destruct (digits_bounds p) as [L _].
  destruct (Z.le_gt_cases (Zpos (digits2_pos p)) 53) as [|C]; [assumption|].
  assert (2 ^ 53 <= 2 ^ (Zpos (digits2_pos p) - 1)) by (apply Z.pow_le_mono_r; lia). lia.
Qed.

Lemma iter_pos_iter {A : Type} (f : A -> A) n : forall x, iter_pos f n x = Pos.iter f x n.
Proof.
  induction n as [n IH|n IH|]; intros x; cbn.
  - rewrite !IH. rewrite <- !Pos.iter_swap. reflexivity.
  - rewrite !IH. reflexivity.
  - reflexivity.
Qed.

(** Shifting out zero bits loses nothing. *)
Lemma shr_exact n : forall m, 0 <= m ->
  Pos.iter shr_1 {| shr_m := m * 2 ^ Zpos n; shr_r := false; shr_s := false |} n
  = {| shr_m := m; shr_r := false; shr_s := false |}.
Proof.
  induction n as [|n IH] using Pos.peano_ind; intros m M.
  - cbn [Pos.iter]. replace (m * 2 ^ 1) with (2 * m) by lia.
    destruct m as [|p|p]; [reflexivity | reflexivity | lia].
  - rewrite Pos.iter_succ, Pos2Z.inj_succ, Z.pow_succ_r by lia.
    replace (m * (2 * 2 ^ Zpos n)) with (2 * m * 2 ^ Zpos n) by lia.
    rewrite IH by lia. destruct m as [|p|p]; [reflexivity | reflexivity | lia].
Qed.

Lemma fexp_digits d : 1 <= d <= 53 -> fexp prec emax d = d - 53.
Proof. intros D. unfold fexp, SpecFloat.emin, prec, emax. lia. Qed.

(** Rounding a mantissa that holds [p] followed by zero bits only. *)
Lemma binary_round_aux_exact s M E p :
  Zpos p < 2 ^ 53 ->
  M = Zpos p * 2 ^ (- E) ->
  53 - Zpos (digits2_pos p) <= - E ->
  binary_round_aux prec emax s M E loc_Exact = canon s p.
Proof.
  intros U EM T. assert (D := digits_small p U).
  assert (D1 : 1 <= Zpos (digits2_pos p)) by lia.
  set (d := Zpos (digits2_pos p)) in *.
  set (t := 53 - d) in *.
  assert (P : 0 < 2 ^ (- E)) by (apply Z.pow_pos_nonneg; lia).
  destruct M as [|mp|mp]; [lia | | lia].
  assert (DM : Zpos (digits2_pos mp) = d + - E) by (apply (digits_shift p); [lia | exact EM]).
  unfold binary_round_aux, shr_fexp. cbn [Zdigits2 shr_record_of_loc].
  rewrite DM. replace (d + - E + E) with d by lia. rewrite fexp_digits by lia.
  assert (PT : 0 < Zpos p * 2 ^ t) by (apply Z.mul_pos_pos; [lia | apply Z.pow_pos_nonneg; lia]).
  assert (DT : Zpos (digits2_pos (Z.to_pos (Zpos p * 2 ^ t))) = 53).
  { rewrite (digits_shift p t); [lia | lia |]. rewrite Z2Pos.id by lia. reflexivity. }
  assert (Second :
            forall m, Zpos m = Zpos p * 2 ^ t ->
              (let '(mrs'', e'') :=
                 shr {| shr_m := Zpos m; shr_r := false; shr_s := false |} (d - 53)
                   (fexp prec emax (Zpos (digits2_pos m) + (d - 53)) - (d - 53)) in
               match shr_m mrs'' with
               | 0 => S754_zero s
               | Zpos m0 =>
                   if e'' <=? emax - prec then S754_finite s m0 e'' else S754_infinity s
               | Z.neg _ => S754_nan
               end) = canon s p).
  { intros m Hm. assert (m = Z.to_pos (Zpos p * 2 ^ t)) by (rewrite <- Hm; reflexivity).
    subst m. rewrite DT. replace (53 + (d - 53)) with d by lia. rewrite fexp_digits by lia.
    rewrite Z.sub_diag. cbn [shr shr_m].
    assert (B : (d - 53 <=? emax - prec) = true) by (apply Z.leb_le; unfold emax, prec; lia).
    rewrite B. reflexivity. }
  destruct (d - 53 - E) as [|n|n] eqn:N.
  - (* no shift *)
    cbn [shr shr_m loc_of_shr_record round_nearest_even Zdigits2 shr_record_of_loc].
    assert (E = d - 53) by lia. subst E.
    apply Second. rewrite EM. f_equal. f_equal. unfold t. lia.
  - cbn [shr]. rewrite iter_pos_iter.
    assert (EM' : Zpos mp = (Zpos p * 2 ^ t) * 2 ^ Zpos n).
    { rewrite EM, <- Z.mul_assoc, <- Z.pow_add_r by lia. f_equal. f_equal. lia. }
    rewrite EM', shr_exact by lia.
    cbn [shr_m loc_of_shr_record round_nearest_even].
    destruct (Zpos p * 2 ^ t) as [|q|q] eqn:Q; [lia | | lia].
    cbn [Zdigits2 shr_record_of_loc].
    replace (E + Zpos n) with (d - 53) by lia.
    apply Second. reflexivity.
  - lia.
Qed.

Lemma binary_round_exact s mx ex p :
  Zpos p < 2 ^ 53 ->
  ex <= 0 ->
  Zpos mx = Zpos p * 2 ^ (- ex) ->
  binary_round prec emax s mx ex = canon s p.
Proof.
  intros U X EM. assert (D := digits_small p U).
  unfold binary_round, shl_align.
  rewrite (digits_shift p (- ex) mx) by (lia || exact EM).
  replace (Zpos (digits2_pos p) + - ex + ex) with (Zpos (digits2_pos p)) by lia.
  assert (D1 : 1 <= Zpos (digits2_pos p)) by lia.
  rewrite fexp_digits by lia.
  destruct (Zpos (digits2_pos p) - 53 - ex) as [|n|n] eqn:N.
  - apply binary_round_aux_exact; [exact U | exact EM | lia].
  - apply binary_round_aux_exact; [exact U | exact EM | lia].
  - apply binary_round_aux_exact; [exact U | | lia].
    assert (I : Zpos (Pos.iter xO mx n) = Zpos mx * 2 ^ Zpos n).
    { clear. induction n as [|n IH] using Pos.peano_ind.
      - cbn. lia.
      - rewrite Pos.iter_succ, Pos2Z.inj_succ, Z.pow_succ_r by lia.
        rewrite Pos2Z.inj_xO, IH. lia. }
    rewrite I, EM, <- Z.mul_assoc, <- Z.pow_add_r by lia. f_equal. f_equal. lia.
Qed.


Lemma canon_mantissa p :
  Zpos p < 2 ^ 53 ->
  Zpos (Z.to_pos (Zpos p * 2 ^ (53 - Zpos (digits2_pos p))))
  = Zpos p * 2 ^ (53 - Zpos (digits2_pos p)).
Proof.
  intros U. assert (D := digits_small p U). rewrite Z2Pos.id; [reflexivity|].
  apply Z.mul_pos_pos; [lia | apply Z.pow_pos_nonneg; lia].
Qed.

Lemma represents_zero s z : z = 0 -> represents (S754_zero s) z.
Proof. intros ->. exists s. reflexivity. Qed.

Lemma represents_canon z (s : bool) p :
  0 < Zpos p -> z = (if s then - Zpos p else Zpos p) -> represents (canon s p) z.
Proof. intros _ ->. destruct s; reflexivity. Qed.

(** A number that represents an integer is a zero, or the canonical
    number of its sign and magnitude. *)
Lemma represents_cases f z :
  represents f z ->
  (z = 0 /\ exists s, f = S754_zero s)
  \/ (exists s p, f = canon s p /\ z = (if s then - Zpos p else Zpos p)).
Proof.
  destruct z as [|p|p]; cbn [represents].
  - intros [s ->]. left. eauto.
  - intros ->. right. exists false, p. auto.
  - intros ->. right. exists true, p. auto.
Qed.

Lemma float_of_Z_exact z :
  - 2 ^ 53 < z < 2 ^ 53 -> represents (Prim2SF (float_of_Z z)) z.
Proof.
  intros B.
  assert (P : forall p, Zpos p < 2 ^ 53 ->
                        Prim2SF (PrimFloat.of_uint63 (Uint63.of_Z (Zpos p))) = canon false p).
  { intros p U. rewrite FloatAxioms.of_uint63_spec, Uint63.of_Z_spec.
    rewrite Z.mod_small by (change wB with (2 ^ 63); lia).
    cbn [binary_normalize]. apply binary_round_exact; [exact U | lia | cbn; lia]. }
  destruct z as [|p|p]; cbn [float_of_Z represents].
  - exists false. reflexivity.
  - apply P. lia.
  - rewrite FloatAxioms.opp_spec, P by lia. reflexivity.
Qed.

Lemma shl_align_value mx ex ez :
  ez <= ex -> Zpos (fst (shl_align mx ex ez)) = Zpos mx * 2 ^ (ex - ez).
Proof.
  intros L. unfold shl_align. destruct (ez - ex) as [|n|n] eqn:N; cbn [fst].
  - replace (ex - ez) with 0 by lia. lia.
  - lia.
  - replace (ex - ez) with (Zpos n) by lia. clear.
    induction n as [|n IH] using Pos.peano_ind.
    + cbn. lia.
    + rewrite Pos.iter_succ, Pos2Z.inj_succ, Z.pow_succ_r by lia.
      rewrite Pos2Z.inj_xO, IH. lia.
Qed.

Lemma binary_normalize_exact D ez z :
  - 2 ^ 53 < z < 2 ^ 53 ->
  ez <= 0 ->
  D = z * 2 ^ (- ez) ->
  represents (binary_normalize prec emax D ez false) z.
Proof.
  intros B E HD. assert (P : 0 < 2 ^ (- ez)) by (apply Z.pow_pos_nonneg; lia).
  destruct D as [|m|m]; cbn [binary_normalize].
  - apply represents_zero. nia.
  - destruct z as [|p|p]; [lia | | lia]. cbn [represents].
    apply binary_round_exact; [lia | exact E | exact HD].
  - destruct z as [|p|p]; [lia | lia |]. cbn [represents].
    apply binary_round_exact; [lia | exact E | lia].
Qed.

Lemma cond_Zopp_signed (s : bool) m : cond_Zopp s m = (if s then - m else m).
Proof. destruct s; reflexivity. Qed.

(** The mantissa of [canon], brought to a smaller exponent. *)
Lemma aligned p ez :
  Zpos p < 2 ^ 53 ->
  ez <= Zpos (digits2_pos p) - 53 ->
  Zpos (fst (shl_align (Z.to_pos (Zpos p * 2 ^ (53 - Zpos (digits2_pos p))))
               (Zpos (digits2_pos p) - 53) ez))
  = Zpos p * 2 ^ (- ez).
Proof.
  intros U L. assert (D := digits_small p U).
  rewrite shl_align_value by exact L. rewrite canon_mantissa by exact U.
  rewrite <- Z.mul_assoc, <- Z.pow_add_r by lia. f_equal. f_equal. lia.
Qed.

Lemma sub_exact fx fy x y :
  represents fx x -> represents fy y ->
  - 2 ^ 53 < x < 2 ^ 53 -> - 2 ^ 53 < y < 2 ^ 53 -> - 2 ^ 53 < x - y < 2 ^ 53 ->
  represents (SFsub prec emax fx fy) (x - y).
Proof.
  intros Rx Ry Bx By Bz.
  destruct (represents_cases fx x Rx) as [[-> [sx ->]] | (sx & p & -> & Ex)];
    destruct (represents_cases fy y Ry) as [[-> [sy ->]] | (sy & q & -> & Ey)].
  - destruct sx, sy; eexists; reflexivity.
  - subst y. destruct sy; reflexivity.
  - subst x. destruct sx; reflexivity.
  - assert (Up : Zpos p < 2 ^ 53) by (destruct sx; lia).
    assert (Uq : Zpos q < 2 ^ 53) by (destruct sy; lia).
    assert (Dp := digits_small p Up). assert (Dq := digits_small q Uq).
    unfold canon. cbn [SFsub].
    apply binary_normalize_exact; [exact Bz | lia |].
    rewrite !cond_Zopp_signed, !aligned by lia.
    subst x y. destruct sx, sy; lia.
Qed.

Lemma mul_exact fx fy x y :
  represents fx x -> represents fy y ->
  - 2 ^ 53 < x < 2 ^ 53 -> - 2 ^ 53 < y < 2 ^ 53 -> - 2 ^ 53 < x * y < 2 ^ 53 ->
  represents (SFmul prec emax fx fy) (x * y).
Proof.
  intros Rx Ry Bx By Bz.
  destruct (represents_cases fx x Rx) as [[-> [sx ->]] | (sx & p & -> & Ex)];
    destruct (represents_cases fy y Ry) as [[-> [sy ->]] | (sy & q & -> & Ey)].
  - eexists; reflexivity.
  - apply represents_zero. reflexivity.
  - apply represents_zero. lia.
  - assert (Up : Zpos p < 2 ^ 53) by (destruct sx; lia).
    assert (Uq : Zpos q < 2 ^ 53) by (destruct sy; lia).
    assert (Dp := digits_small p Up). assert (Dq := digits_small q Uq).
    assert (Upq : Zpos (p * q) < 2 ^ 53) by (subst x y; destruct sx, sy; lia).
    unfold canon. cbn [SFmul].
    rewrite (binary_round_aux_exact _ _ _ (p * q)%positive Upq).
    + apply represents_canon; [lia|]. subst x y. destruct sx, sy; cbn [xorb]; lia.
    + rewrite Pos2Z.inj_mul, !canon_mantissa by assumption.
      replace (- (Zpos (digits2_pos p) - 53 + (Zpos (digits2_pos q) - 53)))
        with ((53 - Zpos (digits2_pos p)) + (53 - Zpos (digits2_pos q))) by lia.
      rewrite Z.pow_add_r by lia. rewrite Pos2Z.inj_mul. lia.
    + destruct (digits_bounds p) as [Lp _]. destruct (digits_bounds q) as [Lq _].
      destruct (digits_bounds (p * q)) as [_ Upq'].
      assert (Zpos (digits2_pos q) <= Zpos (digits2_pos (p * q))).
      { destruct (Z.le_gt_cases (Zpos (digits2_pos q)) (Zpos (digits2_pos (p * q)))) as [|C];
          [assumption|].
        assert (2 ^ Zpos (digits2_pos (p * q)) <= 2 ^ (Zpos (digits2_pos q) - 1))
          by (apply Z.pow_le_mono_r; lia).
        rewrite Pos2Z.inj_mul in Upq'. nia. }
      lia.
Qed.

Lemma compare_scale a b k : 0 < k -> (a * k ?= b * k) = (a ?= b).
Proof.
  intros K. destruct (Z.compare_spec a b) as [->|L|G].
  - apply Z.compare_refl.
  - apply Z.compare_lt_iff. nia.
  - apply Z.compare_gt_iff. nia.
Qed.

(** Canonical numbers of one sign compare like their magnitudes. *)
Lemma compare_canon p q :
  Zpos p < 2 ^ 53 -> Zpos q < 2 ^ 53 ->
  match Zpos (digits2_pos p) - 53 ?= Zpos (digits2_pos q) - 53 with
  | Lt => Lt
  | Gt => Gt
  | Eq => Pos.compare_cont Eq
            (Z.to_pos (Zpos p * 2 ^ (53 - Zpos (digits2_pos p))))
            (Z.to_pos (Zpos q * 2 ^ (53 - Zpos (digits2_pos q))))
  end = (Zpos p ?= Zpos q).
Proof.
  intros Up Uq. assert (Dp := digits_small p Up). assert (Dq := digits_small q Uq).
  destruct (digits_bounds p) as [Lp Hp]. destruct (digits_bounds q) as [Lq Hq].
  destruct (Z.compare_spec (Zpos (digits2_pos p) - 53) (Zpos (digits2_pos q) - 53)) as [E|L|G].
  - assert (E' : Zpos (digits2_pos p) = Zpos (digits2_pos q)) by lia.
    change (Pos.compare_cont Eq ?a ?b) with (Pos.compare a b).
    rewrite Pos2Z.inj_compare, !canon_mantissa by assumption.
    rewrite E'. apply compare_scale. apply Z.pow_pos_nonneg; lia.
  - symmetry. apply Z.compare_lt_iff.
    assert (2 ^ Zpos (digits2_pos p) <= 2 ^ (Zpos (digits2_pos q) - 1))
      by (apply Z.pow_le_mono_r; lia). lia.
  - symmetry. apply Z.compare_gt_iff.
    assert (2 ^ Zpos (digits2_pos q) <= 2 ^ (Zpos (digits2_pos p) - 1))
      by (apply Z.pow_le_mono_r; lia). lia.
Qed.

Lemma ltb_exact fx fy x y :
  represents fx x -> represents fy y ->
  - 2 ^ 53 < x < 2 ^ 53 -> - 2 ^ 53 < y < 2 ^ 53 ->
  SFltb fx fy = (x <? y).
Proof.
  intros Rx Ry Bx By.
  destruct (represents_cases fx x Rx) as [[-> [sx ->]] | (sx & p & -> & Ex)];
    destruct (represents_cases fy y Ry) as [[-> [sy ->]] | (sy & q & -> & Ey)].
  - reflexivity.
  - subst y. destruct sy; reflexivity.
  - subst x. destruct sx; reflexivity.
  - assert (Up : Zpos p < 2 ^ 53) by (destruct sx; lia).
    assert (Uq : Zpos q < 2 ^ 53) by (destruct sy; lia).
    unfold canon, SFltb, SFcompare. subst x y.
    destruct sx, sy; try reflexivity.
    + assert (C := compare_canon p q Up Uq). unfold Z.ltb.
      change (- Zpos p ?= - Zpos q) with (CompOpp (Zpos p ?= Zpos q)).
      rewrite <- C. destruct (_ ?= _); try reflexivity.
    + assert (C := compare_canon p q Up Uq). unfold Z.ltb.
      rewrite <- C. destruct (_ ?= _); reflexivity.
Qed.

End ExactFacts.

(** ** The self-intersection scan on the integer grid *)
Module GridFacts.
Local Open Scope Z_scope.

Lemma existsb_agree {A : Type} (f g : A -> bool) (l : list A) :
  (forall x, In x l -> f x = g x) -> existsb f l = existsb g l.
Proof.
  induction l as [|x l IH]; intros E; [reflexivity|].
  cbn [existsb]. rewrite (E x) by (left; reflexivity). rewrite IH; [reflexivity|].
  intros y I. apply E. right. exact I.
Qed.

Lemma ltb_shift x y : (x <? y) = (0 <? y - x).
Proof. destruct (Z.ltb_spec x y), (Z.ltb_spec 0 (y - x)); (reflexivity || lia). Qed.

Lemma product_bound x y :
  Z.abs x <= 2 ^ 26 -> Z.abs y <= 2 ^ 26 -> - 2 ^ 53 < x * y < 2 ^ 53.
Proof.
  intros X Y. assert (A : Z.abs (x * y) <= 2 ^ 26 * 2 ^ 26).
  { rewrite Z.abs_mul. apply Z.mul_le_mono_nonneg; lia. }
  change (2 ^ 26 * 2 ^ 26) with (2 ^ 52) in A. lia.
Qed.

Lemma inGrid_bounds p :
  inGrid p = true -> Z.abs (fst p) <= 2 ^ 25 /\ Z.abs (snd p) <= 2 ^ 25.
Proof.
  unfold inGrid. intros H. apply andb_true_iff in H. destruct H as [A B].
  apply Z.leb_le in A. apply Z.leb_le in B. auto.
Qed.

Section Grid.
Variable host : Host.

(** On the grid the orientation test is computed exactly. *)
Lemma ccw_exact a b c :
  inGrid a = true -> inGrid b = true -> inGrid c = true ->
  ccw host (gridPosition a) (gridPosition b) (gridPosition c)
  = Ok (0 <? orientation a b c).
Proof.
  intros Ha Hb Hc.
  destruct (inGrid_bounds a Ha) as [A0 A1]. destruct (inGrid_bounds b Hb) as [B0 B1].
  destruct (inGrid_bounds c Hc) as [C0 C1].
  unfold ccw, gridPosition, position, js_sub. cbn [GetAt nth ToNumber bind]. f_equal.
  rewrite FloatAxioms.ltb_spec, !FloatAxioms.mul_spec, !FloatAxioms.sub_spec.
  unfold orientation. rewrite <- ltb_shift.
  assert (F : forall z, Z.abs z <= 2 ^ 25 -> represents (Prim2SF (float_of_Z z)) z)
    by (intros z Hz; apply ExactFacts.float_of_Z_exact; lia).
  assert (S : forall x y, Z.abs x <= 2 ^ 25 -> Z.abs y <= 2 ^ 25 ->
                          represents (SFsub prec emax (Prim2SF (float_of_Z x))
                                        (Prim2SF (float_of_Z y))) (x - y))
    by (intros x y Hx Hy; apply ExactFacts.sub_exact; auto; lia).
  assert (M : forall x y x' y',
             Z.abs x <= 2 ^ 25 -> Z.abs y <= 2 ^ 25 -> Z.abs x' <= 2 ^ 25 ->
             Z.abs y' <= 2 ^ 25 ->
             represents
               (SFmul prec emax
                  (SFsub prec emax (Prim2SF (float_of_Z x)) (Prim2SF (float_of_Z y)))
                  (SFsub prec emax (Prim2SF (float_of_Z x')) (Prim2SF (float_of_Z y'))))
               ((x - y) * (x' - y'))).
  { intros x y x' y' Hx Hy Hx' Hy'.
    apply ExactFacts.mul_exact; auto; try lia. apply product_bound; lia. }
  apply ExactFacts.ltb_exact; [apply M | apply M | apply product_bound |
                               apply product_bound]; lia.
Qed.

Lemma segmentsIntersect_exact p1 p2 p3 p4 :
  inGrid p1 = true -> inGrid p2 = true -> inGrid p3 = true -> inGrid p4 = true ->
  segmentsIntersect host (gridPosition p1) (gridPosition p2) (gridPosition p3)
    (gridPosition p4)
  = Ok (crosses p1 p2 p3 p4).
Proof.
  intros B1 B2 B3 B4. unfold segmentsIntersect, crosses.
  rewrite !ccw_exact by assumption. cbn [bind].
  destruct (negb (Bool.eqb _ _)); reflexivity.
Qed.

Lemma orientation_swap a b c : orientation c b a = - orientation a b c.
Proof. unfold orientation. lia. Qed.

(** Read in the other direction, the test gives the same answer unless
    an end point of one segment lies on the line through the other. *)
Lemma crosses_back a b c d :
  orientation a c d <> 0 -> orientation b c d <> 0 ->
  orientation a b c <> 0 -> orientation a b d <> 0 ->
  crosses d c b a = crosses a b c d.
Proof.
  intros N1 N2 N3 N4. unfold crosses.
  assert (E1 : orientation d b a = - orientation a b d) by apply orientation_swap.
  assert (E2 : orientation c b a = - orientation a b c) by apply orientation_swap.
  assert (E3 : orientation d c b = - orientation b c d) by apply orientation_swap.
  assert (E4 : orientation d c a = - orientation a c d) by apply orientation_swap.
  rewrite E1, E2, E3, E4.
  destruct (Z.ltb_spec 0 (orientation a c d)), (Z.ltb_spec 0 (orientation b c d)),
    (Z.ltb_spec 0 (orientation a b c)), (Z.ltb_spec 0 (orientation a b d)),
    (Z.ltb_spec 0 (- orientation a c d)), (Z.ltb_spec 0 (- orientation b c d)),
    (Z.ltb_spec 0 (- orientation a b c)), (Z.ltb_spec 0 (- orientation a b d));
    try lia; reflexivity.
Qed.

(** Off the lines, the test of [segmentsIntersect] is the crossing of the
    segments. *)
Lemma crosses_proper a b c d :
  orientation a c d <> 0 -> orientation b c d <> 0 ->
  orientation a b c <> 0 -> orientation a b d <> 0 ->
  crosses a b c d = properCrossing a b c d.
Proof.
  intros N1 N2 N3 N4. unfold crosses, properCrossing.
  assert (S : forall x y, x <> 0 -> y <> 0 ->
                          negb (Bool.eqb (0 <? x) (0 <? y)) = (x * y <? 0)).
  { intros x y X Y.
    destruct (Z.ltb_spec 0 x), (Z.ltb_spec 0 y), (Z.ltb_spec (x * y) 0);
      try reflexivity; exfalso; nia. }
  rewrite !S by assumption. reflexivity.
Qed.

Lemma generalPosition_spec points i j :
  generalPosition points = true ->
  In (i, j) (examinedPairs (List.length points)) ->
  orientation (nth i points (0, 0)) (nth j points (0, 0)) (nth (j + 1) points (0, 0)) <> 0
  /\ orientation (nth (i + 1) points (0, 0)) (nth j points (0, 0))
       (nth (j + 1) points (0, 0)) <> 0
  /\ orientation (nth i points (0, 0)) (nth (i + 1) points (0, 0)) (nth j points (0, 0))
     <> 0
  /\ orientation (nth i points (0, 0)) (nth (i + 1) points (0, 0))
       (nth (j + 1) points (0, 0)) <> 0.
Proof.
  intros P I. unfold generalPosition in P. rewrite forallb_forall in P.
  specialize (P (i, j) I). cbn [fst snd] in P.
  apply andb_true_iff in P. destruct P as [P N4].
  apply andb_true_iff in P. destruct P as [P N3].
  apply andb_true_iff in P. destruct P as [N1 N2].
  apply negb_true_iff, Z.eqb_neq in N1, N2, N3, N4. auto.
Qed.

Lemma nth_gridRing points i :
  (i < List.length points)%nat ->
  nth i (gridRing points) JUndefined = gridPosition (nth i points (0, 0)).
Proof.
  intros L. unfold gridRing.
  rewrite (nth_indep _ JUndefined (gridPosition (0, 0))) by (rewrite length_map; exact L).
  apply map_nth.
Qed.

Lemma onGrid_nth points i :
  onGrid points = true -> (i < List.length points)%nat -> inGrid (nth i points (0, 0)) = true.
Proof.
  unfold onGrid. intros G L. rewrite forallb_forall in G. apply G. apply nth_In. exact L.
Qed.

Lemma intersectAt_exact points i j :
  onGrid points = true ->
  In (i, j) (examinedPairs (List.length points)) ->
  intersectAt host (gridRing points) (i, j) = Ok (crossesAt points (i, j)).
Proof.
  intros G I. apply ScanFacts.in_examinedPairs in I.
  unfold intersectAt, crossesAt. cbn [fst snd].
  rewrite !nth_gridRing by lia.
  apply segmentsIntersect_exact; (apply onGrid_nth; [exact G | lia]).
Qed.

Lemma intersectBackAt_exact points i j :
  onGrid points = true ->
  In (i, j) (examinedPairs (List.length points)) ->
  intersectBackAt host (gridRing points) (i, j)
  = Ok (crosses (nth (j + 1) points (0, 0)) (nth j points (0, 0))
          (nth (i + 1) points (0, 0)) (nth i points (0, 0))).
Proof.
  intros G I. apply ScanFacts.in_examinedPairs in I.
  unfold intersectBackAt. cbn [fst snd].
  rewrite !nth_gridRing by lia.
  apply segmentsIntersect_exact; (apply onGrid_nth; [exact G | lia]).
Qed.

Lemma directionBlind_grid points :
  onGrid points = true -> generalPosition points = true ->
  directionBlind host (gridRing points) = true.
Proof.
  intros G P. unfold directionBlind, gridRing. rewrite length_map. fold (gridRing points).
  apply forallb_forall. intros [i j] I.
  rewrite (intersectAt_exact points i j G I), (intersectBackAt_exact points i j G I).
  destruct (generalPosition_spec points i j P I) as (N1 & N2 & N3 & N4).
  unfold crossesAt. cbn [fst snd].
  rewrite (crosses_back (nth i points (0, 0)) (nth (i + 1) points (0, 0))
             (nth j points (0, 0)) (nth (j + 1) points (0, 0))) by assumption.
  apply eqb_reflx.
Qed.

End Grid.
End GridFacts.

(** C8, as the code has it: on a ring whose coordinates are integers of
    magnitude at most [2^25], where the arithmetic of the orientation test
    is exact, and in which no end point of an examined segment lies on
    the line through the other segment of the pair, the scan reports an
    intersection exactly when some examined pair of segments crosses, and
    the scan of the reversed ring gives the same verdict.  The recorded
    step and error are then the same too. *)
Theorem reversal_preserves_verdict (host : Host) (points : list (Z * Z)) :
  onGrid points = true ->
  generalPosition points = true ->
  scanSelfIntersections host (gridRing points)
  = Ok (existsb (crossingAt points) (examinedPairs (List.length points)))
  /\ scanSelfIntersections host (rev (gridRing points))
     = scanSelfIntersections host (gridRing points)
  /\ (forall fi r,
         WithSteps.checkSelfIntersectionsWithSteps host (rev (gridRing points)) fi r
         = WithSteps.checkSelfIntersectionsWithSteps host (gridRing points) fi r)
  /\ (forall fi r,
         Plain.checkSelfIntersections host (rev (gridRing points)) fi r
         = Plain.checkSelfIntersections host (gridRing points) fi r).
Proof.
  intros G P.
  assert (S := ScanFacts.scan_rev host (gridRing points)
                 (GridFacts.directionBlind_grid host points G P)).
  split; [|split; [exact S|split; intros fi r]].
  - assert (N : List.length (gridRing points) = List.length points)
      by (unfold gridRing; apply length_map).
    rewrite ScanFacts.scan_spec; rewrite N.
    + f_equal. apply GridFacts.existsb_agree. intros [i j] I. unfold hit.
      rewrite (GridFacts.intersectAt_exact host points i j G I).
      destruct (GridFacts.generalPosition_spec points i j P I) as (N1 & N2 & N3 & N4).
      unfold crossesAt, crossingAt. cbn [fst snd].
      apply GridFacts.crosses_proper; assumption.
    + intros [i j] I. rewrite (GridFacts.intersectAt_exact host points i j G I). eauto.
  - unfold WithSteps.checkSelfIntersectionsWithSteps. rewrite S. reflexivity.
  - unfold Plain.checkSelfIntersections. rewrite S. reflexivity.
Qed.

(** Reversal at the bowtie, whose two diagonals cross. *)
Lemma reversal_preserves_verdict_bowtie :
  gridRing bowtiePoints = bowtie
  /\ scanSelfIntersections sampleHost (gridRing bowtiePoints) = Ok true
  /\ scanSelfIntersections sampleHost (rev (gridRing bowtiePoints))
     = scanSelfIntersections sampleHost (gridRing bowtiePoints).
Proof.
  destruct (reversal_preserves_verdict sampleHost bowtiePoints) as (A & B & _);
    [vm_compute; reflexivity | vm_compute; reflexivity |].
  split; [vm_compute; reflexivity | split; [exact A | exact B]].
Defined.

(** C8, against the claim: vertex (1,0) of [touchingRing] lies on the
    edge from (0,0) to (2,0), so the ring is not in general position.
    Read forwards, that edge and the edge arriving at (1,0) are reported
    as intersecting; read backwards, no pair is.  A vertex on an edge need
    not change the verdict, though: [touchingCrossingPoints] has the same
    vertex on the same edge, and a crossing that is found in both
    directions. *)
Lemma reversal_changes_verdict :
  scanSelfIntersections sampleHost touchingRing = Ok true
  /\ scanSelfIntersections sampleHost (rev touchingRing) = Ok false
  /\ intersectAt sampleHost touchingRing (0, 2) = Ok true
  /\ intersectBackAt sampleHost touchingRing (0, 2) = Ok false
  /\ (exists r r',
         WithSteps.validateGeoJSONWithSteps sampleHost
           (collection [polygonFeature touchingRing]) = Ok r
         /\ WithSteps.validateGeoJSONWithSteps sampleHost
              (collection [polygonFeature (rev touchingRing)]) = Ok r'
         /\ WithSteps.errors r = ["Feature 0: Self-intersection detected"]
         /\ WithSteps.isValid r' = true)
  /\ gridRing touchingPoints = touchingRing
  /\ onGrid touchingPoints = true
  /\ generalPosition touchingPoints = false
  /\ onGrid touchingCrossingPoints = true
  /\ generalPosition touchingCrossingPoints = false
  /\ scanSelfIntersections sampleHost (gridRing touchingCrossingPoints) = Ok true
  /\ scanSelfIntersections sampleHost (rev (gridRing touchingCrossingPoints)) = Ok true.
Proof.
  repeat split; try (vm_compute; reflexivity).
  eexists. eexists. repeat split; vm_compute; reflexivity.
Qed.

(** ** Rounding, and numbers that are always numbers *)
Module RoundingFacts.
Local Open Scope Z_scope.











End RoundingFacts.

(** ** The checks after the closure check, in the plain engine *)
Module LaterFacts.



Section Engine.
Variable host : Host.
Import Plain.




End Engine.
End LaterFacts.



